(** * AI Interview Coach: posture/emotion classification and alerting engine

    A shallow embedding of the browser front end's detection core
    (postureDetection.js, emotionDetection.js, detectionManager.js,
    interviewManager.js, main.js, uiController.js) and the properties the
    specification states about it.

    JavaScript numbers are IEEE 754 binary64 values; they are modelled by
    Rocq's primitive [float], whose operations are the same binary64
    operations, so every arithmetic expression below evaluates to the bits the
    browser produces.  [Math.atan2] is the one numeric primitive with no
    counterpart here (ECMAScript leaves its accuracy to the engine): it is a
    parameter of the development. *)

From Stdlib Require Import ZArith List String Bool Lia.
From Stdlib Require Import PrimFloat FloatOps SpecFloat FloatAxioms.
From Stdlib Require Uint63.
From stdpp Require Import gmap strings.
Import ListNotations.

Local Open Scope string_scope.
Local Open Scope list_scope.

(* Decimal literals are read as JavaScript reads them: the nearest binary64. *)
#[local] Set Warnings "-inexact-float".

(* ===================================================================== *)
(** ** JavaScript numbers *)
(* ===================================================================== *)

Module JS.

Definition number := float.

(** [ToBoolean] of a number: false for [+0], [-0] and [NaN]. *)
Definition truthy (x : number) : bool := negb (PrimFloat.is_zero x || PrimFloat.is_nan x).

(** The global [isNaN] applied to a number. *)
Definition isNaN (x : number) : bool := PrimFloat.is_nan x.

(** [a > b] is [b < a]; both are false as soon as one side is [NaN]. *)
Definition gt (a b : number) : bool := (b <? a)%float.

Definition Math_abs (x : number) : number := abs x.

(** [Math.PI], the binary64 value nearest to pi. *)
Definition Math_PI : number := 0x1.921fb54442d18p+1%float.

(** A non-negative integer as a number (exact below 2^53; array lengths
    are below 2^32). *)
Definition of_nat (n : nat) : number := of_uint63 (Uint63.of_Z (Z.of_nat n)).

Definition of_Z (z : Z) : number :=
  if (z <? 0)%Z then (- of_uint63 (Uint63.of_Z (- z)))%float
  else of_uint63 (Uint63.of_Z z).

(** [Math.round]: the integral number closest to [x], a tie going to the
    integer closer to +infinity, that is floor (x + 1/2) computed on the
    exact value of [x]; zeros, infinities and [NaN] are returned as they
    are, and a result in [-0.5, 0) is [-0]. *)
Definition Math_round (x : number) : number :=
  match Prim2SF x with
  | S754_finite s m e =>
      if (0 <=? e)%Z then x
      else
        let n := if s then Z.neg m else Z.pos m in
        let d := (2 ^ (- e))%Z in
        let r := ((2 * n + d) / (2 * d))%Z in
        if (r =? 0)%Z then (if s then neg_zero else zero) else of_Z r
  | _ => x
  end.

End JS.

(* ===================================================================== *)
(** ** postureDetection.js: keypoints and the posture classifier *)
(* ===================================================================== *)

(** A pose keypoint.  PoseNet names the landmark in [part], BlazePose in
    [name]; either may be missing.  The depth and score fields are never
    read by the code. *)
Record Keypoint : Type := mkKeypoint {
  kp_part : option string;
  kp_name : option string;
  kp_x : JS.number;
  kp_y : JS.number
}.

(** [{ ratio: ... }] *)
Record Baseline : Type := mkBaseline { ratio : JS.number }.

(** [k.part || k.name]: the first operand unless it is falsy
    ([undefined] or the empty string). *)
Definition part_or_name (k : Keypoint) : option string :=
  match kp_part k with
  | Some p => if String.eqb p "" then kp_name k else Some p
  | None => kp_name k
  end.

Definition names (name : string) (k : Keypoint) : bool :=
  match part_or_name k with
  | Some s => String.eqb s name
  | None => false
  end.

(** [keypoints.find((k) => (k.part || k.name) === name)] *)
Definition findKeypoint (keypoints : list Keypoint) (name : string)
  : option Keypoint :=
  List.find (names name) keypoints.

(** [flags.push(label)] *)
Definition push (flags : list string) (label : string) : list string :=
  flags ++ [label].

Section Engine.

(** The engine's [Math.atan2]. *)
Variable Math_atan2 : JS.number -> JS.number -> JS.number.

(** Priority 1 of [analyzePosture]: the slouching check. *)
Definition deviation_of (b : Baseline) (leftShoulder rightShoulder nose : Keypoint)
  : JS.number :=
  let shoulderWidth := JS.Math_abs (kp_x rightShoulder - kp_x leftShoulder)%float in
  let avgShoulderY := ((kp_y leftShoulder + kp_y rightShoulder) / 2)%float in
  let noseToShoulderGap := (avgShoulderY - kp_y nose)%float in
  if JS.truthy (ratio b)
  then ((noseToShoulderGap / shoulderWidth - ratio b) / ratio b)%float
  else 0%float.

Definition check_slouching (baselinePosture : option Baseline)
  (leftShoulder rightShoulder nose : Keypoint) (flags : list string)
  : list string :=
  let shoulderWidth := JS.Math_abs (kp_x rightShoulder - kp_x leftShoulder)%float in
  match baselinePosture with
  | Some b =>
      if JS.gt shoulderWidth 0%float
      then
        if (deviation_of b leftShoulder rightShoulder nose <? -0.25)%float
        then push flags "Slouching" else flags
      else flags
  | None => flags
  end.

(** Priority 2: vertical head tilt. *)
Definition check_tilt (leftEye rightEye leftEar rightEar : option Keypoint)
  (flags : list string) : list string :=
  match leftEye, rightEye, leftEar, rightEar with
  | Some le, Some re, Some la, Some ra =>
      let avgEyeY := ((kp_y le + kp_y re) / 2)%float in
      let avgEarY := ((kp_y la + kp_y ra) / 2)%float in
      let eyeDistance := JS.Math_abs (kp_x le - kp_x re)%float in
      let tiltRatio := ((avgEarY - avgEyeY) / eyeDistance)%float in
      if (tiltRatio <? -0.2)%float then push flags "Looking Down"
      else if JS.gt tiltRatio 0.35%float then push flags "Looking Up"
      else flags
  | _, _, _, _ => flags
  end.

(** Priority 3: head leaning sideways. *)
Definition check_leaning (mouthLeft mouthRight : option Keypoint)
  (leftShoulder rightShoulder : Keypoint) (flags : list string) : list string :=
  let shoulderWidth := JS.Math_abs (kp_x rightShoulder - kp_x leftShoulder)%float in
  match mouthLeft, mouthRight with
  | Some ml, Some mr =>
      let midShoulderX := ((kp_x leftShoulder + kp_x rightShoulder) / 2)%float in
      let midMouthX := ((kp_x ml + kp_x mr) / 2)%float in
      if JS.gt (JS.Math_abs (midMouthX - midShoulderX)%float)
               (shoulderWidth * 0.15)%float
      then push flags "Leaning Head" else flags
  | _, _ => flags
  end.

(** Priority 4: tilted shoulders. *)
Definition check_shoulders (leftShoulder rightShoulder : Keypoint)
  (flags : list string) : list string :=
  let shoulderAngleDeg :=
    JS.Math_abs
      ((Math_atan2 (kp_y rightShoulder - kp_y leftShoulder)
                   (kp_x rightShoulder - kp_x leftShoulder) * 180)
       / JS.Math_PI)%float in
  if (shoulderAngleDeg <? 174)%float then push flags "Tilted Shoulders" else flags.

(** [analyzePosture(keypoints)]; the module variable [baselinePosture] it
    reads is an argument. *)
Definition analyzePosture (baselinePosture : option Baseline)
  (keypoints : list Keypoint) : list string :=
  let flags := [] in
  let leftShoulder := findKeypoint keypoints "left_shoulder" in
  let rightShoulder := findKeypoint keypoints "right_shoulder" in
  let nose := findKeypoint keypoints "nose" in
  let mouthLeft := findKeypoint keypoints "mouth_left" in
  let mouthRight := findKeypoint keypoints "mouth_right" in
  let leftEye := findKeypoint keypoints "left_eye" in
  let rightEye := findKeypoint keypoints "right_eye" in
  let leftEar := findKeypoint keypoints "left_ear" in
  let rightEar := findKeypoint keypoints "right_ear" in
  match leftShoulder, rightShoulder, nose with
  | Some ls, Some rs, Some n =>
      let flags := check_slouching baselinePosture ls rs n flags in
      let flags := check_tilt leftEye rightEye leftEar rightEar flags in
      let flags := check_leaning mouthLeft mouthRight ls rs flags in
      check_shoulders ls rs flags
  | _, _, _ => push flags "Key points hidden"
  end.

End Engine.

(* ===================================================================== *)
(** ** emotionDetection.js: the dominant expression *)
(* ===================================================================== *)

(** [Object.entries(expressions)]: the own entries of the expression
    object, in the object's iteration order. *)
Definition Expressions := list (string * JS.number).

(** The comparator [(a, b) => b[1] - a[1]]. *)
Definition by_score_desc (a b : string * JS.number) : JS.number :=
  (snd b - snd a)%float.

(** [Array.prototype.sort] is a stable sort (ECMAScript 2019): an element
    goes before another exactly when the comparator is negative on them;
    a zero result keeps the original order.  The stable insertion sort
    below places each next element before the first already-placed
    element it must precede.  It is the engine's sort where the
    comparator is consistent, which [by_score_desc] is on scores without
    [NaN]; on a [NaN] result ECMAScript leaves the order to the engine,
    and the sort below, which keeps the original order there, is one
    possible engine.  The statements about the sorted order exclude
    [NaN] scores. *)
Fixpoint sort_insert {A} (cmp : A -> A -> JS.number) (x : A) (sorted : list A)
  : list A :=
  match sorted with
  | [] => [x]
  | y :: rest =>
      if (cmp x y <? 0)%float then x :: y :: rest
      else y :: sort_insert cmp x rest
  end.

Definition Array_sort {A} (cmp : A -> A -> JS.number) (l : list A) : list A :=
  fold_left (fun sorted x => sort_insert cmp x sorted) l [].

(** [const [dominantEmotion] = Object.entries(expressions).sort(...)[0]];
    [None] is the TypeError of destructuring [undefined] when the object
    has no entry. *)
Definition dominantEmotion (expressions : Expressions) : option string :=
  match Array_sort by_score_desc expressions with
  | (label, _) :: _ => Some label
  | [] => None
  end.

Definition NEGATIVE_EMOTIONS : list string := ["sad"; "angry"; "fearful"].

(** [NEGATIVE_EMOTIONS.has(e)] *)
Definition is_negative (e : string) : bool :=
  existsb (String.eqb e) NEGATIVE_EMOTIONS.

(** [EMOTION_MAP[e] || "🤔"] *)
Definition emoji_of (e : string) : string :=
  if String.eqb e "happy" then "😊"
  else if String.eqb e "sad" then "😢"
  else if String.eqb e "neutral" then "😐"
  else if String.eqb e "surprised" then "😮"
  else if String.eqb e "angry" then "😠"
  else if String.eqb e "fearful" then "😨"
  else "🤔".

Definition upper (c : Ascii.ascii) : Ascii.ascii :=
  let n := Ascii.nat_of_ascii c in
  if (97 <=? n)%nat && (n <=? 122)%nat then Ascii.ascii_of_nat (n - 32) else c.

(** [e.charAt(0).toUpperCase() + e.slice(1)] on the ASCII emotion names. *)
Definition capitalise (e : string) : string :=
  match e with
  | EmptyString => EmptyString
  | String c rest => String (upper c) rest
  end.

(* ===================================================================== *)
(** ** interviewManager.js: the percentage distribution *)
(* ===================================================================== *)

(** The accumulator of the [reduce] is a plain object [{}]: a key it does
    not own is looked up in [Object.prototype], whose members in a browser
    are these. *)
Definition Object_prototype : list string :=
  [ "constructor"; "__defineGetter__"; "__defineSetter__"; "hasOwnProperty";
    "__lookupGetter__"; "__lookupSetter__"; "isPrototypeOf";
    "propertyIsEnumerable"; "toString"; "valueOf"; "__proto__";
    "toLocaleString" ].

Definition inherited (key : string) : bool :=
  existsb (String.eqb key) Object_prototype.

(** What the accumulator owns under a key: a count, or the string that
    [+ 1] makes of an inherited member, which is the member's text
    followed by as many digits 1 as the key has occurred. *)
Inductive Count : Type :=
| Counted (n : nat)
| Concatenated (ones : nat).

(** [acc[val] = (acc[val] || 0) + 1].  An own count is incremented and an
    own string gets one more digit.  For a key not owned, an inherited
    member is truthy and [+ 1] concatenates: the string becomes an own
    property, except under [__proto__], whose setter ignores a string;
    any other key starts at [0 + 1]. *)
Definition count_label (acc : gmap string Count) (val : string)
  : gmap string Count :=
  match acc !! val with
  | Some (Counted n) => <[val := Counted (n + 1)]> acc
  | Some (Concatenated ones) => <[val := Concatenated (ones + 1)]> acc
  | None =>
      if inherited val then
        if String.eqb val "__proto__" then acc
        else <[val := Concatenated 1]> acc
      else <[val := Counted 1]> acc
  end.

(** The [reduce] of [calculateDistribution]. *)
Definition count_labels (dataArray : list string) : gmap string Count :=
  fold_left count_label dataArray ∅.

(** [ToNumber] of what the accumulator owns: the text of a function
    followed by digits is no numeric literal. *)
Definition Count_number (count : Count) : JS.number :=
  match count with
  | Counted n => JS.of_nat n
  | Concatenated _ => nan
  end.

(** [Math.round((counts[key] / dataArray.length) * 100)] *)
Definition percentage (count : Count) (total : nat) : JS.number :=
  JS.Math_round (Count_number count / JS.of_nat total * 100)%float.

(** [calculateDistribution(dataArray)]: the [for ... in] loop gives every
    own key of [counts] its percentage (the inherited members are not
    enumerable). *)
Definition calculateDistribution (dataArray : list string)
  : gmap string JS.number :=
  if (length dataArray =? 0)%nat then ∅
  else
    let counts := count_labels dataArray in
    (fun c => percentage c (length dataArray)) <$> counts.

(* ===================================================================== *)
(** ** The page: module variables, timers and the notification sink *)
(* ===================================================================== *)

(** The callbacks the code hands to [setTimeout] and [setInterval]. *)
Inductive Callback : Type :=
| PostureAlert      (* postureDetection.js, the arrow function of line 116 *)
| EmotionAlert      (* emotionDetection.js, the arrow function of line 67 *)
| HideNotification  (* uiController.js, showNotification *)
| CheckDimensions   (* detectionManager.js, startDetection (an interval) *)
| EmotionLoop       (* detectionManager.js, runEmotionDetection (an interval) *)
| AwaitAnswers      (* interviewManager.js, waitForAllAnswers (an interval) *)
| ShowReport.       (* interviewManager.js, the timeout that ends endInterview *)

Definition repeats (cb : Callback) : bool :=
  match cb with
  | CheckDimensions | EmotionLoop | AwaitAnswers => true
  | _ => false
  end.

Record Question : Type := mkQuestion { q_text : string; q_type : string }.

(** One detected subject of [estimatePoses]. *)
Record Pose : Type := mkPose { keypoints : option (list Keypoint) }.

(** postureDetection.js *)
Record PostureGlobals : Type := mkPostureGlobals {
  baselinePosture : option Baseline;
  lastKeypoints : option (list Keypoint);
  badPostureTimer : option nat;
  isAlertingPosture : bool
}.

(** emotionDetection.js *)
Record EmotionGlobals : Type := mkEmotionGlobals {
  badEmotionTimer : option nat;
  isAlertingEmotion : bool;
  lastDetectedEmotion : string
}.

(** main.js ([poseDetector] and [canvasContext] are only tested for
    presence; the media recorder and its chunks are not modelled). *)
Record MainGlobals : Type := mkMainGlobals {
  recording : bool;
  poseDetector : bool;
  canvasContext : bool;
  detectionInterval : option nat;
  poseDetectionFrameId : option nat
}.

(** interviewManager.js *)
Record InterviewGlobals : Type := mkInterviewGlobals {
  isFetchingQuestions : bool;
  answersBeingProcessed : Z;
  questions : list Question;
  currentQuestionIndex : nat;
  totalQuestions : nat;
  interviewData : list string;
  currentAnswerEmotions : list string;
  currentAnswerPostures : list string
}.

(** What the browser holds for the page: the map of active timers shared
    by [setTimeout] and [setInterval] (handle to callback), the handles of
    the animation-frame requests (their callback is always the pose loop), the
    inference and microphone promises not yet settled, the camera stream,
    and the text the code writes into the document.  [notifications] is
    the log of [showNotification] calls, oldest first. *)
Record Browser : Type := mkBrowser {
  timers : gmap nat Callback;
  nextTimerId : nat;
  frames : gset nat;
  nextFrameId : nat;
  posesInFlight : nat;
  facesInFlight : nat;
  micRequests : nat;
  cameraLive : bool;
  notifications : list (string * string);
  notificationShown : bool;
  postureIcon : string;
  postureLabel : string;
  emotionEmoji : string;
  emotionLabel : string;
  questionText : string;
  screen : string
}.

Record State : Type := mkState {
  posture : PostureGlobals;
  emotion : EmotionGlobals;
  main : MainGlobals;
  interview : InterviewGlobals;
  browser : Browser
}.

(** *** Assignments to the module variables *)

Definition with_posture (f : PostureGlobals -> PostureGlobals) (s : State) :=
  mkState (f (posture s)) (emotion s) (main s) (interview s) (browser s).
Definition with_emotion (f : EmotionGlobals -> EmotionGlobals) (s : State) :=
  mkState (posture s) (f (emotion s)) (main s) (interview s) (browser s).
Definition with_main (f : MainGlobals -> MainGlobals) (s : State) :=
  mkState (posture s) (emotion s) (f (main s)) (interview s) (browser s).
Definition with_interview (f : InterviewGlobals -> InterviewGlobals) (s : State) :=
  mkState (posture s) (emotion s) (main s) (f (interview s)) (browser s).
Definition with_browser (f : Browser -> Browser) (s : State) :=
  mkState (posture s) (emotion s) (main s) (interview s) (f (browser s)).

Definition set_baselinePosture (v : option Baseline) :=
  with_posture (fun p =>
    mkPostureGlobals v (lastKeypoints p) (badPostureTimer p) (isAlertingPosture p)).
Definition set_lastKeypoints (v : option (list Keypoint)) :=
  with_posture (fun p =>
    mkPostureGlobals (baselinePosture p) v (badPostureTimer p) (isAlertingPosture p)).
Definition set_badPostureTimer (v : option nat) :=
  with_posture (fun p =>
    mkPostureGlobals (baselinePosture p) (lastKeypoints p) v (isAlertingPosture p)).
Definition set_isAlertingPosture (v : bool) :=
  with_posture (fun p =>
    mkPostureGlobals (baselinePosture p) (lastKeypoints p) (badPostureTimer p) v).

Definition set_badEmotionTimer (v : option nat) :=
  with_emotion (fun e =>
    mkEmotionGlobals v (isAlertingEmotion e) (lastDetectedEmotion e)).
Definition set_isAlertingEmotion (v : bool) :=
  with_emotion (fun e =>
    mkEmotionGlobals (badEmotionTimer e) v (lastDetectedEmotion e)).
Definition set_lastDetectedEmotion (v : string) :=
  with_emotion (fun e =>
    mkEmotionGlobals (badEmotionTimer e) (isAlertingEmotion e) v).

Definition set_recording (v : bool) :=
  with_main (fun m =>
    mkMainGlobals v (poseDetector m) (canvasContext m) (detectionInterval m)
                  (poseDetectionFrameId m)).
Definition set_poseDetector (v : bool) :=
  with_main (fun m =>
    mkMainGlobals (recording m) v (canvasContext m) (detectionInterval m)
                  (poseDetectionFrameId m)).
Definition set_canvasContext (v : bool) :=
  with_main (fun m =>
    mkMainGlobals (recording m) (poseDetector m) v (detectionInterval m)
                  (poseDetectionFrameId m)).
Definition set_detectionInterval (v : option nat) :=
  with_main (fun m =>
    mkMainGlobals (recording m) (poseDetector m) (canvasContext m) v
                  (poseDetectionFrameId m)).
Definition set_poseDetectionFrameId (v : option nat) :=
  with_main (fun m =>
    mkMainGlobals (recording m) (poseDetector m) (canvasContext m)
                  (detectionInterval m) v).

Definition set_isFetchingQuestions (v : bool) :=
  with_interview (fun i =>
    mkInterviewGlobals v (answersBeingProcessed i) (questions i)
      (currentQuestionIndex i) (totalQuestions i) (interviewData i)
      (currentAnswerEmotions i) (currentAnswerPostures i)).
Definition set_answersBeingProcessed (v : Z) :=
  with_interview (fun i =>
    mkInterviewGlobals (isFetchingQuestions i) v (questions i)
      (currentQuestionIndex i) (totalQuestions i) (interviewData i)
      (currentAnswerEmotions i) (currentAnswerPostures i)).
Definition set_questions (v : list Question) :=
  with_interview (fun i =>
    mkInterviewGlobals (isFetchingQuestions i) (answersBeingProcessed i) v
      (currentQuestionIndex i) (totalQuestions i) (interviewData i)
      (currentAnswerEmotions i) (currentAnswerPostures i)).
Definition set_currentQuestionIndex (v : nat) :=
  with_interview (fun i =>
    mkInterviewGlobals (isFetchingQuestions i) (answersBeingProcessed i)
      (questions i) v (totalQuestions i) (interviewData i)
      (currentAnswerEmotions i) (currentAnswerPostures i)).
Definition set_totalQuestions (v : nat) :=
  with_interview (fun i =>
    mkInterviewGlobals (isFetchingQuestions i) (answersBeingProcessed i)
      (questions i) (currentQuestionIndex i) v (interviewData i)
      (currentAnswerEmotions i) (currentAnswerPostures i)).
Definition set_interviewData (v : list string) :=
  with_interview (fun i =>
    mkInterviewGlobals (isFetchingQuestions i) (answersBeingProcessed i)
      (questions i) (currentQuestionIndex i) (totalQuestions i) v
      (currentAnswerEmotions i) (currentAnswerPostures i)).
Definition set_currentAnswerEmotions (v : list string) :=
  with_interview (fun i =>
    mkInterviewGlobals (isFetchingQuestions i) (answersBeingProcessed i)
      (questions i) (currentQuestionIndex i) (totalQuestions i)
      (interviewData i) v (currentAnswerPostures i)).
Definition set_currentAnswerPostures (v : list string) :=
  with_interview (fun i =>
    mkInterviewGlobals (isFetchingQuestions i) (answersBeingProcessed i)
      (questions i) (currentQuestionIndex i) (totalQuestions i)
      (interviewData i) (currentAnswerEmotions i) v).

Definition set_timers (v : gmap nat Callback) :=
  with_browser (fun b =>
    mkBrowser v (nextTimerId b) (frames b) (nextFrameId b) (posesInFlight b)
      (facesInFlight b) (micRequests b) (cameraLive b) (notifications b)
      (notificationShown b) (postureIcon b) (postureLabel b) (emotionEmoji b)
      (emotionLabel b) (questionText b) (screen b)).
Definition set_nextTimerId (v : nat) :=
  with_browser (fun b =>
    mkBrowser (timers b) v (frames b) (nextFrameId b) (posesInFlight b)
      (facesInFlight b) (micRequests b) (cameraLive b) (notifications b)
      (notificationShown b) (postureIcon b) (postureLabel b) (emotionEmoji b)
      (emotionLabel b) (questionText b) (screen b)).
Definition set_frames (v : gset nat) :=
  with_browser (fun b =>
    mkBrowser (timers b) (nextTimerId b) v (nextFrameId b) (posesInFlight b)
      (facesInFlight b) (micRequests b) (cameraLive b) (notifications b)
      (notificationShown b) (postureIcon b) (postureLabel b) (emotionEmoji b)
      (emotionLabel b) (questionText b) (screen b)).
Definition set_nextFrameId (v : nat) :=
  with_browser (fun b =>
    mkBrowser (timers b) (nextTimerId b) (frames b) v (posesInFlight b)
      (facesInFlight b) (micRequests b) (cameraLive b) (notifications b)
      (notificationShown b) (postureIcon b) (postureLabel b) (emotionEmoji b)
      (emotionLabel b) (questionText b) (screen b)).
Definition set_posesInFlight (v : nat) :=
  with_browser (fun b =>
    mkBrowser (timers b) (nextTimerId b) (frames b) (nextFrameId b) v
      (facesInFlight b) (micRequests b) (cameraLive b) (notifications b)
      (notificationShown b) (postureIcon b) (postureLabel b) (emotionEmoji b)
      (emotionLabel b) (questionText b) (screen b)).
Definition set_facesInFlight (v : nat) :=
  with_browser (fun b =>
    mkBrowser (timers b) (nextTimerId b) (frames b) (nextFrameId b)
      (posesInFlight b) v (micRequests b) (cameraLive b) (notifications b)
      (notificationShown b) (postureIcon b) (postureLabel b) (emotionEmoji b)
      (emotionLabel b) (questionText b) (screen b)).
Definition set_micRequests (v : nat) :=
  with_browser (fun b =>
    mkBrowser (timers b) (nextTimerId b) (frames b) (nextFrameId b)
      (posesInFlight b) (facesInFlight b) v (cameraLive b) (notifications b)
      (notificationShown b) (postureIcon b) (postureLabel b) (emotionEmoji b)
      (emotionLabel b) (questionText b) (screen b)).
Definition set_cameraLive (v : bool) :=
  with_browser (fun b =>
    mkBrowser (timers b) (nextTimerId b) (frames b) (nextFrameId b)
      (posesInFlight b) (facesInFlight b) (micRequests b) v (notifications b)
      (notificationShown b) (postureIcon b) (postureLabel b) (emotionEmoji b)
      (emotionLabel b) (questionText b) (screen b)).
Definition set_notifications (v : list (string * string)) :=
  with_browser (fun b =>
    mkBrowser (timers b) (nextTimerId b) (frames b) (nextFrameId b)
      (posesInFlight b) (facesInFlight b) (micRequests b) (cameraLive b) v
      (notificationShown b) (postureIcon b) (postureLabel b) (emotionEmoji b)
      (emotionLabel b) (questionText b) (screen b)).
Definition set_notificationShown (v : bool) :=
  with_browser (fun b =>
    mkBrowser (timers b) (nextTimerId b) (frames b) (nextFrameId b)
      (posesInFlight b) (facesInFlight b) (micRequests b) (cameraLive b)
      (notifications b) v (postureIcon b) (postureLabel b) (emotionEmoji b)
      (emotionLabel b) (questionText b) (screen b)).
Definition set_postureUI (icon label : string) :=
  with_browser (fun b =>
    mkBrowser (timers b) (nextTimerId b) (frames b) (nextFrameId b)
      (posesInFlight b) (facesInFlight b) (micRequests b) (cameraLive b)
      (notifications b) (notificationShown b) icon label (emotionEmoji b)
      (emotionLabel b) (questionText b) (screen b)).
Definition set_emotionUI (emoji label : string) :=
  with_browser (fun b =>
    mkBrowser (timers b) (nextTimerId b) (frames b) (nextFrameId b)
      (posesInFlight b) (facesInFlight b) (micRequests b) (cameraLive b)
      (notifications b) (notificationShown b) (postureIcon b) (postureLabel b)
      emoji label (questionText b) (screen b)).
Definition set_questionText (v : string) :=
  with_browser (fun b =>
    mkBrowser (timers b) (nextTimerId b) (frames b) (nextFrameId b)
      (posesInFlight b) (facesInFlight b) (micRequests b) (cameraLive b)
      (notifications b) (notificationShown b) (postureIcon b) (postureLabel b)
      (emotionEmoji b) (emotionLabel b) v (screen b)).
Definition set_screen (v : string) :=
  with_browser (fun b =>
    mkBrowser (timers b) (nextTimerId b) (frames b) (nextFrameId b)
      (posesInFlight b) (facesInFlight b) (micRequests b) (cameraLive b)
      (notifications b) (notificationShown b) (postureIcon b) (postureLabel b)
      (emotionEmoji b) (emotionLabel b) (questionText b) v).

(** *** Browser services *)

(** [setTimeout(cb, ms)] and [setInterval(cb, ms)]: both draw the handle
    from one counter, which starts at 1, and enter the callback in the timer
    table.  The delay is not part of the state: when a timer fires is the
    environment's choice (see [Event]). *)
Definition setTimer (cb : Callback) (s : State) : nat * State :=
  let id := nextTimerId (browser s) in
  (id, set_nextTimerId (S id) (set_timers (<[id := cb]> (timers (browser s))) s)).

(** [clearTimeout(id)] and [clearInterval(id)] *)
Definition clearTimer (id : nat) (s : State) : State :=
  set_timers (delete id (timers (browser s))) s.

(** [requestAnimationFrame(() => runPoseDetectionLoop(videoEl))] *)
Definition requestAnimationFrame (s : State) : nat * State :=
  let id := nextFrameId (browser s) in
  (id, set_nextFrameId (S id) (set_frames ({[id]} ∪ frames (browser s)) s)).

(** [cancelAnimationFrame(id)] *)
Definition cancelAnimationFrame (id : nat) (s : State) : State :=
  set_frames (frames (browser s) ∖ {[id]}) s.

(** [ToBoolean] of a variable holding [null] or a numeric handle. *)
Definition handle_set (h : option nat) : bool :=
  match h with
  | Some (S _) => true
  | _ => false
  end.

(** uiController.js, [showNotification(message, type)] *)
Definition showNotification (message type : string) (s : State) : State :=
  let s := set_notifications (notifications (browser s) ++ [(message, type)]) s in
  let s := set_notificationShown true s in
  snd (setTimer HideNotification s).

(** postureDetection.js, [updatePostureUI(icon, label)] *)
Definition updatePostureUI (icon label : string) (s : State) : State :=
  set_postureUI icon label s.

Definition POSTURE_TIP : string :=
  "💡 Coaching Tip: Try to maintain an upright posture.".
Definition EMOTION_TIP : string :=
  "💡 Coaching Tip: Remember to convey confidence and positivity!".

(* ===================================================================== *)
(** ** The functions of the session *)
(* ===================================================================== *)

Section Session.

Variable Math_atan2 : JS.number -> JS.number -> JS.number.

(** *** postureDetection.js *)

(** [setBaseline()]: the returned boolean and the state it leaves. *)
Definition setBaseline (s : State) : bool * State :=
  match lastKeypoints (posture s) with
  | None =>
      (false,
       showNotification "Still calibrating. Please wait a moment and try again."
                        "error" s)
  | Some keypoints =>
      match findKeypoint keypoints "left_shoulder",
            findKeypoint keypoints "right_shoulder",
            findKeypoint keypoints "nose" with
      | Some leftShoulder, Some rightShoulder, Some nose =>
          let shoulderWidth :=
            JS.Math_abs (kp_x rightShoulder - kp_x leftShoulder)%float in
          if (shoulderWidth <? 10)%float
          then
            (false,
             showNotification "Cannot determine shoulder width. Please sit upright."
                              "error" s)
          else
            let avgShoulderY :=
              ((kp_y leftShoulder + kp_y rightShoulder) / 2)%float in
            let noseToShoulderGap := (avgShoulderY - kp_y nose)%float in
            let s :=
              set_baselinePosture
                (Some (mkBaseline (noseToShoulderGap / shoulderWidth)%float)) s in
            (true, showNotification "Baseline posture saved!" "success" s)
      | _, _, _ =>
          (false,
           showNotification
             "Could not detect shoulders clearly. Try adjusting your position."
             "error" s)
      end
  end.

(** Lines 113-134 of [handlePoseResults]: the prolonged-posture warning. *)
Definition posture_alerting (isBadPosture : bool) (s : State) : State :=
  if isBadPosture then
    if negb (handle_set (badPostureTimer (posture s)))
       && negb (isAlertingPosture (posture s))
    then
      let (id, s) := setTimer PostureAlert s in
      set_badPostureTimer (Some id) s
    else s
  else
    let s :=
      match badPostureTimer (posture s) with
      | Some (S _ as id) => set_badPostureTimer None (clearTimer id s)
      | _ => s
      end in
    set_isAlertingPosture false s.

(** [handlePoseResults(results)].  [None] is the TypeError raised when the
    first subject's keypoint array is empty ([keypoints[0].x] on
    [undefined]); nothing has been assigned at that point. *)
Definition handlePoseResults (s : State) (results : option (list Pose))
  : option State :=
  let no_signal := Some (updatePostureUI "🤔" "Calibrating..." s) in
  match results with
  | None | Some [] => no_signal
  | Some (first :: _) =>
      match keypoints first with
      | None => no_signal
      | Some [] => None
      | Some ((k0 :: _) as keypoints) =>
          if JS.isNaN (kp_x k0) then no_signal
          else
            let s := set_lastKeypoints (Some keypoints) s in
            if negb (canvasContext (main s)) then Some s
            else
              let postureFlags :=
                analyzePosture Math_atan2 (baselinePosture (posture s)) keypoints in
              let isBadPosture := (0 <? length postureFlags)%nat in
              let s :=
                if isBadPosture
                then updatePostureUI "⚠️" (hd "" postureFlags) s
                else updatePostureUI "✅" "Good Posture" s in
              if recording (main s) then
                let s := posture_alerting isBadPosture s in
                Some (set_currentAnswerPostures
                        (currentAnswerPostures (interview s)
                         ++ [if isBadPosture then hd "" postureFlags
                             else "Good Posture"]) s)
              else Some s
      end
  end.

(** The timeout armed by [handlePoseResults].  With no cached keypoints
    [analyzePosture(null)] raises a TypeError and nothing is assigned. *)
Definition postureAlert (s : State) : State :=
  match lastKeypoints (posture s) with
  | None => s
  | Some keypoints =>
      let currentPostureFlags :=
        analyzePosture Math_atan2 (baselinePosture (posture s)) keypoints in
      let s :=
        if (0 <? length currentPostureFlags)%nat
        then set_isAlertingPosture true (showNotification POSTURE_TIP "error" s)
        else s in
      set_badPostureTimer None s
  end.

(** *** emotionDetection.js *)

(** Lines 64-83 of [runEmotionDetection]: the prolonged-emotion warning. *)
Definition emotion_alerting (isBadEmotion : bool) (s : State) : State :=
  if isBadEmotion then
    if negb (handle_set (badEmotionTimer (emotion s)))
       && negb (isAlertingEmotion (emotion s))
    then
      let (id, s) := setTimer EmotionAlert s in
      set_badEmotionTimer (Some id) s
    else s
  else
    let s :=
      match badEmotionTimer (emotion s) with
      | Some (S _ as id) => set_badEmotionTimer None (clearTimer id s)
      | _ => s
      end in
    set_isAlertingEmotion false s.

(** [runEmotionDetection] from the point where [detectAllFaces] has
    answered with [detections] (one expression object per face).  [None] is
    the TypeError of an expression object without entries. *)
Definition runEmotionDetection (s : State) (detections : list Expressions)
  : option State :=
  match detections with
  | expressions :: _ =>
      match dominantEmotion expressions with
      | None => None
      | Some dominant =>
          let s := set_lastDetectedEmotion dominant s in
          let s := set_emotionUI (emoji_of dominant) (capitalise dominant) s in
          if recording (main s) then
            let isBadEmotion := is_negative dominant in
            let s := emotion_alerting isBadEmotion s in
            Some (set_currentAnswerEmotions
                    (currentAnswerEmotions (interview s) ++ [dominant]) s)
          else Some s
      end
  | [] =>
      let s := set_emotionUI "😐" "No Face" s in
      Some (set_lastDetectedEmotion "neutral" s)
  end.

(** The timeout armed by [runEmotionDetection]. *)
Definition emotionAlert (s : State) : State :=
  let s :=
    if is_negative (lastDetectedEmotion (emotion s))
    then set_isAlertingEmotion true (showNotification EMOTION_TIP "error" s)
    else s in
  set_badEmotionTimer None s.

(** *** main.js and detectionManager.js *)

(** [stopWebcam()] *)
Definition stopWebcam (s : State) : State :=
  if cameraLive (browser s) then set_cameraLive false s else s.

(** [runPoseDetectionLoop(videoEl)] up to its [await]: one more
    [estimatePoses] promise is pending. *)
Definition runPoseDetectionLoop (s : State) : State :=
  if poseDetector (main s)
  then set_posesInFlight (S (posesInFlight (browser s))) s
  else s.

(** [runPoseDetectionLoop] after the [await], with the poses found. *)
Definition posesEstimated (s : State) (poses : option (list Pose)) : State :=
  let handled :=
    match poses with
    | Some (_ :: _) => handlePoseResults s poses
    | _ => Some s
    end in
  match handled with
  | None => s
  | Some s =>
      let (id, s) := requestAnimationFrame s in
      set_poseDetectionFrameId (Some id) s
  end.

(** [startDetection(videoEl)] *)
Definition startDetection (s : State) : State :=
  let s :=
    match poseDetectionFrameId (main s) with
    | Some (S _ as id) => cancelAnimationFrame id s
    | _ => s
    end in
  let (_, s) := setTimer CheckDimensions s in
  let (id, s) := setTimer EmotionLoop s in
  set_detectionInterval (Some id) s.

(** [stopAllDetections()] *)
Definition stopAllDetections (s : State) : State :=
  let s :=
    match poseDetectionFrameId (main s) with
    | Some (S _ as id) => set_poseDetectionFrameId None (cancelAnimationFrame id s)
    | _ => s
    end in
  let s :=
    match detectionInterval (main s) with
    | Some (S _ as id) => set_detectionInterval None (clearTimer id s)
    | _ => s
    end in
  stopWebcam s.

(** *** interviewManager.js and uiController.js *)

(** [endInterview()] up to its first [await]; the promise of
    [waitForAllAnswers] starts its polling interval at once. *)
Definition endInterview (s : State) : State :=
  let s := set_currentQuestionIndex (S (currentQuestionIndex (interview s))) s in
  let s :=
    if recording (main s)
    then set_recording false
           (set_answersBeingProcessed (answersBeingProcessed (interview s) + 1) s)
    else s in
  let s := set_screen "report" s in
  let s := stopAllDetections s in
  snd (setTimer AwaitAnswers s).

(** [displayCurrentQuestion()] *)
Definition displayCurrentQuestion (s : State) : State :=
  let index := currentQuestionIndex (interview s) in
  match nth_error (questions (interview s)) index with
  | Some q =>
      let s := set_questionText (q_text q) s in
      let s :=
        if (index =? 0)%nat then showNotification "Interview started!" "success" s
        else s in
      set_currentQuestionIndex (S index) s
  | None =>
      if negb (isFetchingQuestions (interview s)) then endInterview s
      else set_questionText "Loading Interview Questions..." s
  end.

(** [startRecording()] up to its [await]. *)
Definition startRecording (s : State) : State :=
  let s := set_currentAnswerEmotions [] s in
  let s := set_currentAnswerPostures [] s in
  set_micRequests (S (micRequests (browser s))) s.

(** [startRecording()] after the microphone stream has arrived. *)
Definition microphoneGranted (s : State) : State := set_recording true s.

(** [stopRecording()] *)
Definition stopRecording (s : State) : State :=
  let s := set_answersBeingProcessed (answersBeingProcessed (interview s) + 1) s in
  let s := set_recording false s in
  displayCurrentQuestion s.

(** [handleAnswerButtonClick()] *)
Definition handleAnswerButtonClick (s : State) : State :=
  if negb (recording (main s)) then startRecording s else stopRecording s.

(** [resetInterview()] *)
Definition resetInterview (s : State) : State :=
  let s := set_questions [] s in
  let s := set_currentQuestionIndex 0 s in
  let s := set_totalQuestions 0 s in
  let s := set_interviewData [] s in
  let s := set_currentAnswerEmotions [] s in
  let s := set_currentAnswerPostures [] s in
  let s := set_answersBeingProcessed 0 s in
  let s := set_isFetchingQuestions false s in
  let s := set_baselinePosture None s in
  let s :=
    set_questionText "Waiting for you to set your baseline posture..." s in
  set_screen "setup" s.

(** The click listener of the baseline button. *)
Definition clickSetBaseline (s : State) : State :=
  let (baselineWasSet, s) := setBaseline s in
  if baselineWasSet then displayCurrentQuestion s else s.

(** *** The event loop *)

(** What the video element reports when a callback reads it. *)
Record Video : Type := mkVideo {
  hasWidth : bool;   (* videoEl.videoWidth > 0 *)
  playing : bool     (* the element exists and is neither paused nor ended *)
}.

(** The answer pipeline ([processAnswer]) as seen from the modelled state:
    an evaluated answer is stored under its question text; an answer the
    backend skipped (its one such reply is "No speech detected.") or failed
    on is reported to the user. *)
Inductive AnswerOutcome : Type :=
| Evaluated (question : string)
| Skipped
| Failed.

(** One turn of the browser's event loop: a task the page runs to
    completion.  Everything the environment decides (which timer fires and
    when, what the models return, what the user clicks) is in the event. *)
Inductive Event : Type :=
| ModelsLoaded                       (* loadDetectionModels has set poseDetector *)
| CanvasSetUp                        (* setupCanvasDrawing *)
| SessionStarted (total : nat)       (* startSession; domain and experience given *)
| WebcamReady                        (* setupWebcamStream resolves *)
| CanPlay                            (* the video's canplay listener *)
| QuestionsFetched (qs : list Question)
| QuestionsFailed
| TimerFires (id : nat) (video : Video)
| FrameFires (id : nat)
| PosesEstimated (poses : option (list Pose))
| FacesDetected (detections : list Expressions)
| SetBaselineClicked
| AnswerClicked
| MicrophoneGranted
| AnswerProcessed (outcome : AnswerOutcome)
| EndInterviewClicked
| RestartClicked.

(** The body of a timer callback; [id] is the handle it was registered
    under (the interval callbacks clear themselves through it). *)
Definition run_callback (cb : Callback) (id : nat) (video : Video) (s : State)
  : State :=
  match cb with
  | PostureAlert => postureAlert s
  | EmotionAlert => emotionAlert s
  | HideNotification => set_notificationShown false s
  | CheckDimensions =>
      if hasWidth video then runPoseDetectionLoop (clearTimer id s) else s
  | EmotionLoop =>
      if playing video then set_facesInFlight (S (facesInFlight (browser s))) s
      else s
  | AwaitAnswers =>
      if (answersBeingProcessed (interview s) =? 0)%Z
      then snd (setTimer ShowReport (clearTimer id s))
      else s
  | ShowReport => s
  end.

Definition lookup_timer (id : nat) (s : State) : option Callback :=
  timers (browser s) !! id.

Definition step (s : State) (e : Event) : State :=
  match e with
  | ModelsLoaded => set_poseDetector true s
  | CanvasSetUp => set_canvasContext true s
  | SessionStarted total =>
      let s := set_totalQuestions total s in
      if (total =? 0)%nat then showNotification "Please fill out all fields." "error" s
      else set_isFetchingQuestions true (set_screen "interview" s)
  | WebcamReady => set_cameraLive true s
  | CanPlay => startDetection s
  | QuestionsFetched qs =>
      let s := set_questions qs s in
      let s := set_currentQuestionIndex 0 s in
      let s := set_interviewData [] s in
      let s := set_isFetchingQuestions false s in
      if String.eqb (questionText (browser s)) "Loading Interview Questions..."
      then displayCurrentQuestion s else s
  | QuestionsFailed =>
      showNotification "Could not fetch questions. Please try again." "error" s
  | TimerFires id video =>
      match lookup_timer id s with
      | None => s
      | Some cb =>
          let s := if repeats cb then s else clearTimer id s in
          run_callback cb id video s
      end
  | FrameFires id =>
      if bool_decide (id ∈ frames (browser s))
      then runPoseDetectionLoop (cancelAnimationFrame id s)
      else s
  | PosesEstimated poses =>
      match posesInFlight (browser s) with
      | O => s
      | S n => posesEstimated (set_posesInFlight n s) poses
      end
  | FacesDetected detections =>
      match facesInFlight (browser s) with
      | O => s
      | S n =>
          let s := set_facesInFlight n s in
          match runEmotionDetection s detections with
          | Some s' => s'
          | None => s
          end
      end
  | SetBaselineClicked => clickSetBaseline s
  | AnswerClicked => handleAnswerButtonClick s
  | MicrophoneGranted =>
      match micRequests (browser s) with
      | O => s
      | S n => microphoneGranted (set_micRequests n s)
      end
  | AnswerProcessed outcome =>
      let s :=
        match outcome with
        | Evaluated question =>
            set_interviewData (interviewData (interview s) ++ [question]) s
        | Skipped => showNotification "No speech detected." "error" s
        | Failed => showNotification "Error processing your answer." "error" s
        end in
      set_answersBeingProcessed (answersBeingProcessed (interview s) - 1) s
  | EndInterviewClicked => endInterview s
  | RestartClicked => resetInterview s
  end.

Definition run (s : State) (events : list Event) : State :=
  fold_left step events s.

(** The page as the scripts leave it once loaded. *)
Definition initial : State :=
  mkState
    (mkPostureGlobals None None None false)
    (mkEmotionGlobals None false "neutral")
    (mkMainGlobals false false false None None)
    (mkInterviewGlobals true 0 [] 0 0 [] [] [])
    (mkBrowser ∅ 1 ∅ 1 0 0 0 false [] false "" "" "" "" "" "welcome").

Definition reachable (s : State) : Prop :=
  exists events, s = run initial events.

(** How many times a message has been shown. *)
Definition shown (message : string) (s : State) : nat :=
  length (List.filter (fun n => String.eqb (fst n) message)
                      (notifications (browser s))).

End Session.

(* ===================================================================== *)
(** ** interviewManager.js: the form of an answer *)
(* ===================================================================== *)

(** What [prepareFormData] appends to the form, the audio blob apart; the
    two distributions are the objects it hands to [JSON.stringify]. *)
Record FormData : Type := mkFormData {
  fd_questionIndex : nat;
  fd_questionText : string;
  fd_questionType : string;
  fd_domain : string;
  fd_experience : string;
  fd_skipSentiment : string;
  fd_postureData : gmap string JS.number;
  fd_emotionData : gmap string JS.number
}.

(** [prepareFormData(audioBlob)]; [domain] and [experience] are the module
    variables [startSession] fills.  [questions[currentQuestionIndex - 2]]
    is [undefined] when the index is below 2 or beyond the array, and
    reading its [text] raises a TypeError: [None]. *)
Definition prepareFormData (domain experience : string) (s : State)
  : option FormData :=
  let index := currentQuestionIndex (interview s) in
  let currentQ :=
    if (index <? 2)%nat then None
    else nth_error (questions (interview s)) (index - 2) in
  match currentQ with
  | None => None
  | Some q =>
      Some (mkFormData
              (index + 1) (q_text q) (q_type q) domain experience
              (if String.eqb (q_type q) "technical" then "true" else "false")
              (calculateDistribution (currentAnswerPostures (interview s)))
              (calculateDistribution (currentAnswerEmotions (interview s))))
  end.

(* ===================================================================== *)
(** ** Strings of the backend and the report *)
(* ===================================================================== *)

(** A JavaScript string is a sequence of UTF-16 code units; the regular
    expressions below have no [u] flag and work on code units. *)
Definition CodeUnit := N.

(** The code units of an ASCII text. *)
Definition units (text : string) : list CodeUnit :=
  map (fun c => N.of_nat (Ascii.nat_of_ascii c)) (list_ascii_of_string text).

(** ECMAScript's LineTerminator: LF, CR, LS, PS. *)
Definition is_LineTerminator (c : CodeUnit) : bool :=
  ((c =? 10) || (c =? 13) || (c =? 0x2028) || (c =? 0x2029))%N.

(** ECMAScript's WhiteSpace: TAB, VT, FF, ZWNBSP and the space
    separators of Unicode. *)
Definition is_WhiteSpace (c : CodeUnit) : bool :=
  ((c =? 9) || (c =? 11) || (c =? 12) || (c =? 0xFEFF)
   || (c =? 32) || (c =? 160) || (c =? 0x1680)
   || ((0x2000 <=? c) && (c <=? 0x200A))
   || (c =? 0x202F) || (c =? 0x205F) || (c =? 0x3000))%N.

(** The class [\s], which is also what [trim] strips. *)
Definition is_space (c : CodeUnit) : bool := is_WhiteSpace c || is_LineTerminator c.

(** fileHelpers.js, [cleanTranscription] *)

(** Where [.*?\]] matches at the start of [rest]: the number of code
    units before the first closing bracket, when no line terminator comes
    before it (the dot does not match one). *)
Fixpoint closing_bracket (rest : list CodeUnit) : option nat :=
  match rest with
  | [] => None
  | c :: rest' =>
      if (c =? 93)%N then Some 0
      else if is_LineTerminator c then None
      else option_map S (closing_bracket rest')
  end.

(** [text.replace(/\[.*?\]/g, "")]: the matches are found from left to
    right and do not overlap; [skip] code units of a match found earlier
    are still to be dropped. *)
Fixpoint remove_bracketed (skip : nat) (text : list CodeUnit) : list CodeUnit :=
  match text with
  | [] => []
  | c :: rest =>
      match skip with
      | S skip' => remove_bracketed skip' rest
      | O =>
          if (c =? 91)%N then
            match closing_bracket rest with
            | Some n => remove_bracketed (S n) rest
            | None => c :: remove_bracketed 0 rest
            end
          else c :: remove_bracketed 0 rest
      end
  end.

(** [text.replace(/\s+/g, " ")]; [in_run] says that the code unit before
    was white space. *)
Fixpoint collapse_spaces (in_run : bool) (text : list CodeUnit) : list CodeUnit :=
  match text with
  | [] => []
  | c :: rest =>
      if is_space c
      then (if in_run then collapse_spaces true rest
            else 32%N :: collapse_spaces true rest)
      else c :: collapse_spaces false rest
  end.

Fixpoint trimStart (text : list CodeUnit) : list CodeUnit :=
  match text with
  | c :: rest => if is_space c then trimStart rest else text
  | [] => []
  end.

Fixpoint trimEnd (text : list CodeUnit) : list CodeUnit :=
  match text with
  | [] => []
  | c :: rest =>
      match trimEnd rest with
      | [] => if is_space c then [] else [c]
      | kept => c :: kept
      end
  end.

(** [text.trim()] *)
Definition trim (text : list CodeUnit) : list CodeUnit := trimEnd (trimStart text).

Definition cleanTranscription (text : list CodeUnit) : list CodeUnit :=
  trim (collapse_spaces false (remove_bracketed 0 text)).

(** reportGenerator.js, [starsHtml] *)

(** [s.repeat(count)] for an integral count: a RangeError ([None]) when
    the count is negative. *)
Definition String_repeat (s : list CodeUnit) (count : Z) : option (list CodeUnit) :=
  if (count <? 0)%Z then None else Some (concat (repeat s (Z.to_nat count))).

(** [(rating) => "⭐".repeat(rating || 0) + "☆".repeat(5 - (rating || 0))],
    for a rating that is an integer or is missing. *)
Definition starsHtml (rating : option Z) : option (list CodeUnit) :=
  let stars := match rating with Some r => r | None => 0%Z end in
  match String_repeat [0x2B50%N] stars with
  | None => None
  | Some full =>
      match String_repeat [0x2606%N] (5 - stars) with
      | None => None
      | Some empty => Some (full ++ empty)
      end
  end.

(* ===================================================================== *)
(** ** The model call of the backend routes *)
(* ===================================================================== *)

(** How one call of [model.generateContent] settles: with a result, or
    with an error and the number in its [status], if it has one. *)
Inductive Attempt : Type :=
| Resolved (result : string)
| Rejected (status : option Z).

Definition maxRetries : nat := 3.

(** The retry loop of fetchQuestions.js and transcribe.js from iteration
    [i] on, with [remaining = maxRetries - i]; [generateContent k] is how
    the call of iteration [k] settles.  The result is the delays waited,
    in milliseconds, and the outcome: the result assigned, or the error
    thrown.  [None] is the loop ending with [result] unassigned. *)
Fixpoint retry_loop (generateContent : nat -> Attempt) (remaining i : nat)
  : list Z * option Attempt :=
  match remaining with
  | O => ([], None)
  | S remaining' =>
      match generateContent i with
      | Resolved result => ([], Some (Resolved result))
      | Rejected status =>
          if match status with Some code => (code =? 503)%Z | None => false end
             && (i <? maxRetries - 1)%nat
          then
            let delay := (2 ^ Z.of_nat i * 1000)%Z in
            let (delays, outcome) := retry_loop generateContent remaining' (S i) in
            (delay :: delays, outcome)
          else ([], Some (Rejected status))
      end
  end.

Definition generateWithRetry (generateContent : nat -> Attempt)
  : list Z * option Attempt :=
  retry_loop generateContent maxRetries 0.

(* ===================================================================== *)
(** ** uiController.js: the theme toggle *)
(* ===================================================================== *)

(** The class of the body, the text of the toggle button and the "theme"
    entry of [localStorage]. *)
Record Theme : Type := mkTheme {
  darkClass : bool;
  toggleText : string;
  savedTheme : option string
}.

(** [applyTheme(theme)] *)
Definition applyTheme (theme : string) (t : Theme) : Theme :=
  if String.eqb theme "dark"
  then mkTheme true "☀️" (savedTheme t)
  else mkTheme false "🌙" (savedTheme t).

(** The [DOMContentLoaded] listener: [if (savedTheme) applyTheme(savedTheme)];
    the empty string is falsy. *)
Definition themeLoaded (t : Theme) : Theme :=
  match savedTheme t with
  | Some theme => if String.eqb theme "" then t else applyTheme theme t
  | None => t
  end.

(** The click listener of the toggle button. *)
Definition themeToggled (t : Theme) : Theme :=
  if darkClass t
  then applyTheme "light" (mkTheme (darkClass t) (toggleText t) None)
  else applyTheme "dark" (mkTheme (darkClass t) (toggleText t) (Some "dark")).

(** The page as a reload builds it over the storage that [t] leaves;
    [page] is the document as the HTML has it. *)
Definition reloaded (page t : Theme) : Theme :=
  themeLoaded (mkTheme (darkClass page) (toggleText page) (savedTheme t)).

(* ===================================================================== *)
(** ** Inputs and notions of the statements *)
(* ===================================================================== *)

(** *** Frames and inputs of the examples *)

(** [Math.atan2] on the axes, where ECMAScript fixes its value (pi and
    pi/2 being the nearest binary64 values).  The examples below run the
    engine with it on frames whose shoulders are level or missing; off the
    axes it is not a model of any engine and answers [NaN]. *)
Definition atan2_on_axes (y x : JS.number) : JS.number :=
  if PrimFloat.is_zero y then
    if (x <? 0)%float || (PrimFloat.is_zero x && PrimFloat.get_sign x)
    then (if PrimFloat.get_sign y then - JS.Math_PI else JS.Math_PI)%float
    else y
  else if PrimFloat.is_zero x then
    (if (0 <? y)%float then JS.Math_PI / 2 else - (JS.Math_PI / 2))%float
  else nan.

(** A BlazePose keypoint. *)
Definition landmark (name : string) (x y : JS.number) : Keypoint :=
  mkKeypoint None (Some name) x y.

(** Does some keypoint of the frame carry this name? *)
Definition has_landmark (keypoints : list Keypoint) (name : string) : bool :=
  existsb (names name) keypoints.

(** Level shoulders 50 apart (the image is mirrored: the right shoulder
    is on the left), the nose [gap] above their line. *)
Definition upright (gap : JS.number) : list Keypoint :=
  [ landmark "nose" 125%float (200 - gap)%float;
    landmark "left_shoulder" 150%float 200%float;
    landmark "right_shoulder" 100%float 200%float ].

(** A frame in which only the nose is seen. *)
Definition nose_only : list Keypoint := [ landmark "nose" 125%float 100%float ].

(** Level shoulders [width] apart, the nose 60 above their line. *)
Definition shoulders_apart (width : JS.number) : list Keypoint :=
  [ landmark "nose" 125%float 140%float;
    landmark "left_shoulder" (100 + width)%float 200%float;
    landmark "right_shoulder" 100%float 200%float ].

(** The nose is seen, the left shoulder's [x] is [NaN]. *)
Definition second_keypoint_invalid : list Keypoint :=
  [ landmark "nose" 125%float 100%float;
    landmark "left_shoulder" nan 200%float ].

(** A pose result whose first keypoint has no valid x coordinate. *)
Definition first_keypoint_invalid : option (list Pose) :=
  Some [mkPose (Some [landmark "nose" nan 100%float;
                      landmark "left_shoulder" 150%float 200%float])].

(** The example of the specification. *)
Definition spec_expressions : Expressions :=
  [("happy", 0.2%float); ("sad", 0.6%float); ("neutral", 0.2%float)].

(** Two entries with the same greatest score. *)
Definition tied_expressions : Expressions :=
  [("neutral", 0.1%float); ("happy", 0.4%float); ("sad", 0.4%float)].

(** Forty posture labels, twenty-three of them "Slouching". *)
Definition forty_labels : list string :=
  (repeat "Slouching" 23 ++ repeat "Good Posture" 17)%list.

(** A page whose last valid frame is [keypoints] and whose baseline is
    [b]. *)
Definition calibrating (b : option Baseline) (keypoints : list Keypoint) : State :=
  set_baselinePosture b (set_lastKeypoints (Some keypoints) initial).

(** The video element once the camera plays. *)
Definition ready : Video := mkVideo true true.

(** A pose result whose one subject sits upright. *)
Definition good_frame : Event :=
  PosesEstimated (Some [mkPose (Some (upright 60%float))]).

(** A pose result whose one subject slouches: against the baseline ratio
    1.2 of [good_frame], the ratio 0.8 deviates by a third. *)
Definition slouching_frame : Event :=
  PosesEstimated (Some [mkPose (Some (upright 40%float))]).

Definition two_questions : list Question :=
  [ mkQuestion "Tell me about yourself." "behavioral";
    mkQuestion "What is a closure?" "technical" ].

(** Detection is running: the page has loaded the models and set up the
    canvas, a session of two questions is started, the camera plays, the
    dimension check (timer 1) has passed and the first pose inference is
    in flight; timer 2 is the emotion interval. *)
Definition detection_started : list Event :=
  [ ModelsLoaded; CanvasSetUp; SessionStarted 2; WebcamReady; CanPlay;
    TimerFires 1 ready ].

(** The questions arrive, the first frame shows the user upright, and the
    baseline is set on it: the first question is displayed (timers 3 and 4
    hide the two notifications; animation frame 1 is requested). *)
Definition interview_started : list Event :=
  detection_started ++ [ QuestionsFetched two_questions; good_frame; SetBaselineClicked ].

(** The user has started an answer and the microphone has been granted. *)
Definition answer_started : list Event :=
  interview_started ++ [ AnswerClicked; MicrophoneGranted ].

(** An answer during which one frame is seen, slouching, and which is
    stopped before the posture timer (handle 5) has elapsed. *)
Definition answer_cut_short : list Event :=
  answer_started ++ [ FrameFires 1; slouching_frame; AnswerClicked ].

(** The same frame, the next pose inference in flight. *)
Definition answer_in_progress : list Event :=
  answer_started ++ [ FrameFires 1; slouching_frame; FrameFires 2 ].

(** The End Interview button is clicked at that point. *)
Definition interview_ended : list Event :=
  answer_in_progress ++ [ EndInterviewClicked ].

(** Four adverse frames; the posture timer (handle 5) elapses after the
    second. *)
Definition adverse_frames : list Event :=
  [ FrameFires 1; slouching_frame; FrameFires 2; slouching_frame;
    TimerFires 5 ready;
    FrameFires 3; slouching_frame; FrameFires 4; slouching_frame ].

(** Then one good frame, one more adverse frame, and its timer (handle 7;
    handle 6 hides the first tip) elapses. *)
Definition adverse_again : list Event :=
  [ FrameFires 5; good_frame; FrameFires 6; slouching_frame; TimerFires 7 ready ].

(** *** Posture *)

(** The relative deviation of the specification,
    (current - baseline.ratio) / baseline.ratio, in the arithmetic of the
    code. *)
Definition currentRatio (leftShoulder rightShoulder nose : Keypoint) : JS.number :=
  (((kp_y leftShoulder + kp_y rightShoulder) / 2 - kp_y nose)
   / JS.Math_abs (kp_x rightShoulder - kp_x leftShoulder))%float.

Definition relative_deviation (b : Baseline) (leftShoulder rightShoulder nose : Keypoint)
  : JS.number :=
  ((currentRatio leftShoulder rightShoulder nose - ratio b) / ratio b)%float.

(** The ratio [setBaseline] stores. *)
Definition baseline_of (leftShoulder rightShoulder nose : Keypoint) : Baseline :=
  mkBaseline
    (((kp_y leftShoulder + kp_y rightShoulder) / 2 - kp_y nose)
     / JS.Math_abs (kp_x rightShoulder - kp_x leftShoulder))%float.

(** The message of the first failure of [setBaseline]. *)
Definition STILL_CALIBRATING : string :=
  "Still calibrating. Please wait a moment and try again.".

Definition POSTURE_FLAGS : list string :=
  ["Slouching"; "Looking Down"; "Looking Up"; "Leaning Head"; "Tilted Shoulders";
   "Key points hidden"].

(** *** Emotion and distribution *)

(** The first entry of the sorted list, found by one pass: the entry kept
    so far gives way to a later one with a strictly greater score. *)
Definition leader (first : string * JS.number) (others : Expressions)
  : string * JS.number :=
  fold_left (fun best e => if (by_score_desc e best <? 0)%float then e else best)
            others first.

(** How often a label occurs in the sequence. *)
Definition occurrences (label : string) (dataArray : list string) : nat :=
  length (List.filter (String.eqb label) dataArray).

(** What [k] occurrences of a label make of what the accumulator owns
    under it. *)
Definition counted_more (label : string) (current : option Count) (k : nat)
  : option Count :=
  match k with
  | O => current
  | S _ =>
      match current with
      | Some (Counted n) => Some (Counted (n + k))
      | Some (Concatenated ones) => Some (Concatenated (ones + k))
      | None =>
          if inherited label then
            if String.eqb label "__proto__" then None
            else Some (Concatenated k)
          else Some (Counted k)
      end
  end.

(** The percentage in the words of the specification,
    round(100 x count / total): the exact quotient, rounded to the nearest
    integer, a tie going up as [Math.round] does. *)
Definition rounded_percentage (count total : nat) : Z :=
  (2 * (100 * Z.of_nat count) + Z.of_nat total) / (2 * Z.of_nat total).

(** The specification's reading of [calculateDistribution]. *)
Definition exactly_rounded (dataArray : list string) : Prop :=
  forall label, In label dataArray ->
    calculateDistribution dataArray !! label
    = Some (JS.of_Z (rounded_percentage (occurrences label dataArray)
                                        (length dataArray))).

(** *** binary64 *)

(** The result of rounding carries the sign it was given. *)
Definition signed (s : bool) (x : spec_float) : Prop :=
  match x with
  | S754_finite s' _ _ | S754_infinity s' => s' = s
  | _ => False
  end.

(** The two mantissas of a subtraction, brought to the smaller exponent. *)
Definition aligned_difference (sx : bool) (mx : positive) (ex : Z)
                              (sy : bool) (my : positive) (ey : Z) : Z :=
  (let ez := Z.min ex ey in
   cond_Zopp sx (Zpos (fst (shl_align mx ex ez)))
   - cond_Zopp sy (Zpos (fst (shl_align my ey ez))))%Z.

(** *** Frames without signal *)

(** The guard of [handlePoseResults]: no result, no subject, a subject
    without keypoint list, or a first keypoint whose [x] is [NaN]. *)
Definition no_signal (results : option (list Pose)) : bool :=
  match results with
  | None | Some [] => true
  | Some (first :: _) =>
      match keypoints first with
      | None => true
      | Some [] => false
      | Some (k0 :: _) => JS.isNaN (kp_x k0)
      end
  end.

(** Some coordinate of some keypoint is not a number. *)
Definition malformed (keypoints : list Keypoint) : bool :=
  existsb (fun k => JS.isNaN (kp_x k) || JS.isNaN (kp_y k)) keypoints.

Section Notions.

Variable Math_atan2 : JS.number -> JS.number -> JS.number.

(** What the specification asks of a frame counted as no signal. *)
Definition treated_as_no_signal (s : State) (results : option (list Pose)) : Prop :=
  exists s',
    handlePoseResults Math_atan2 s results = Some s'
    /\ posture s' = posture s
    /\ interview s' = interview s
    /\ timers (browser s') = timers (browser s).

(** *** The alerting machines *)

(** The invariant of the page: timer handles are positive and below the
    next handle; the posture (emotion) alert timer on the table is the one
    [badPostureTimer] ([badEmotionTimer]) holds; an alerted machine holds
    no timer; a held posture timer comes with a cached frame; the handle
    in [detectionInterval] belongs to the emotion loop. *)
Record wf (s : State) : Prop := mk_wf {
  wf_next : 1 <= nextTimerId (browser s);
  wf_ids : forall id cb, timers (browser s) !! id = Some cb ->
             1 <= id < nextTimerId (browser s);
  wf_posture_timer : forall id,
    timers (browser s) !! id = Some PostureAlert <-> badPostureTimer (posture s) = Some id;
  wf_posture_flag :
    isAlertingPosture (posture s) = true -> badPostureTimer (posture s) = None;
  wf_keypoints :
    badPostureTimer (posture s) <> None -> lastKeypoints (posture s) <> None;
  wf_emotion_timer : forall id,
    timers (browser s) !! id = Some EmotionAlert <-> badEmotionTimer (emotion s) = Some id;
  wf_emotion_flag :
    isAlertingEmotion (emotion s) = true -> badEmotionTimer (emotion s) = None;
  wf_interval : forall id, detectionInterval (main s) = Some id ->
    id < nextTimerId (browser s)
    /\ forall cb, timers (browser s) !! id = Some cb -> cb = EmotionLoop
}.

(** The part of the state the invariant reads. *)
Definition view (s : State) :=
  (timers (browser s), nextTimerId (browser s), badPostureTimer (posture s),
   isAlertingPosture (posture s), lastKeypoints (posture s),
   badEmotionTimer (emotion s), isAlertingEmotion (emotion s), detectionInterval (main s)).

(** The part of the state the alerting machines read and write. *)
Definition machines (s : State) :=
  (badPostureTimer (posture s), isAlertingPosture (posture s),
   badEmotionTimer (emotion s), isAlertingEmotion (emotion s),
   notifications (browser s),
   currentAnswerPostures (interview s), currentAnswerEmotions (interview s)).

(** A step the posture (emotion) machine does not notice: its timer, its
    flag and its tips are as before, and its accumulator is as before or
    has been emptied. *)
Definition p_quiet (s s' : State) : Prop :=
  badPostureTimer (posture s') = badPostureTimer (posture s)
  /\ isAlertingPosture (posture s') = isAlertingPosture (posture s)
  /\ shown POSTURE_TIP s' = shown POSTURE_TIP s
  /\ (currentAnswerPostures (interview s') = currentAnswerPostures (interview s)
      \/ currentAnswerPostures (interview s') = []).

Definition e_quiet (s s' : State) : Prop :=
  badEmotionTimer (emotion s') = badEmotionTimer (emotion s)
  /\ isAlertingEmotion (emotion s') = isAlertingEmotion (emotion s)
  /\ shown EMOTION_TIP s' = shown EMOTION_TIP s
  /\ (currentAnswerEmotions (interview s') = currentAnswerEmotions (interview s)
      \/ currentAnswerEmotions (interview s') = []).

Definition quiet (s s' : State) : Prop := p_quiet s s' /\ e_quiet s s'.

(** What one step does to the posture machine: nothing; or, while
    recording, it logs an adverse label (and may arm the timer, never
    touching the flag or showing a tip) or logs "Good Posture" (leaving
    the flag cleared and no timer held); or the timer elapses on a machine
    that has not alerted, and either the tip is shown once and the flag
    set, or neither. *)
Inductive posture_effect (s s' : State) : Prop :=
| Posture_untouched :
    p_quiet s s' -> posture_effect s s'
| Posture_adverse label :
    recording (main s) = true ->
    label <> "Good Posture" ->
    currentAnswerPostures (interview s') = currentAnswerPostures (interview s) ++ [label] ->
    isAlertingPosture (posture s') = isAlertingPosture (posture s) ->
    shown POSTURE_TIP s' = shown POSTURE_TIP s ->
    posture_effect s s'
| Posture_good :
    recording (main s) = true ->
    currentAnswerPostures (interview s')
    = currentAnswerPostures (interview s) ++ ["Good Posture"] ->
    isAlertingPosture (posture s') = false ->
    badPostureTimer (posture s') = None ->
    shown POSTURE_TIP s' = shown POSTURE_TIP s ->
    posture_effect s s'
| Posture_elapsed :
    currentAnswerPostures (interview s') = currentAnswerPostures (interview s) ->
    isAlertingPosture (posture s) = false ->
    badPostureTimer (posture s') = None ->
    (isAlertingPosture (posture s') = false /\ shown POSTURE_TIP s' = shown POSTURE_TIP s
     \/ isAlertingPosture (posture s') = true
        /\ shown POSTURE_TIP s' = S (shown POSTURE_TIP s)) ->
    posture_effect s s'.

(** The same for the emotion machine, good being a label that is not
    negative. *)
Inductive emotion_effect (s s' : State) : Prop :=
| Emotion_untouched :
    e_quiet s s' -> emotion_effect s s'
| Emotion_adverse label :
    recording (main s) = true ->
    is_negative label = true ->
    currentAnswerEmotions (interview s') = currentAnswerEmotions (interview s) ++ [label] ->
    isAlertingEmotion (emotion s') = isAlertingEmotion (emotion s) ->
    shown EMOTION_TIP s' = shown EMOTION_TIP s ->
    emotion_effect s s'
| Emotion_good label :
    recording (main s) = true ->
    is_negative label = false ->
    currentAnswerEmotions (interview s') = currentAnswerEmotions (interview s) ++ [label] ->
    isAlertingEmotion (emotion s') = false ->
    badEmotionTimer (emotion s') = None ->
    shown EMOTION_TIP s' = shown EMOTION_TIP s ->
    emotion_effect s s'
| Emotion_elapsed :
    currentAnswerEmotions (interview s') = currentAnswerEmotions (interview s) ->
    isAlertingEmotion (emotion s) = false ->
    badEmotionTimer (emotion s') = None ->
    (isAlertingEmotion (emotion s') = false /\ shown EMOTION_TIP s' = shown EMOTION_TIP s
     \/ isAlertingEmotion (emotion s') = true
        /\ shown EMOTION_TIP s' = S (shown EMOTION_TIP s)) ->
    emotion_effect s s'.

(** The label a step appended to an accumulator, if it appended one. *)
Definition logged (old new : list string) : option string :=
  match last new with
  | Some label => if decide (new = old ++ [label]) then Some label else None
  | None => None
  end.





End Notions.

(** The specification's reading of C9: any coordinate of the first subject
    that is not a number makes the frame a frame without signal. *)
Definition no_signal_on_any_invalid_coordinate : Prop :=
  forall Math_atan2 s first rest kps,
    keypoints first = Some kps ->
    malformed kps = true ->
    treated_as_no_signal Math_atan2 s (Some (first :: rest)).

(** The specification's reading of C4, for the alert state: a step taken
    while the page is not recording changes no alert timer and no alerted
    flag, and shows no coaching tip. *)
Definition only_while_recording : Prop :=
  forall Math_atan2 s e,
    reachable Math_atan2 s ->
    recording (main s) = false ->
    let s' := step Math_atan2 s e in
    badPostureTimer (posture s') = badPostureTimer (posture s)
    /\ isAlertingPosture (posture s') = isAlertingPosture (posture s)
    /\ badEmotionTimer (emotion s') = badEmotionTimer (emotion s)
    /\ isAlertingEmotion (emotion s') = isAlertingEmotion (emotion s)
    /\ shown POSTURE_TIP s' = shown POSTURE_TIP s
    /\ shown EMOTION_TIP s' = shown EMOTION_TIP s.

(** The specification's reading of C5: once [stopAllDetections] has
    returned, no timer that elapses shows a coaching tip. *)
Definition no_alert_after_stop : Prop :=
  forall Math_atan2 s id video,
    reachable Math_atan2 s ->
    let s' := stopAllDetections s in
    shown POSTURE_TIP (step Math_atan2 s' (TimerFires id video)) = shown POSTURE_TIP s'
    /\ shown EMOTION_TIP (step Math_atan2 s' (TimerFires id video)) = shown EMOTION_TIP s'.

(* ===================================================================== *)
(** ** Notions of the further properties *)
(* ===================================================================== *)

(** *** The loops of the detection manager *)

(** Every timer handle on the table is below the next handle. *)
Definition handles_bounded (s : State) : Prop :=
  forall id cb, timers (browser s) !! id = Some cb -> id < nextTimerId (browser s).

(** What the pose loop lives on, and what it produces. *)
Definition pose_view (s : State) :=
  (posesInFlight (browser s), frames (browser s), lastKeypoints (posture s)).

(** A change of state that starts no loop and stops none but the emotion
    loop held in [detectionInterval]: no dimension check is added, an
    emotion interval other than the held one stays, and the held handle
    stays or is cleared. *)
Record tame (s s' : State) : Prop := mk_tame {
  tame_bounded : handles_bounded s';
  tame_checks : forall id,
    timers (browser s') !! id = Some CheckDimensions ->
    timers (browser s) !! id = Some CheckDimensions;
  tame_loops : forall id,
    timers (browser s) !! id = Some EmotionLoop ->
    detectionInterval (main s) <> Some id ->
    timers (browser s') !! id = Some EmotionLoop;
  tame_interval :
    detectionInterval (main s') = detectionInterval (main s)
    \/ detectionInterval (main s') = None
}.

(** A pose loop at rest is left at rest, and the cached frame with it. *)
Definition rests (s s' : State) : Prop :=
  posesInFlight (browser s) = 0 -> frames (browser s) = ∅ ->
  pose_view s' = pose_view s.

Definition calm (s s' : State) : Prop := tame s s' /\ rests s s'.

(** The pose loop is at rest: no inference in flight, no animation frame
    requested, no dimension check pending. *)
Definition pose_loop_at_rest (s : State) : Prop :=
  posesInFlight (browser s) = 0
  /\ frames (browser s) = ∅
  /\ forall id, timers (browser s) !! id <> Some CheckDimensions.

Definition is_CanPlay (e : Event) : bool :=
  match e with CanPlay => true | _ => false end.

(** The camera plays and the dimension check (timer 1) passes before the
    models are loaded. *)
Definition check_passed_without_models : list Event :=
  [ CanvasSetUp; SessionStarted 2; WebcamReady; CanPlay; TimerFires 1 ready ].

(** The session that follows: the models load, the questions arrive, the
    emotion loop runs, frames and pose results are delivered, and the
    user asks for the baseline twice. *)
Definition session_without_poses : list Event :=
  [ ModelsLoaded; QuestionsFetched two_questions;
    TimerFires 2 ready; FacesDetected [spec_expressions];
    SetBaselineClicked; FrameFires 1; good_frame; SetBaselineClicked ].

(** A second canplay during the interview. *)
Definition second_canplay : list Event := interview_started ++ [ CanPlay ].

(** Then an answer, and the End Interview button. *)
Definition answer_and_end : list Event :=
  [ AnswerClicked; MicrophoneGranted; EndInterviewClicked ].

(** A frame as an unmirrored camera gives it. *)
Definition unmirrored : list Keypoint :=
  [ landmark "nose" 125%float 140%float;
    landmark "left_shoulder" 100%float 200%float;
    landmark "right_shoulder" 150%float 200%float ].

Definition loop_view (s : State) :=
  (timers (browser s), nextTimerId (browser s), detectionInterval (main s)).

Definition is_CheckDimensions (cb : Callback) : bool :=
  match cb with CheckDimensions => true | _ => false end.

(** *** Texts and calls *)

(** A text in which every run of white space is one space between two
    other code units. *)
Fixpoint single_spaced (text : list CodeUnit) : bool :=
  match text with
  | [] => true
  | c :: rest =>
      (if is_space c
       then (c =? 32)%N && match rest with d :: _ => negb (is_space d) | [] => false end
       else true)
      && single_spaced rest
  end.

Definition tidy (text : list CodeUnit) : bool :=
  match text with c :: _ => negb (is_space c) | [] => true end
  && single_spaced text.

(** The code units of a text that are not white space. *)
Definition ink (text : list CodeUnit) : list CodeUnit :=
  List.filter (fun c => negb (is_space c)) text.

(** White space at the end is allowed, a run of it is not. *)
Fixpoint loosely_spaced (text : list CodeUnit) : bool :=
  match text with
  | [] => true
  | c :: rest =>
      (if is_space c
       then (c =? 32)%N && match rest with d :: _ => negb (is_space d) | [] => true end
       else true)
      && loosely_spaced rest
  end.

Definition starts_inked (text : list CodeUnit) : bool :=
  match text with c :: _ => negb (is_space c) | [] => true end.

(** A call that fails with "503 Service Unavailable". *)
Definition overloaded (a : Attempt) : bool :=
  match a with
  | Rejected (Some code) => (code =? 503)%Z
  | _ => false
  end.

(* ===================================================================== *)
(** ** binary64 comparison and subtraction *)
(* ===================================================================== *)

Section Binary64.

Local Open Scope Z_scope.

Ltac cmp_cases :=
  repeat match goal with
  | |- context [Z.compare ?a ?b] => destruct (Z.compare_spec a b)
  | H : context [Z.compare ?a ?b] |- _ => destruct (Z.compare_spec a b)
  | |- context [Pos.compare_cont Eq ?a ?b] =>
      change (Pos.compare_cont Eq a b) with (Pos.compare a b);
      destruct (Pos.compare_spec a b)
  | H : context [Pos.compare_cont Eq ?a ?b] |- _ =>
      change (Pos.compare_cont Eq a b) with (Pos.compare a b) in H;
      destruct (Pos.compare_spec a b)
  end.

Lemma SFltb_trans x y z : SFltb x y = true -> SFltb y z = true -> SFltb x z = true.
Proof.
  unfold SFltb, SFcompare.
  destruct x as [[]|[]| |[] mx ex], y as [[]|[]| |[] my ey], z as [[]|[]| |[] mz ez];
    simpl; try discriminate; try reflexivity;
    cmp_cases; simpl; try discriminate; try reflexivity; intros; exfalso; subst; lia.
Qed.

Lemma SFleb_ltb_trans x y z : SFleb x y = true -> SFltb y z = true -> SFltb x z = true.
Proof.
  unfold SFltb, SFleb, SFcompare.
  destruct x as [[]|[]| |[] mx ex], y as [[]|[]| |[] my ey], z as [[]|[]| |[] mz ez];
    simpl; try discriminate; try reflexivity;
    cmp_cases; simpl; try discriminate; try reflexivity; intros; exfalso; subst; lia.
Qed.

Lemma SFltb_false_leb x y :
  x <> S754_nan -> y <> S754_nan -> SFltb x y = false -> SFleb y x = true.
Proof.
  unfold SFltb, SFleb, SFcompare.
  destruct x as [[]|[]| |[] mx ex], y as [[]|[]| |[] my ey];
    simpl; try discriminate; try reflexivity; try congruence;
    cmp_cases; simpl; try discriminate; try reflexivity; intros; exfalso; subst; lia.
Qed.

Lemma digits2_size m : digits2_pos m = Pos.size m.
Proof. induction m; simpl; congruence. Qed.

Lemma digits2_bounds m :
  2 ^ (Zpos (digits2_pos m) - 1) <= Zpos m < 2 ^ Zpos (digits2_pos m).
Proof.
  rewrite digits2_size. split.
  - pose proof (Pos.size_le m) as H.
    apply Pos2Z.pos_le_pos in H. rewrite Pos2Z.inj_pow in H.
    replace (Zpos (Pos.size m)) with (Z.succ (Zpos (Pos.size m) - 1)) in H by lia.
    rewrite Z.pow_succ_r in H by lia. change (Zpos m~0) with (2 * Zpos m) in H. lia.
  - pose proof (Pos.size_gt m) as H.
    apply Pos2Z.pos_lt_pos in H. rewrite Pos2Z.inj_pow in H. exact H.
Qed.

Lemma iter_xO m d : Zpos (Pos.iter xO m d) = Zpos m * 2 ^ Zpos d.
Proof.
  revert m. induction d using Pos.peano_ind; intros m.
  - simpl Pos.iter. rewrite Z.pow_1_r. lia.
  - rewrite Pos.iter_succ, Pos2Z.inj_succ, Z.pow_succ_r by lia.
    change (Z.pos (Pos.iter xO m d)~0) with (2 * Z.pos (Pos.iter xO m d)).
    rewrite IHd. lia.
Qed.

Lemma shl_align_value m e e' :
  e' <= e ->
  Zpos (fst (shl_align m e e')) = Zpos m * 2 ^ (e - e') /\ snd (shl_align m e e') = e'.
Proof.
  intros H. unfold shl_align. destruct (e' - e) as [|d|d] eqn:E; simpl.
  - replace (e - e') with 0 by lia. rewrite Z.pow_0_r. split; lia.
  - lia.
  - rewrite iter_xO. replace (e - e') with (Zpos d) by lia. auto.
Qed.

(* shifting a non-negative mantissa right *)
Lemma shr_1_m mrs : 0 <= shr_m mrs -> shr_m (shr_1 mrs) = shr_m mrs / 2.
Proof.
  destruct mrs as [m r s]. simpl. intros H.
  destruct m as [|q|q]; [reflexivity| |lia].
  destruct q as [p|p|]; simpl.
  - change (Z.pos p~1) with (2 * Zpos p + 1).
    rewrite Z.add_comm, Z.mul_comm, Z.div_add by lia. reflexivity.
  - change (Z.pos p~0) with (2 * Zpos p).
    rewrite Z.mul_comm, Z.div_mul by lia. reflexivity.
  - reflexivity.
Qed.

Lemma iter_shr_1_m p : forall mrs,
  0 <= shr_m mrs -> shr_m (SpecFloat.iter_pos shr_1 p mrs) = shr_m mrs / 2 ^ Zpos p.
Proof.
  induction p as [p IH|p IH|]; intros mrs H; simpl SpecFloat.iter_pos.
  - assert (H1 : 0 <= shr_m (shr_1 mrs)) by (rewrite shr_1_m by lia; apply Z.div_pos; lia).
    assert (H2 : 0 <= shr_m (SpecFloat.iter_pos shr_1 p (shr_1 mrs)))
      by (rewrite IH by lia; apply Z.div_pos; lia).
    rewrite IH, IH, shr_1_m by lia.
    rewrite !Z.div_div by lia. f_equal.
    rewrite Pos2Z.inj_xI, Z.pow_add_r, Z.pow_mul_r by lia.
    change (2 ^ 2) with 4. change (2 ^ 1) with 2.
    rewrite <- Z.pow_mul_l. change (2 * 2) with 4. lia.
  - assert (H2 : 0 <= shr_m (SpecFloat.iter_pos shr_1 p mrs))
      by (rewrite IH by lia; apply Z.div_pos; lia).
    rewrite IH, IH by lia. rewrite Z.div_div by lia. f_equal.
    rewrite Pos2Z.inj_xO, <- Z.pow_add_r by lia. f_equal. lia.
  - rewrite shr_1_m by lia. reflexivity.
Qed.

Lemma shr_record_of_loc_m m l : shr_m (shr_record_of_loc m l) = m.
Proof. destruct l as [|[]]; reflexivity. Qed.

Lemma shr_fexp_positive m e l :
  0 < m -> emin prec emax <= e ->
  0 < shr_m (fst (shr_fexp prec emax m e l))
  /\ emin prec emax <= snd (shr_fexp prec emax m e l).
Proof.
  intros Hm He. unfold shr_fexp, shr.
  destruct m as [|q|q]; try lia. simpl Zdigits2.
  pose proof (digits2_bounds q) as [Hlo _].
  destruct (fexp prec emax (Zpos (digits2_pos q) + e) - e) as [|p|p] eqn:E; simpl fst; simpl snd.
  - rewrite shr_record_of_loc_m. lia.
  - rewrite iter_shr_1_m by (rewrite shr_record_of_loc_m; lia).
    rewrite shr_record_of_loc_m.
    unfold fexp, emin, prec, emax in *.
    assert (Hp : Zpos p <= Zpos (digits2_pos q) - 1) by lia.
    split; [|lia].
    apply Z.div_str_pos. split; [apply Z.pow_pos_nonneg; lia|].
    eapply Z.le_trans; [|exact Hlo]. apply Z.pow_le_mono_r; lia.
  - rewrite shr_record_of_loc_m. lia.
Qed.

Lemma round_nearest_even_positive m l : 0 < m -> 0 < round_nearest_even m l.
Proof.
  intros H. unfold round_nearest_even. destruct l as [|[]]; try lia.
  destruct (Z.even m); lia.
Qed.

Lemma binary_round_aux_signed s m e l :
  0 < m -> emin prec emax <= e -> signed s (binary_round_aux prec emax s m e l).
Proof.
  intros Hm He. unfold binary_round_aux.
  pose proof (shr_fexp_positive m e l Hm He) as [H1 H2].
  destruct (shr_fexp prec emax m e l) as [mrs' e']. simpl in H1, H2.
  pose proof (round_nearest_even_positive (shr_m mrs') (loc_of_shr_record mrs') H1) as H3.
  pose proof (shr_fexp_positive _ e' loc_Exact H3 H2) as [H4 _].
  destruct (shr_fexp prec emax _ e' loc_Exact) as [mrs'' e'']. simpl in H4.
  destruct (shr_m mrs'') as [|q|q]; try lia.
  destruct (e'' <=? emax - prec); reflexivity.
Qed.

Lemma binary_round_signed s m e :
  emin prec emax <= e -> signed s (binary_round prec emax s m e).
Proof.
  intros He. unfold binary_round.
  destruct (shl_align m e (fexp prec emax (Zpos (digits2_pos m) + e))) as [mz ez] eqn:E.
  apply binary_round_aux_signed; [lia|].
  unfold shl_align in E.
  destruct (fexp prec emax (Z.pos (digits2_pos m) + e) - e) eqn:F;
    injection E as <- <-; try exact He.
  unfold fexp, emin, prec, emax in *. lia.
Qed.

Lemma bounded_facts m e :
  bounded prec emax m e = true ->
  emin prec emax <= e
  /\ Zpos (digits2_pos m) <= prec
  /\ (Zpos (digits2_pos m) = prec \/ e = emin prec emax).
Proof.
  unfold bounded, canonical_mantissa. intros H.
  apply andb_prop in H as [H _]. apply Z.eqb_eq in H.
  unfold fexp, emin, prec, emax in *. lia.
Qed.

Lemma compare_aligned sx mx ex sy my ey :
  bounded prec emax mx ex = true -> bounded prec emax my ey = true ->
  SFcompare (S754_finite sx mx ex) (S754_finite sy my ey)
  = Some (aligned_difference sx mx ex sy my ey ?= 0).
Proof.
  intros Bx By.
  apply bounded_facts in Bx as (Ex & Dx & Cx), By as (Ey & Dy & Cy).
  pose proof (digits2_bounds mx) as [Lx Ux].
  pose proof (digits2_bounds my) as [Ly Uy].
  unfold aligned_difference.
  destruct (shl_align_value mx ex (Z.min ex ey) ltac:(lia)) as [-> _].
  destruct (shl_align_value my ey (Z.min ex ey) ltac:(lia)) as [-> _].
  assert (P53 : 2 ^ 53 = 2 * 2 ^ 52) by reflexivity.
  assert (Ux' : Zpos mx < 2 ^ 53)
    by (eapply Z.lt_le_trans; [exact Ux | apply Z.pow_le_mono_r; unfold prec in *; lia]).
  assert (Uy' : Zpos my < 2 ^ 53)
    by (eapply Z.lt_le_trans; [exact Uy | apply Z.pow_le_mono_r; unfold prec in *; lia]).
  unfold SFcompare.
  change (Pos.compare_cont Eq mx my) with (Pos.compare mx my).
  rewrite Pos2Z.inj_compare.
  destruct (Z.compare_spec ex ey) as [E|E|E].
  - (* equal exponents *)
    subst ey. rewrite Z.min_id, Z.sub_diag, Z.pow_0_r, !Z.mul_1_r.
    destruct sx, sy; cbn [cond_Zopp]; cbv iota; f_equal;
      destruct (Z.compare_spec (Zpos mx) (Zpos my));
      cbn [CompOpp]; symmetry;
      first [apply Z.compare_eq_iff | apply Z.compare_lt_iff
            | apply Z.compare_gt_iff]; lia.
  - (* the first exponent is smaller: the second float is normal *)
    rewrite Z.min_l by lia. rewrite Z.sub_diag, Z.pow_0_r, Z.mul_1_r.
    assert (Dy' : Zpos (digits2_pos my) = prec) by lia.
    rewrite Dy' in Ly. change (2 ^ (prec - 1)) with (2 ^ 52) in Ly.
    assert (T : 2 <= 2 ^ (ey - ex))
      by (change 2 with (2 ^ 1) at 1; apply Z.pow_le_mono_r; lia).
    assert (Big : Zpos mx < Zpos my * 2 ^ (ey - ex)) by nia.
    destruct sx, sy; cbn [cond_Zopp]; cbv iota; f_equal; symmetry;
      first [apply Z.compare_lt_iff | apply Z.compare_gt_iff]; lia.
  - rewrite Z.min_r by lia. rewrite Z.sub_diag, Z.pow_0_r, Z.mul_1_r.
    assert (Dx' : Zpos (digits2_pos mx) = prec) by lia.
    rewrite Dx' in Lx. change (2 ^ (prec - 1)) with (2 ^ 52) in Lx.
    assert (T : 2 <= 2 ^ (ex - ey))
      by (change 2 with (2 ^ 1) at 1; apply Z.pow_le_mono_r; lia).
    assert (Big : Zpos my < Zpos mx * 2 ^ (ex - ey)) by nia.
    destruct sx, sy; cbn [cond_Zopp]; cbv iota; f_equal; symmetry;
      first [apply Z.compare_lt_iff | apply Z.compare_gt_iff]; lia.
Qed.

Lemma SFsub_sign x y :
  SpecFloat.valid_binary prec emax x = true ->
  SpecFloat.valid_binary prec emax y = true ->
  x <> S754_nan -> y <> S754_nan ->
  SFltb (SFsub prec emax x y) (S754_zero false) = SFltb x y.
Proof.
  intros Vx Vy Nx Ny.
  destruct x as [sx|sx| |sx mx ex], y as [sy|sy| |sy my ey]; try congruence;
    try (destruct sx, sy; reflexivity); try (destruct sx; reflexivity);
    try (destruct sy; reflexivity).
  simpl in Vx, Vy.
  unfold SFltb at 2. rewrite (compare_aligned sx mx ex sy my ey Vx Vy).
  unfold SFsub. fold (aligned_difference sx mx ex sy my ey).
  assert (Ez : emin prec emax <= Z.min ex ey).
  { apply bounded_facts in Vx as (Ex & _), Vy as (Ey & _). lia. }
  destruct (aligned_difference sx mx ex sy my ey) as [|d|d]; simpl binary_normalize.
  - reflexivity.
  - pose proof (binary_round_signed false d _ Ez) as S.
    destruct (binary_round prec emax false d (Z.min ex ey)) as [?|?| |? ? ?];
      simpl in S; try contradiction; subst; reflexivity.
  - pose proof (binary_round_signed true d _ Ez) as S.
    destruct (binary_round prec emax true d (Z.min ex ey)) as [?|?| |? ? ?];
      simpl in S; try contradiction; subst; reflexivity.
Qed.

Lemma is_nan_false x : PrimFloat.is_nan x = false -> Prim2SF x <> S754_nan.
Proof.
  unfold PrimFloat.is_nan. rewrite FloatAxioms.eqb_spec. intros H E. rewrite E in H. discriminate.
Qed.

(** IEEE subtraction has the sign of the exact difference. *)
Lemma sub_sign x y :
  PrimFloat.is_nan x = false -> PrimFloat.is_nan y = false ->
  (x - y <? 0)%float = (x <? y)%float.
Proof.
  intros Nx Ny. rewrite !FloatAxioms.ltb_spec, FloatAxioms.sub_spec. unfold SF64sub.
  change (Prim2SF 0%float) with (S754_zero false).
  apply SFsub_sign; auto using Prim2SF_valid, is_nan_false.
Qed.

Lemma ltb_trans x y z :
  (x <? y)%float = true -> (y <? z)%float = true -> (x <? z)%float = true.
Proof. rewrite !FloatAxioms.ltb_spec. apply SFltb_trans. Qed.

Lemma leb_ltb_trans x y z :
  (x <=? y)%float = true -> (y <? z)%float = true -> (x <? z)%float = true.
Proof. rewrite FloatAxioms.leb_spec, !FloatAxioms.ltb_spec. apply SFleb_ltb_trans. Qed.

Lemma ltb_false_leb x y :
  PrimFloat.is_nan x = false -> PrimFloat.is_nan y = false ->
  (x <? y)%float = false -> (y <=? x)%float = true.
Proof.
  intros Nx Ny. rewrite FloatAxioms.ltb_spec, FloatAxioms.leb_spec.
  apply SFltb_false_leb; auto using is_nan_false.
Qed.

Lemma is_nan_spec x : PrimFloat.is_nan x = true -> Prim2SF x = S754_nan.
Proof.
  unfold PrimFloat.is_nan. rewrite FloatAxioms.eqb_spec.
  destruct (Prim2SF x) as [s|s| |s m e]; try reflexivity; intros H; exfalso.
  - destruct s; discriminate.
  - destruct s; discriminate.
  - unfold SFeqb, SFcompare in H.
    rewrite Z.compare_refl, Pos.compare_refl in H.
    destruct s; simpl in H; discriminate.
Qed.

Lemma nan_is_nan x : Prim2SF x = S754_nan -> PrimFloat.is_nan x = true.
Proof. unfold PrimFloat.is_nan. rewrite FloatAxioms.eqb_spec. intros ->. reflexivity. Qed.

Lemma ltb_nan_l x y : PrimFloat.is_nan x = true -> (x <? y)%float = false.
Proof. intros H. rewrite FloatAxioms.ltb_spec, (is_nan_spec _ H). reflexivity. Qed.

Lemma div_nan_r x y : PrimFloat.is_nan y = true -> PrimFloat.is_nan (x / y) = true.
Proof.
  intros H. apply nan_is_nan. rewrite FloatAxioms.div_spec, (is_nan_spec _ H).
  destruct (Prim2SF x) as [[]|[]| |[] ? ?]; reflexivity.
Qed.

End Binary64.

(* ===================================================================== *)
(** ** The posture classifier *)
(* ===================================================================== *)

Section PostureClassifier.

Variable Math_atan2 : JS.number -> JS.number -> JS.number.

Lemma findKeypoint_absent keypoints name :
  has_landmark keypoints name = false -> findKeypoint keypoints name = None.
Proof.
  unfold has_landmark, findKeypoint.
  induction keypoints as [|k rest IH]; simpl; [reflexivity|].
  destruct (names name k); simpl; [discriminate | exact IH].
Qed.

Lemma findKeypoint_present keypoints name k :
  findKeypoint keypoints name = Some k ->
  has_landmark keypoints name = true /\ In k keypoints /\ names name k = true.
Proof.
  unfold has_landmark, findKeypoint.
  induction keypoints as [|k0 rest IH]; simpl; [discriminate|].
  destruct (names name k0) eqn:E; simpl.
  - intros [= ->]. auto.
  - intros H. destruct (IH H) as (? & ? & ?). auto.
Qed.

(** C1. A frame that lacks the left shoulder, the right shoulder or the
    nose is classified as exactly the one flag "Key points hidden",
    whatever the baseline and the other landmarks are. *)
Theorem analyzePosture_key_points_hidden baseline keypoints :
  has_landmark keypoints "left_shoulder"
  && has_landmark keypoints "right_shoulder"
  && has_landmark keypoints "nose" = false ->
  analyzePosture Math_atan2 baseline keypoints = ["Key points hidden"].
Proof.
  intros H. unfold analyzePosture.
  destruct (has_landmark keypoints "left_shoulder") eqn:L.
  - destruct (has_landmark keypoints "right_shoulder") eqn:R.
    + simpl in H. rewrite (findKeypoint_absent _ _ H).
      destruct (findKeypoint keypoints "left_shoulder");
        destruct (findKeypoint keypoints "right_shoulder"); reflexivity.
    + rewrite (findKeypoint_absent _ _ R).
      destruct (findKeypoint keypoints "left_shoulder"); reflexivity.
  - rewrite (findKeypoint_absent _ _ L). reflexivity.
Qed.

(** The flags of the later checks are never "Slouching". *)
Lemma check_tilt_slouching le re la ra flags :
  In "Slouching" (check_tilt le re la ra flags) <-> In "Slouching" flags.
Proof.
  unfold check_tilt, push.
  destruct le, re, la, ra; try reflexivity.
  repeat match goal with |- context [if ?c then _ else _] => destruct c end;
    rewrite ?in_app_iff; simpl; intuition congruence.
Qed.

Lemma check_leaning_slouching ml mr ls rs flags :
  In "Slouching" (check_leaning ml mr ls rs flags) <-> In "Slouching" flags.
Proof.
  unfold check_leaning, push.
  destruct ml, mr; try reflexivity.
  match goal with |- context [if ?c then _ else _] => destruct c end;
    rewrite ?in_app_iff; simpl; intuition congruence.
Qed.

Lemma check_shoulders_slouching ls rs flags :
  In "Slouching" (check_shoulders Math_atan2 ls rs flags) <-> In "Slouching" flags.
Proof.
  unfold check_shoulders, push.
  match goal with |- context [if ?c then _ else _] => destruct c end;
    rewrite ?in_app_iff; simpl; intuition congruence.
Qed.

(** C2. On a frame showing both shoulders and the nose, with a baseline
    whose ratio is not zero and a positive shoulder width, "Slouching" is
    flagged exactly when the relative deviation is below -0.25; a
    deviation of exactly -0.25 does not flag it. *)
Theorem analyzePosture_slouching b keypoints leftShoulder rightShoulder nose :
  findKeypoint keypoints "left_shoulder" = Some leftShoulder ->
  findKeypoint keypoints "right_shoulder" = Some rightShoulder ->
  findKeypoint keypoints "nose" = Some nose ->
  PrimFloat.is_zero (ratio b) = false ->
  JS.gt (JS.Math_abs (kp_x rightShoulder - kp_x leftShoulder)%float) 0%float
  = true ->
  let deviation := relative_deviation b leftShoulder rightShoulder nose in
  (In "Slouching" (analyzePosture Math_atan2 (Some b) keypoints)
   <-> (deviation <? -0.25)%float = true)
  /\ (deviation = (-0.25)%float ->
      ~ In "Slouching" (analyzePosture Math_atan2 (Some b) keypoints)).
Proof.
  intros HL HR HN Hz Hw deviation.
  assert (Hiff : In "Slouching" (analyzePosture Math_atan2 (Some b) keypoints)
                 <-> (deviation <? -0.25)%float = true).
  { unfold analyzePosture. rewrite HL, HR, HN.
    rewrite check_shoulders_slouching, check_leaning_slouching,
      check_tilt_slouching.
    unfold check_slouching. rewrite Hw.
    assert (Hd : (deviation_of b leftShoulder rightShoulder nose <? -0.25)%float
                 = (deviation <? -0.25)%float).
    { unfold deviation_of, JS.truthy. rewrite Hz. simpl orb.
      destruct (PrimFloat.is_nan (ratio b)) eqn:Hnan; simpl negb; cbv iota.
      - (* a NaN ratio: the code's 0 and the formula's NaN both fail the test *)
        subst deviation. unfold relative_deviation.
        transitivity false; [reflexivity|]. symmetry.
        apply ltb_nan_l, div_nan_r, Hnan.
      - reflexivity. }
    rewrite Hd. destruct (deviation <? -0.25)%float; unfold push; simpl;
      intuition congruence. }
  split; [exact Hiff|].
  intros Heq Hin. apply Hiff in Hin. rewrite Heq in Hin. vm_compute in Hin.
  discriminate.
Qed.

End PostureClassifier.

(* ===================================================================== *)
(** ** The baseline *)
(* ===================================================================== *)

(** C6. A call of [setBaseline] fails, and leaves the stored baseline as
    it was, when no frame has been seen, when a shoulder or the nose is
    missing from the cached frame, or when the shoulders are less than 10
    apart (5, for one); otherwise it succeeds and the stored baseline is the
    ratio of the cached frame, whatever was stored before (shoulders 50
    apart, for one). *)
Theorem setBaseline_outcome :
  (forall s,
     fst (setBaseline s) = false ->
     baselinePosture (posture (snd (setBaseline s))) = baselinePosture (posture s))
  /\ (forall s,
        lastKeypoints (posture s) = None -> fst (setBaseline s) = false)
  /\ (forall s keypoints,
        lastKeypoints (posture s) = Some keypoints ->
        has_landmark keypoints "left_shoulder"
        && has_landmark keypoints "right_shoulder"
        && has_landmark keypoints "nose" = false ->
        fst (setBaseline s) = false)
  /\ (forall s keypoints leftShoulder rightShoulder nose,
        lastKeypoints (posture s) = Some keypoints ->
        findKeypoint keypoints "left_shoulder" = Some leftShoulder ->
        findKeypoint keypoints "right_shoulder" = Some rightShoulder ->
        findKeypoint keypoints "nose" = Some nose ->
        if (JS.Math_abs (kp_x rightShoulder - kp_x leftShoulder) <? 10)%float
        then fst (setBaseline s) = false
        else fst (setBaseline s) = true
             /\ baselinePosture (posture (snd (setBaseline s)))
                = Some (baseline_of leftShoulder rightShoulder nose))
  /\ (forall old,
        let s := calibrating old (shoulders_apart 5%float) in
        fst (setBaseline s) = false
        /\ baselinePosture (posture (snd (setBaseline s))) = old)
  /\ (forall old,
        let s := calibrating old (shoulders_apart 50%float) in
        fst (setBaseline s) = true
        /\ baselinePosture (posture (snd (setBaseline s)))
           = Some (mkBaseline 1.2%float)).
Proof.
  split; [|split; [|split; [|split; [|split]]]].
  - intros s. unfold setBaseline.
    destruct (lastKeypoints (posture s)) as [keypoints|]; [|reflexivity].
    destruct (findKeypoint keypoints "left_shoulder");
      destruct (findKeypoint keypoints "right_shoulder");
      destruct (findKeypoint keypoints "nose"); try reflexivity.
    match goal with |- context [if ?c then _ else _] => destruct c end;
      [reflexivity | discriminate].
  - intros s H. unfold setBaseline. rewrite H. reflexivity.
  - intros s keypoints H Hm. unfold setBaseline. rewrite H.
    destruct (findKeypoint keypoints "left_shoulder") as [ls|] eqn:L;
      [|reflexivity].
    destruct (findKeypoint keypoints "right_shoulder") as [rs|] eqn:R;
      [|reflexivity].
    destruct (findKeypoint keypoints "nose") as [n|] eqn:N; [|reflexivity].
    apply findKeypoint_present in L, R, N.
    destruct L as [L _], R as [R _], N as [N _].
    rewrite L, R, N in Hm. discriminate.
  - intros s keypoints ls rs n H L R N. unfold setBaseline.
    rewrite H, L, R, N.
    destruct (JS.Math_abs (kp_x rs - kp_x ls) <? 10)%float;
      [reflexivity | split; reflexivity].
  - intros old. split; reflexivity.
  - intros old. split; [reflexivity | vm_compute; reflexivity].
Qed.

(** C10. [resetInterview] clears the baseline, both accumulators, the
    question and answer state and the processing counter, and leaves the
    cached keypoints as they were.  So a [setBaseline] that follows a reset
    made after a valid frame does not fail with "Still calibrating": it
    judges the frame cached before the reset, and succeeds on it when that
    frame shows the shoulders at least 10 apart and the nose. *)
Theorem resetInterview_keeps_lastKeypoints :
  forall s,
    let s' := resetInterview s in
    lastKeypoints (posture s') = lastKeypoints (posture s)
    /\ baselinePosture (posture s') = None
    /\ currentAnswerPostures (interview s') = []
    /\ currentAnswerEmotions (interview s') = []
    /\ questions (interview s') = []
    /\ currentQuestionIndex (interview s') = 0
    /\ totalQuestions (interview s') = 0
    /\ interviewData (interview s') = []
    /\ answersBeingProcessed (interview s') = 0%Z
    /\ (forall keypoints,
          lastKeypoints (posture s) = Some keypoints ->
          shown STILL_CALIBRATING (snd (setBaseline s')) = shown STILL_CALIBRATING s
          /\ forall leftShoulder rightShoulder nose,
               findKeypoint keypoints "left_shoulder" = Some leftShoulder ->
               findKeypoint keypoints "right_shoulder" = Some rightShoulder ->
               findKeypoint keypoints "nose" = Some nose ->
               (JS.Math_abs (kp_x rightShoulder - kp_x leftShoulder) <? 10)%float
               = false ->
               fst (setBaseline s') = true
               /\ baselinePosture (posture (snd (setBaseline s')))
                  = Some (baseline_of leftShoulder rightShoulder nose)).
Proof.
  intros s s'. repeat (split; [reflexivity|]).
  intros keypoints Hk.
  assert (Hk' : lastKeypoints (posture s') = Some keypoints) by exact Hk.
  split.
  - unfold setBaseline. rewrite Hk'.
    destruct (findKeypoint keypoints "left_shoulder");
      destruct (findKeypoint keypoints "right_shoulder");
      destruct (findKeypoint keypoints "nose");
      try match goal with |- context [if ?c then _ else _] => destruct c end;
      unfold shown; simpl; rewrite List.filter_app, length_app; simpl; lia.
  - intros ls rs n L R N W. unfold setBaseline. rewrite Hk', L, R, N, W.
    split; reflexivity.
Qed.

(* ===================================================================== *)
(** ** The dominant emotion *)
(* ===================================================================== *)

Lemma sort_insert_head {A} (cmp : A -> A -> JS.number) x y sorted d :
  hd d (sort_insert cmp x (y :: sorted)) = if (cmp x y <? 0)%float then x else y.
Proof. simpl. destruct (cmp x y <? 0)%float; reflexivity. Qed.

Lemma sort_insert_nonempty {A} (cmp : A -> A -> JS.number) x sorted :
  sort_insert cmp x sorted <> [].
Proof. destruct sorted as [|y rest]; simpl; [|destruct (_ <? _)%float]; discriminate. Qed.

Lemma Array_sort_head others : forall first sorted,
  exists rest,
    fold_left (fun sorted x => sort_insert by_score_desc x sorted) others (first :: sorted)
    = leader first others :: rest.
Proof.
  unfold leader.
  induction others as [|e others IH]; intros first sorted; simpl; [eauto|].
  destruct (by_score_desc e first <? 0)%float; apply IH.
Qed.

Lemma dominantEmotion_leader first others :
  dominantEmotion (first :: others) = Some (fst (leader first others)).
Proof.
  unfold dominantEmotion, Array_sort. simpl.
  destruct (Array_sort_head others first []) as [rest ->].
  destruct (leader first others). reflexivity.
Qed.

Lemma leader_first_maximum others : forall first,
  Forall (fun e => PrimFloat.is_nan (snd e) = false) (first :: others) ->
  exists before after,
    first :: others = before ++ leader first others :: after
    /\ Forall (fun e => (snd e <? snd (leader first others))%float = true) before
    /\ Forall (fun e => (snd e <=? snd (leader first others))%float = true) after.
Proof.
  induction others as [|e others IH]; intros first N.
  - exists nil, nil. repeat split; constructor.
  - inversion N as [|? ? N1 N']; subst. inversion N' as [|? ? N2 N'']; subst.
    assert (L : leader first (e :: others)
                = leader (if (snd first <? snd e)%float then e else first) others).
    { unfold leader. cbn [fold_left].
      change (by_score_desc e first) with (snd first - snd e)%float.
      rewrite sub_sign by assumption. reflexivity. }
    rewrite L. clear L.
    destruct (snd first <? snd e)%float eqn:C.
    + (* the new entry takes the lead *)
      destruct (IH e N') as (before & after & E & B & A).
      exists (first :: before), after.
      split; [simpl; f_equal; exact E|]. split; [|exact A].
      constructor; [|exact B].
      destruct before as [|b before'].
      * injection E as <- _. exact C.
      * injection E as <- _. inversion B; subst.
        eapply ltb_trans; eassumption.
    + (* the entry kept so far stays *)
      apply ltb_false_leb in C; auto.
      assert (Nf : Forall (fun e => PrimFloat.is_nan (snd e) = false) (first :: others))
        by (constructor; assumption).
      destruct (IH first Nf) as (before & after & E & B & A).
      destruct before as [|b before'].
      * injection E as E1 E2.
        exists nil, (e :: after).
        split; [simpl; rewrite <- E1, <- E2; reflexivity|].
        split; [constructor|]. constructor; [|exact A]. rewrite <- E1. exact C.
      * injection E as E1 E2. subst b.
        exists (first :: e :: before'), after.
        split; [simpl; rewrite <- E2; reflexivity|]. split; [|exact A].
        inversion B; subst.
        constructor; [assumption|]. constructor; [|assumption].
        eapply leb_ltb_trans; eassumption.
Qed.

(** C8. Of a non-empty expression object whose scores are numbers, the
    dominant emotion is the key of the first entry, in the object's order,
    that no entry exceeds: every entry before it has a strictly lower
    score, none after it a higher one.  For happy 0.2, sad 0.6, neutral
    0.2 it is "sad". *)
Theorem dominantEmotion_first_maximum :
  (forall expressions,
     expressions <> [] ->
     Forall (fun e => PrimFloat.is_nan (snd e) = false) expressions ->
     exists before label score after,
       expressions = before ++ (label, score) :: after
       /\ dominantEmotion expressions = Some label
       /\ Forall (fun e => (snd e <? score)%float = true) before
       /\ Forall (fun e => (snd e <=? score)%float = true) after)
  /\ dominantEmotion spec_expressions = Some "sad".
Proof.
  split; [|reflexivity].
  intros expressions NE N. destruct expressions as [|first others]; [congruence|].
  destruct (leader_first_maximum others first N) as (before & after & E & B & A).
  rewrite dominantEmotion_leader.
  destruct (leader first others) as [label score].
  exists before, label, score, after. auto.
Qed.

(* ===================================================================== *)
(** ** The distribution of labels *)
(* ===================================================================== *)

Lemma count_label_other acc val label :
  label <> val -> count_label acc val !! label = acc !! label.
Proof.
  intros Hne. unfold count_label.
  destruct (acc !! val) as [[n|ones]|];
    [| |destruct (inherited val); [destruct (String.eqb val "__proto__")|]];
    try reflexivity; apply lookup_insert_ne; congruence.
Qed.

Lemma count_label_same acc val :
  count_label acc val !! val = counted_more val (acc !! val) 1.
Proof.
  unfold count_label, counted_more.
  destruct (acc !! val) as [[n|ones]|] eqn:E.
  - apply lookup_insert_eq.
  - apply lookup_insert_eq.
  - destruct (inherited val); [destruct (String.eqb val "__proto__")|];
      [exact E | apply lookup_insert_eq | apply lookup_insert_eq].
Qed.

Lemma counted_more_S label current k :
  counted_more label (counted_more label current 1) k
  = counted_more label current (S k).
Proof.
  unfold counted_more.
  destruct current as [[n|ones]|]; destruct k as [|k]; try reflexivity.
  - f_equal. f_equal. lia.
  - f_equal. f_equal. lia.
  - destruct (inherited label); [destruct (String.eqb label "__proto__")|];
      reflexivity.
Qed.

Lemma count_labels_acc dataArray : forall (acc : gmap string Count) label,
  fold_left count_label dataArray acc !! label
  = counted_more label (acc !! label) (occurrences label dataArray).
Proof.
  unfold occurrences.
  induction dataArray as [|val rest IH]; intros acc label;
    cbn [fold_left List.filter].
  - destruct (acc !! label) as [[n|ones]|]; reflexivity.
  - rewrite IH. destruct (String.eqb_spec label val) as [->|Hne]; cbn [length].
    + rewrite count_label_same. apply counted_more_S.
    + rewrite count_label_other by exact Hne. reflexivity.
Qed.

Lemma count_labels_lookup dataArray label :
  count_labels dataArray !! label
  = counted_more label None (occurrences label dataArray).
Proof.
  unfold count_labels. rewrite count_labels_acc, lookup_empty. reflexivity.
Qed.

Lemma occurrences_In label dataArray :
  In label dataArray <-> occurrences label dataArray <> O.
Proof.
  unfold occurrences. induction dataArray as [|val rest IH]; simpl; [tauto|].
  destruct (String.eqb_spec label val) as [->|Hne]; simpl.
  - split; [discriminate | auto].
  - rewrite <- IH. split; [intros [H|H]; congruence | auto].
Qed.

Lemma calculateDistribution_own dataArray label :
  inherited label = false ->
  calculateDistribution dataArray !! label
  = match occurrences label dataArray with
    | O => None
    | S _ as count =>
        Some (JS.Math_round
                (JS.of_nat count / JS.of_nat (length dataArray) * 100)%float)
    end.
Proof.
  intros Own. unfold calculateDistribution.
  destruct dataArray as [|val rest]; cbn [length Nat.eqb];
    [rewrite lookup_empty; reflexivity|].
  rewrite lookup_fmap, count_labels_lookup. unfold counted_more. rewrite Own.
  destruct (occurrences label (val :: rest)); reflexivity.
Qed.

Lemma occurrences_inherited dataArray label :
  forallb (fun val => negb (inherited val)) dataArray = true ->
  inherited label = true -> occurrences label dataArray = O.
Proof.
  intros Own I. unfold occurrences.
  induction dataArray as [|val rest IH]; [reflexivity|].
  cbn [forallb] in Own. apply andb_true_iff in Own as [Hval Own].
  cbn [List.filter]. destruct (String.eqb_spec label val) as [->|Hne].
  - rewrite I in Hval. discriminate Hval.
  - apply IH, Own.
Qed.

(** C7, as the code has it. For labels that do not name a member of
    [Object.prototype], the keys of the distribution are the labels that
    occur, and the value of a label is [Math.round] of the binary64
    product [(count / total) * 100]; no label gives the empty mapping, and
    A, A, B gives A: 67 and B: 33. *)
Theorem calculateDistribution_lookup :
  (forall dataArray,
      forallb (fun val => negb (inherited val)) dataArray = true ->
      forall label,
        calculateDistribution dataArray !! label
        = match occurrences label dataArray with
          | O => None
          | S _ as count =>
              Some (JS.Math_round
                      (JS.of_nat count / JS.of_nat (length dataArray) * 100)%float)
          end)
  /\ calculateDistribution [] = ∅
  /\ calculateDistribution ["A"; "A"; "B"]
     = {[ "A" := 67%float; "B" := 33%float ]}.
Proof.
  split; [|split; [reflexivity | vm_compute; reflexivity]].
  intros dataArray Own label.
  destruct (inherited label) eqn:I.
  - rewrite (occurrences_inherited dataArray label Own I).
    unfold calculateDistribution.
    destruct dataArray as [|val rest]; cbn [length Nat.eqb];
      [rewrite lookup_empty; reflexivity|].
    rewrite lookup_fmap, count_labels_lookup,
            (occurrences_inherited (val :: rest) label Own I).
    reflexivity.
  - apply calculateDistribution_own, I.
Qed.

Lemma percentage_Concatenated ones total :
  JS.isNaN (percentage (Concatenated ones) total) = true.
Proof.
  unfold JS.isNaN, percentage, Count_number, JS.Math_round.
  assert (N : Prim2SF (nan / JS.of_nat total * 100)%float = S754_nan).
  { rewrite FloatAxioms.mul_spec, FloatAxioms.div_spec.
    change (Prim2SF nan) with S754_nan.
    destruct (Prim2SF (JS.of_nat total)) as [[]|[]| |[] ? ?]; reflexivity. }
  rewrite N. apply nan_is_nan, N.
Qed.

(** X24: A label that names a member of [Object.prototype] is not counted:
    once it occurs, its percentage is [NaN], whatever its share of the
    sequence, and the label [__proto__] is no key of the distribution. *)
Theorem calculateDistribution_inherited_names dataArray label :
  inherited label = true ->
  In label dataArray ->
  if String.eqb label "__proto__"
  then calculateDistribution dataArray !! label = None
  else exists value,
         calculateDistribution dataArray !! label = Some value
         /\ JS.isNaN value = true.
Proof.
  intros I Hin. apply occurrences_In in Hin.
  unfold calculateDistribution.
  destruct dataArray as [|val rest]; [exfalso; apply Hin; reflexivity|].
  cbn [length Nat.eqb]. rewrite lookup_fmap, count_labels_lookup.
  destruct (occurrences label (val :: rest)) as [|n]; [congruence|].
  unfold counted_more. rewrite I.
  destruct (String.eqb label "__proto__"); [reflexivity|].
  eexists. split; [reflexivity|]. apply percentage_Concatenated.
Qed.

(* ===================================================================== *)
(** ** The frame handler *)
(* ===================================================================== *)

Section FrameHandler.

Variable Math_atan2 : JS.number -> JS.number -> JS.number.

(** C9, as the code has it. When there is no result, no subject, no
    keypoint list, or the first keypoint's x coordinate is NaN, the frame
    handler only writes "Calibrating..." into the posture display: the
    keypoint cache, the baseline, the accumulators, the alert timers and
    flags, the timer table and the notification log stay as they were. *)
Theorem handlePoseResults_no_signal s results :
  no_signal results = true ->
  handlePoseResults Math_atan2 s results
  = Some (updatePostureUI "🤔" "Calibrating..." s)
  /\ treated_as_no_signal Math_atan2 s results
  /\ forall s', handlePoseResults Math_atan2 s results = Some s' ->
       posture s' = posture s /\ emotion s' = emotion s /\ main s' = main s
       /\ interview s' = interview s
       /\ timers (browser s') = timers (browser s)
       /\ notifications (browser s') = notifications (browser s)
       /\ postureLabel (browser s') = "Calibrating...".
Proof.
  intros H.
  assert (E : handlePoseResults Math_atan2 s results
              = Some (updatePostureUI "🤔" "Calibrating..." s)).
  { unfold handlePoseResults, no_signal in *.
    destruct results as [[|first rest]|]; try reflexivity.
    destruct (keypoints first) as [[|k0 kps]|]; try reflexivity;
      [discriminate | rewrite H; reflexivity]. }
  split; [exact E|]. split.
  - eexists. split; [exact E|]. repeat split.
  - intros s' E'. rewrite E in E'. injection E' as <-. repeat split.
Qed.

End FrameHandler.

(* ===================================================================== *)
(** ** The alerting machines *)
(* ===================================================================== *)

Section Alerting.

Variable Math_atan2 : JS.number -> JS.number -> JS.number.

(** *** The invariant holds in every reachable state *)

Lemma wf_initial : wf initial.
Proof.
  split; simpl; intros; try rewrite lookup_empty in *; try discriminate;
    try congruence; try lia; split; intros; discriminate.
Qed.

Lemma wf_view s s' : view s' = view s -> wf s -> wf s'.
Proof.
  unfold view. intros [= E1 E2 E3 E4 E5 E6 E7 E8] [].
  split; rewrite ?E1, ?E2, ?E3, ?E4, ?E5, ?E6, ?E7, ?E8; assumption.
Qed.

Lemma wf_setTimer cb s :
  cb <> PostureAlert -> cb <> EmotionAlert ->
  wf s -> wf (snd (setTimer cb s)).
Proof.
  intros Hp He []. split; simpl.
  - lia.
  - intros id cb'. rewrite lookup_insert. case_decide; [intros _; subst; lia|].
    intros H'. apply wf_ids0 in H'. lia.
  - intros id. rewrite lookup_insert. case_decide; [|apply wf_posture_timer0].
    subst. split; [congruence|]. intros E. apply wf_posture_timer0, wf_ids0 in E. lia.
  - assumption.
  - assumption.
  - intros id. rewrite lookup_insert. case_decide; [|apply wf_emotion_timer0].
    subst. split; [congruence|]. intros E. apply wf_emotion_timer0, wf_ids0 in E. lia.
  - assumption.
  - intros id E. destruct (wf_interval0 id E) as [Hlt Hcb]. split; [lia|].
    intros cb'. rewrite lookup_insert. case_decide; [lia | apply Hcb].
Qed.

Lemma wf_showNotification message type s : wf s -> wf (showNotification message type s).
Proof.
  intros H. unfold showNotification. apply wf_setTimer; try discriminate.
  revert H. apply wf_view. reflexivity.
Qed.

Lemma wf_clearTimer id s :
  timers (browser s) !! id <> Some PostureAlert ->
  timers (browser s) !! id <> Some EmotionAlert ->
  wf s -> wf (clearTimer id s).
Proof.
  intros Hp He []. split; simpl; try assumption.
  - intros id' cb. rewrite lookup_delete. case_decide; [discriminate | apply wf_ids0].
  - intros id'. rewrite lookup_delete. case_decide; [|apply wf_posture_timer0].
    subst. split; [discriminate|]. intros E. apply wf_posture_timer0 in E. contradiction.
  - intros id'. rewrite lookup_delete. case_decide; [|apply wf_emotion_timer0].
    subst. split; [discriminate|]. intros E. apply wf_emotion_timer0 in E. contradiction.
  - intros id' E. destruct (wf_interval0 id' E) as [Hlt Hcb]. split; [lia|].
    intros cb. rewrite lookup_delete. case_decide; [discriminate | apply Hcb].
Qed.

Lemma posture_timer_pending s id :
  wf s -> badPostureTimer (posture s) = Some id ->
  timers (browser s) !! id = Some PostureAlert /\ 1 <= id.
Proof.
  intros [] E. apply wf_posture_timer0 in E. split; [exact E|].
  apply wf_ids0 in E. lia.
Qed.

Lemma emotion_timer_pending s id :
  wf s -> badEmotionTimer (emotion s) = Some id ->
  timers (browser s) !! id = Some EmotionAlert /\ 1 <= id.
Proof.
  intros [] E. apply wf_emotion_timer0 in E. split; [exact E|].
  apply wf_ids0 in E. lia.
Qed.

Lemma handle_set_wf_posture s :
  wf s -> handle_set (badPostureTimer (posture s)) = false ->
  badPostureTimer (posture s) = None.
Proof.
  intros W H. destruct (badPostureTimer (posture s)) as [[|id]|] eqn:E;
    try discriminate; [|reflexivity].
  apply (posture_timer_pending _ _ W) in E. lia.
Qed.

Lemma handle_set_wf_emotion s :
  wf s -> handle_set (badEmotionTimer (emotion s)) = false ->
  badEmotionTimer (emotion s) = None.
Proof.
  intros W H. destruct (badEmotionTimer (emotion s)) as [[|id]|] eqn:E;
    try discriminate; [|reflexivity].
  apply (emotion_timer_pending _ _ W) in E. lia.
Qed.

Lemma wf_posture_alerting b s :
  lastKeypoints (posture s) <> None -> wf s -> wf (posture_alerting b s).
Proof.
  intros Hk H. unfold posture_alerting. destruct b.
  - destruct (handle_set (badPostureTimer (posture s))) eqn:Hh; [exact H|].
    destruct (isAlertingPosture (posture s)) eqn:Ha; [exact H|]. simpl.
    pose proof (handle_set_wf_posture s H Hh) as Hn. destruct H.
    split; simpl; try assumption; try congruence.
    + lia.
    + intros id cb. rewrite lookup_insert. case_decide; [intros _; subst; lia|].
      intros H'. apply wf_ids0 in H'. lia.
    + intros id. rewrite lookup_insert. case_decide; [subst; split; congruence|].
      split; [|congruence]. intros E. apply wf_posture_timer0 in E. congruence.
    + intros id. rewrite lookup_insert. case_decide; [|apply wf_emotion_timer0].
      subst. split; [congruence|]. intros E. apply wf_emotion_timer0, wf_ids0 in E. lia.
    + intros id E. destruct (wf_interval0 id E) as [Hlt Hcb]. split; [lia|].
      intros cb'. rewrite lookup_insert. case_decide; [lia | apply Hcb].
  - destruct (badPostureTimer (posture s)) as [[|id]|] eqn:E.
    + apply (posture_timer_pending _ _ H) in E. lia.
    + pose proof (posture_timer_pending _ _ H E) as [P _]. destruct H. split; simpl; try assumption; try congruence.
      * intros id' cb. rewrite lookup_delete. case_decide; [discriminate | apply wf_ids0].
      * intros id'. rewrite lookup_delete. case_decide; [split; discriminate|].
        split; [|discriminate]. intros E'. apply wf_posture_timer0 in E'. congruence.
      * intros id'. rewrite lookup_delete. case_decide; [|apply wf_emotion_timer0].
        subst. split; [discriminate|]. intros E'. apply wf_emotion_timer0 in E'.
        congruence.
      * intros id' E'. destruct (wf_interval0 id' E') as [Hlt Hcb]. split; [lia|].
        intros cb. rewrite lookup_delete. case_decide; [discriminate | apply Hcb].
    + destruct H. split; simpl; try assumption; try congruence.
Qed.

Lemma wf_emotion_alerting b s : wf s -> wf (emotion_alerting b s).
Proof.
  intros H. unfold emotion_alerting. destruct b.
  - destruct (handle_set (badEmotionTimer (emotion s))) eqn:Hh; [exact H|].
    destruct (isAlertingEmotion (emotion s)) eqn:Ha; [exact H|]. simpl.
    pose proof (handle_set_wf_emotion s H Hh) as Hn. destruct H.
    split; simpl; try assumption; try congruence.
    + lia.
    + intros id cb. rewrite lookup_insert. case_decide; [intros _; subst; lia|].
      intros H'. apply wf_ids0 in H'. lia.
    + intros id. rewrite lookup_insert. case_decide; [|apply wf_posture_timer0].
      subst. split; [congruence|]. intros E. apply wf_posture_timer0, wf_ids0 in E. lia.
    + intros id. rewrite lookup_insert. case_decide; [subst; split; congruence|].
      split; [|congruence]. intros E. apply wf_emotion_timer0 in E. congruence.
    + intros id E. destruct (wf_interval0 id E) as [Hlt Hcb]. split; [lia|].
      intros cb'. rewrite lookup_insert. case_decide; [lia | apply Hcb].
  - destruct (badEmotionTimer (emotion s)) as [[|id]|] eqn:E.
    + apply (emotion_timer_pending _ _ H) in E. lia.
    + pose proof (emotion_timer_pending _ _ H E) as [P _]. destruct H.
      split; simpl; try assumption; try congruence.
      * intros id' cb. rewrite lookup_delete. case_decide; [discriminate | apply wf_ids0].
      * intros id'. rewrite lookup_delete. case_decide; [|apply wf_posture_timer0].
        subst. split; [discriminate|]. intros E'. apply wf_posture_timer0 in E'.
        congruence.
      * intros id'. rewrite lookup_delete. case_decide; [split; discriminate|].
        split; [|discriminate]. intros E'. apply wf_emotion_timer0 in E'. congruence.
      * intros id' E'. destruct (wf_interval0 id' E') as [Hlt Hcb]. split; [lia|].
        intros cb. rewrite lookup_delete. case_decide; [discriminate | apply Hcb].
    + destruct H. split; simpl; try assumption; try congruence.
Qed.

(* the alert callbacks, run once the browser has taken their timer off the table *)
Lemma wf_postureAlert id s :
  wf s -> timers (browser s) !! id = Some PostureAlert ->
  wf (postureAlert Math_atan2 (clearTimer id s)).
Proof.
  intros H T.
  assert (E : badPostureTimer (posture s) = Some id) by (apply H, T).
  assert (K : lastKeypoints (posture s) <> None) by (apply H; congruence).
  unfold postureAlert. cbn [clearTimer].
  change (lastKeypoints (posture (clearTimer id s))) with (lastKeypoints (posture s)).
  destruct (lastKeypoints (posture s)) as [kps|] eqn:EK; [clear K|congruence].
  change (baselinePosture (posture (clearTimer id s))) with (baselinePosture (posture s)).
  set (fire := (0 <? length (analyzePosture Math_atan2 (baselinePosture (posture s)) kps))%nat).
  assert (W0 : wf (set_badPostureTimer None (clearTimer id s))).
  { destruct H. split; simpl; try assumption; try congruence.
    - intros id' cb. rewrite lookup_delete. case_decide; [discriminate | apply wf_ids0].
    - intros id'. rewrite lookup_delete. case_decide; [split; discriminate|].
      split; [|discriminate]. intros E'. apply wf_posture_timer0 in E'. congruence.
    - intros id'. rewrite lookup_delete. case_decide; [|apply wf_emotion_timer0].
      subst. split; [discriminate|]. intros E'. apply wf_emotion_timer0 in E'. congruence.
    - intros id' E'. destruct (wf_interval0 id' E') as [Hlt Hcb]. split; [lia|].
      intros cb. rewrite lookup_delete. case_decide; [discriminate | apply Hcb]. }
  destruct fire; [|exact W0].
  apply (wf_showNotification POSTURE_TIP "error") in W0.
  destruct W0. split; simpl in *; try assumption; try congruence.
Qed.

Lemma wf_emotionAlert id s :
  wf s -> timers (browser s) !! id = Some EmotionAlert ->
  wf (emotionAlert (clearTimer id s)).
Proof.
  intros H T.
  assert (E : badEmotionTimer (emotion s) = Some id) by (apply H, T).
  unfold emotionAlert.
  change (lastDetectedEmotion (emotion (clearTimer id s))) with (lastDetectedEmotion (emotion s)).
  assert (W0 : wf (set_badEmotionTimer None (clearTimer id s))).
  { destruct H. split; simpl; try assumption; try congruence.
    - intros id' cb. rewrite lookup_delete. case_decide; [discriminate | apply wf_ids0].
    - intros id'. rewrite lookup_delete. case_decide; [|apply wf_posture_timer0].
      subst. split; [discriminate|]. intros E'. apply wf_posture_timer0 in E'. congruence.
    - intros id'. rewrite lookup_delete. case_decide; [split; discriminate|].
      split; [|discriminate]. intros E'. apply wf_emotion_timer0 in E'. congruence.
    - intros id' E'. destruct (wf_interval0 id' E') as [Hlt Hcb]. split; [lia|].
      intros cb. rewrite lookup_delete. case_decide; [discriminate | apply Hcb]. }
  destruct (is_negative (lastDetectedEmotion (emotion s))); [|exact W0].
  apply (wf_showNotification EMOTION_TIP "error") in W0.
  destruct W0. split; simpl in *; try assumption; try congruence.
Qed.

(* The goal state is the hypothesis' state with fields assigned that the
   invariant does not read. *)
Ltac same_view :=
  match goal with
  | H : wf ?x |- wf _ =>
      revert H; generalize x; intros ? H; revert H; apply wf_view; reflexivity
  end.

Lemma wf_handlePoseResults s results s' :
  wf s -> handlePoseResults Math_atan2 s results = Some s' -> wf s'.
Proof.
  intros W. unfold handlePoseResults.
  destruct results as [[|first rest]|]; try (intros [= <-]; same_view).
  destruct (keypoints first) as [[|k0 kps]|]; try discriminate;
    try (intros [= <-]; same_view).
  destruct (JS.isNaN (kp_x k0)); [intros [= <-]; same_view|].
  set (s1 := set_lastKeypoints (Some (k0 :: kps)) s).
  assert (W1 : wf s1).
  { destruct W. split; simpl; try assumption. discriminate. }
  assert (K1 : lastKeypoints (posture s1) <> None) by discriminate.
  clearbody s1. clear W.
  destruct (canvasContext (main s1)); simpl negb; cbv iota; [|intros [= <-]; exact W1].
  set (flags := analyzePosture Math_atan2 (baselinePosture (posture s1)) (k0 :: kps)).
  clearbody flags.
  set (s2 := if (0 <? length flags)%nat then _ else _).
  assert (W2 : wf s2) by (subst s2; destruct (0 <? length flags)%nat; same_view).
  assert (K2 : lastKeypoints (posture s2) <> None)
    by (subst s2; destruct (0 <? length flags)%nat; exact K1).
  clearbody s2.
  destruct (recording (main s2)); intros [= <-]; [|exact W2].
  apply (wf_posture_alerting (0 <? length flags)%nat) in W2; [|exact K2].
  same_view.
Qed.

Lemma wf_runEmotionDetection s detections s' :
  wf s -> runEmotionDetection s detections = Some s' -> wf s'.
Proof.
  intros W. unfold runEmotionDetection.
  destruct detections as [|expressions rest]; [intros [= <-]; same_view|].
  destruct (dominantEmotion expressions) as [dominant|]; [|discriminate].
  set (s1 := set_emotionUI _ _ _).
  assert (W1 : wf s1) by (subst s1; same_view). clearbody s1.
  destruct (recording (main s1)); intros [= <-]; [|exact W1].
  apply (wf_emotion_alerting (is_negative dominant)) in W1. same_view.
Qed.

Lemma wf_setBaseline s : wf s -> wf (snd (setBaseline s)).
Proof.
  intros W. unfold setBaseline.
  destruct (lastKeypoints (posture s)) as [kps|]; [|apply wf_showNotification, W].
  destruct (findKeypoint kps "left_shoulder"), (findKeypoint kps "right_shoulder"),
    (findKeypoint kps "nose"); try apply wf_showNotification, W.
  match goal with |- context [if ?c then _ else _] => destruct c end;
    apply wf_showNotification; [exact W | same_view].
Qed.

Lemma wf_stopAllDetections s : wf s -> wf (stopAllDetections s).
Proof.
  intros W. unfold stopAllDetections.
  set (s1 := match poseDetectionFrameId (main s) with Some (S _ as id) => _ | _ => s end).
  assert (W1 : wf s1).
  { subst s1. destruct (poseDetectionFrameId (main s)) as [[|id]|]; try exact W; same_view. }
  clearbody s1. clear W s.
  set (s2 := match detectionInterval (main s1) with Some (S _ as id) => _ | _ => s1 end).
  assert (W2 : wf s2).
  { subst s2. destruct (detectionInterval (main s1)) as [[|id]|] eqn:E; try exact W1.
    assert (W' : wf (clearTimer (S id) s1)).
    { pose proof (wf_interval _ W1 _ E) as [_ Hcb].
      apply wf_clearTimer; [| |exact W1]; intros T; apply Hcb in T; discriminate. }
    destruct W'. split; simpl in *; try assumption. discriminate. }
  clearbody s2. unfold stopWebcam. destruct (cameraLive (browser s2)); [same_view | exact W2].
Qed.

Lemma wf_startDetection s : wf s -> wf (startDetection s).
Proof.
  intros W. unfold startDetection.
  set (s1 := match poseDetectionFrameId (main s) with Some (S _ as id) => _ | _ => s end).
  assert (W1 : wf s1).
  { subst s1. destruct (poseDetectionFrameId (main s)) as [[|id]|]; try exact W; same_view. }
  clearbody s1. clear W s.
  apply (wf_setTimer CheckDimensions) in W1; try discriminate.
  destruct (setTimer CheckDimensions s1) as [i1 s2]. simpl in W1.
  pose proof (wf_setTimer EmotionLoop _ ltac:(discriminate) ltac:(discriminate) W1) as W2.
  unfold setTimer in *. simpl in *.
  destruct W2. split; simpl in *; try assumption.
  intros id [= <-]. split; [lia|]. intros cb. rewrite lookup_insert_eq. congruence.
Qed.

Lemma wf_endInterview s : wf s -> wf (endInterview s).
Proof.
  intros W. unfold endInterview. apply wf_setTimer; try discriminate.
  apply wf_stopAllDetections.
  destruct (recording (main _)); same_view.
Qed.

Lemma wf_displayCurrentQuestion s : wf s -> wf (displayCurrentQuestion s).
Proof.
  intros W. unfold displayCurrentQuestion.
  destruct (nth_error _ _) as [q|].
  - destruct (currentQuestionIndex (interview s) =? 0)%nat.
    + assert (W' : wf (showNotification "Interview started!" "success"
                         (set_questionText (q_text q) s)))
        by (apply wf_showNotification; same_view).
      same_view.
    + same_view.
  - destruct (isFetchingQuestions (interview s)); simpl; [same_view | apply wf_endInterview, W].
Qed.

Lemma wf_run_callback cb id video s :
  wf s -> lookup_timer id s = Some cb ->
  wf (run_callback Math_atan2 cb id video (if repeats cb then s else clearTimer id s)).
Proof.
  unfold lookup_timer. intros W T. destruct cb; simpl.
  - apply wf_postureAlert; assumption.
  - apply wf_emotionAlert; assumption.
  - assert (W' : wf (clearTimer id s))
      by (apply wf_clearTimer; [congruence | congruence | exact W]). same_view.
  - destruct (hasWidth video); [|exact W].
    assert (W' : wf (clearTimer id s))
      by (apply wf_clearTimer; [congruence | congruence | exact W]).
    unfold runPoseDetectionLoop. destruct (poseDetector _); [same_view | exact W'].
  - destruct (playing video); [same_view | exact W].
  - destruct (answersBeingProcessed (interview s) =? 0)%Z; [|exact W].
    apply (wf_setTimer ShowReport (clearTimer id s)); try discriminate.
    apply wf_clearTimer; [congruence | congruence | exact W].
  - apply wf_clearTimer; [congruence | congruence | exact W].
Qed.

Lemma wf_step s e : wf s -> wf (step Math_atan2 s e).
Proof.
  intros W. destruct e; simpl.
  - same_view.
  - same_view.
  - destruct (total =? 0)%nat; [apply wf_showNotification|]; same_view.
  - same_view.
  - apply wf_startDetection, W.
  - match goal with |- context [if ?c then _ else _] => destruct c end;
      [apply wf_displayCurrentQuestion|]; same_view.
  - apply wf_showNotification, W.
  - destruct (lookup_timer id s) as [cb|] eqn:T; [|exact W].
    apply wf_run_callback; assumption.
  - destruct (bool_decide _); [|exact W].
    unfold runPoseDetectionLoop. destruct (poseDetector _); same_view.
  - destruct (posesInFlight (browser s)) as [|n] eqn:E; [exact W|].
    unfold posesEstimated.
    set (s1 := set_posesInFlight n s). assert (W1 : wf s1) by (subst s1; same_view).
    clearbody s1.
    set (handled := match poses with Some (_ :: _) => _ | _ => Some s1 end).
    assert (H : forall s2, handled = Some s2 -> wf s2).
    { subst handled. destruct poses as [[|p ps]|]; try (intros s2 [= <-]; exact W1).
      intros s2. apply wf_handlePoseResults, W1. }
    destruct handled as [s2|]; [|exact W1].
    specialize (H s2 eq_refl). same_view.
  - destruct (facesInFlight (browser s)) as [|n]; [exact W|].
    set (s1 := set_facesInFlight n s). assert (W1 : wf s1) by (subst s1; same_view).
    clearbody s1.
    destruct (runEmotionDetection s1 detections) as [s2|] eqn:E; [|exact W1].
    eapply wf_runEmotionDetection; eassumption.
  - unfold clickSetBaseline. pose proof (wf_setBaseline s W) as W'.
    destruct (setBaseline s) as [[] s1]; simpl in W';
      [apply wf_displayCurrentQuestion|]; exact W'.
  - unfold handleAnswerButtonClick, startRecording, stopRecording.
    destruct (recording (main s)); simpl; [apply wf_displayCurrentQuestion|]; same_view.
  - destruct (micRequests (browser s)); [exact W | same_view].
  - destruct outcome.
    + same_view.
    + assert (W' := wf_showNotification "No speech detected." "error" s W). same_view.
    + assert (W' := wf_showNotification "Error processing your answer." "error" s W).
      same_view.
  - apply wf_endInterview, W.
  - same_view.
Qed.

Lemma wf_run events : forall s, wf s -> wf (run Math_atan2 s events).
Proof.
  induction events as [|e rest IH]; intros s W; [exact W|].
  apply IH, wf_step, W.
Qed.

Lemma wf_reachable s : reachable Math_atan2 s -> wf s.
Proof. intros [events ->]. apply wf_run, wf_initial. Qed.

(** *** Steps the machines do not notice *)

Lemma p_quiet_refl s : p_quiet s s.
Proof. repeat split; auto. Qed.

Lemma e_quiet_refl s : e_quiet s s.
Proof. repeat split; auto. Qed.

Lemma quiet_refl s : quiet s s.
Proof. split; [apply p_quiet_refl | apply e_quiet_refl]. Qed.

Lemma p_quiet_trans s1 s2 s3 : p_quiet s1 s2 -> p_quiet s2 s3 -> p_quiet s1 s3.
Proof.
  intros (A1 & A2 & A3 & A4) (B1 & B2 & B3 & B4).
  repeat split; try congruence. destruct A4, B4; [left|right|right|right]; congruence.
Qed.

Lemma e_quiet_trans s1 s2 s3 : e_quiet s1 s2 -> e_quiet s2 s3 -> e_quiet s1 s3.
Proof.
  intros (A1 & A2 & A3 & A4) (B1 & B2 & B3 & B4).
  repeat split; try congruence. destruct A4, B4; [left|right|right|right]; congruence.
Qed.

Lemma quiet_trans s1 s2 s3 : quiet s1 s2 -> quiet s2 s3 -> quiet s1 s3.
Proof.
  intros [] []. split; [eapply p_quiet_trans | eapply e_quiet_trans]; eassumption.
Qed.

Lemma shown_showNotification tip message type s :
  shown tip (showNotification message type s)
  = (shown tip s + if String.eqb message tip then 1 else 0)%nat.
Proof.
  unfold shown. simpl. rewrite List.filter_app, length_app. simpl.
  destruct (String.eqb message tip); reflexivity.
Qed.

Lemma quiet_showNotification message type s :
  String.eqb message POSTURE_TIP = false -> String.eqb message EMOTION_TIP = false ->
  quiet s (showNotification message type s).
Proof.
  intros Hp He. split; repeat split; auto; rewrite shown_showNotification, ?Hp, ?He; lia.
Qed.

Lemma quiet_machines s s' : machines s' = machines s -> quiet s s'.
Proof.
  unfold machines, quiet, p_quiet, e_quiet, shown.
  intros [= -> -> -> -> -> -> ->]. repeat split; auto.
Qed.

Ltac quiet_same :=
  match goal with
  | |- quiet ?x _ => generalize x; intros ?; apply quiet_machines; reflexivity
  end.

Lemma quiet_setBaseline s : quiet s (snd (setBaseline s)).
Proof.
  unfold setBaseline.
  destruct (lastKeypoints (posture s)) as [kps|];
    [|apply quiet_showNotification; reflexivity].
  destruct (findKeypoint kps "left_shoulder"), (findKeypoint kps "right_shoulder"),
    (findKeypoint kps "nose"); try (apply quiet_showNotification; reflexivity).
  match goal with |- context [if ?c then _ else _] => destruct c end; simpl.
  - apply quiet_showNotification; reflexivity.
  - match goal with |- quiet _ (showNotification _ _ ?x) =>
      apply (quiet_trans _ x); [quiet_same | apply quiet_showNotification; reflexivity]
    end.
Qed.

Lemma quiet_stopAllDetections s : quiet s (stopAllDetections s).
Proof.
  unfold stopAllDetections, stopWebcam.
  destruct (poseDetectionFrameId (main s)) as [[|?]|];
  match goal with |- context [detectionInterval ?m] => destruct (detectionInterval m) as [[|?]|] end;
  match goal with |- context [cameraLive ?m] => destruct (cameraLive m) end; quiet_same.
Qed.

Lemma quiet_startDetection s : quiet s (startDetection s).
Proof.
  unfold startDetection. destruct (poseDetectionFrameId (main s)) as [[|?]|]; quiet_same.
Qed.

Lemma quiet_endInterview s : quiet s (endInterview s).
Proof.
  unfold endInterview.
  match goal with |- quiet _ (snd (setTimer _ (stopAllDetections ?x))) =>
    apply (quiet_trans _ x); [|apply (quiet_trans _ (stopAllDetections x));
                                [apply quiet_stopAllDetections | quiet_same]]
  end.
  destruct (recording (main _)); quiet_same.
Qed.

Lemma quiet_displayCurrentQuestion s : quiet s (displayCurrentQuestion s).
Proof.
  unfold displayCurrentQuestion.
  destruct (nth_error _ _) as [q|].
  - destruct (currentQuestionIndex (interview s) =? 0)%nat; [|quiet_same].
    apply (quiet_trans _ (showNotification "Interview started!" "success"
                            (set_questionText (q_text q) s))); [|quiet_same].
    apply (quiet_trans _ (set_questionText (q_text q) s));
      [quiet_same | apply quiet_showNotification; reflexivity].
  - destruct (isFetchingQuestions (interview s)); simpl; [quiet_same | apply quiet_endInterview].
Qed.

(** *** The effect of one step *)

Lemma analyzePosture_labels baseline keypoints :
  Forall (fun label => In label POSTURE_FLAGS) (analyzePosture Math_atan2 baseline keypoints).
Proof.
  unfold analyzePosture.
  destruct (findKeypoint keypoints "left_shoulder") as [ls|];
    [|repeat constructor; simpl; tauto].
  destruct (findKeypoint keypoints "right_shoulder") as [rs|];
    [|repeat constructor; simpl; tauto].
  destruct (findKeypoint keypoints "nose") as [n|];
    [|repeat constructor; simpl; tauto].
  assert (P : forall flags label, In label POSTURE_FLAGS ->
                Forall (fun l => In l POSTURE_FLAGS) flags ->
                Forall (fun l => In l POSTURE_FLAGS) (push flags label)).
  { intros flags label Hl Hf. unfold push. apply Forall_app. split; [exact Hf|].
    constructor; [exact Hl | constructor]. }
  assert (S1 : Forall (fun l => In l POSTURE_FLAGS) (check_slouching baseline ls rs n [])).
  { unfold check_slouching. destruct baseline as [b|]; [|constructor].
    destruct (JS.gt _ _); [|constructor].
    destruct (_ <? _)%float; [|constructor]. apply P; [simpl; tauto | constructor]. }
  set (f1 := check_slouching baseline ls rs n []) in *. clearbody f1.
  assert (S2 : Forall (fun l => In l POSTURE_FLAGS)
                 (check_tilt (findKeypoint keypoints "left_eye")
                    (findKeypoint keypoints "right_eye")
                    (findKeypoint keypoints "left_ear")
                    (findKeypoint keypoints "right_ear") f1)).
  { unfold check_tilt.
    destruct (findKeypoint keypoints "left_eye"), (findKeypoint keypoints "right_eye"),
      (findKeypoint keypoints "left_ear"), (findKeypoint keypoints "right_ear");
      try exact S1.
    destruct (_ <? _)%float; [apply P; [simpl; tauto | exact S1]|].
    destruct (JS.gt _ _); [apply P; [simpl; tauto | exact S1] | exact S1]. }
  set (f2 := check_tilt _ _ _ _ f1) in *. clearbody f2.
  assert (S3 : Forall (fun l => In l POSTURE_FLAGS)
                 (check_leaning (findKeypoint keypoints "mouth_left")
                    (findKeypoint keypoints "mouth_right") ls rs f2)).
  { unfold check_leaning.
    destruct (findKeypoint keypoints "mouth_left"), (findKeypoint keypoints "mouth_right");
      try exact S2.
    destruct (JS.gt _ _); [apply P; [simpl; tauto | exact S2] | exact S2]. }
  set (f3 := check_leaning _ _ _ _ f2) in *. clearbody f3.
  unfold check_shoulders.
  destruct (_ <? _)%float; [apply P; [simpl; tauto | exact S3] | exact S3].
Qed.

Lemma first_flag_not_good baseline keypoints :
  (0 <? length (analyzePosture Math_atan2 baseline keypoints))%nat = true ->
  hd "" (analyzePosture Math_atan2 baseline keypoints) <> "Good Posture".
Proof.
  pose proof (analyzePosture_labels baseline keypoints) as H.
  destruct (analyzePosture Math_atan2 baseline keypoints) as [|label rest];
    [discriminate|].
  intros _. inversion H as [|? ? Hin _]; subst. simpl in *.
  intuition (subst; discriminate).
Qed.

Lemma effect_handlePoseResults s results s' :
  wf s ->
  handlePoseResults Math_atan2 s results = Some s' ->
  posture_effect s s' /\ e_quiet s s'.
Proof.
  intros W. unfold handlePoseResults.
  assert (Q : forall s0, quiet s s0 -> posture_effect s s0 /\ e_quiet s s0)
    by (intros s0 [P E]; split; [apply Posture_untouched, P | exact E]).
  destruct results as [[|first rest]|]; try (intros [= <-]; apply Q; quiet_same).
  destruct (keypoints first) as [[|k0 kps]|]; try discriminate;
    try (intros [= <-]; apply Q; quiet_same).
  destruct (JS.isNaN (kp_x k0)); [intros [= <-]; apply Q; quiet_same|].
  change (canvasContext (main (set_lastKeypoints (Some (k0 :: kps)) s)))
    with (canvasContext (main s)).
  destruct (canvasContext (main s)); simpl negb; cbv iota;
    [|intros [= <-]; apply Q; quiet_same].
  change (baselinePosture (posture (set_lastKeypoints (Some (k0 :: kps)) s)))
    with (baselinePosture (posture s)).
  pose proof (first_flag_not_good (baselinePosture (posture s)) (k0 :: kps)) as Hflag.
  set (flags := analyzePosture Math_atan2 (baselinePosture (posture s)) (k0 :: kps)) in *.
  clearbody flags.
  destruct (0 <? length flags)%nat eqn:Bad.
  - (* an adverse frame *)
    match goal with |- context [recording (main ?x)] =>
      change (recording (main x)) with (recording (main s)) end.
    destruct (recording (main s)) eqn:Rec; [|intros [= <-]; apply Q; quiet_same].
    intros [= <-]. split.
    + apply (Posture_adverse _ _ (hd "" flags)); auto.
      * unfold posture_alerting.
        repeat match goal with |- context [if ?c then _ else _] => destruct c end;
          reflexivity.
      * unfold posture_alerting.
        repeat match goal with |- context [if ?c then _ else _] => destruct c end;
          reflexivity.
      * unfold posture_alerting.
        repeat match goal with |- context [if ?c then _ else _] => destruct c end;
          reflexivity.
    + unfold posture_alerting.
      repeat match goal with |- context [if ?c then _ else _] => destruct c end;
        repeat split; auto.
  - match goal with |- context [recording (main ?x)] =>
      change (recording (main x)) with (recording (main s)) end.
    destruct (recording (main s)) eqn:Rec; [|intros [= <-]; apply Q; quiet_same].
    intros [= <-]. split.
    + apply Posture_good; auto; unfold posture_alerting; cbv iota;
        match goal with |- context [badPostureTimer (posture ?x)] =>
          change (badPostureTimer (posture x)) with (badPostureTimer (posture s)) end;
        destruct (badPostureTimer (posture s)) as [[|?]|] eqn:E;
        try (apply (posture_timer_pending _ _ W) in E; lia);
        try reflexivity; simpl; auto.
    + unfold posture_alerting; cbv iota;
        match goal with |- context [badPostureTimer (posture ?x)] =>
          change (badPostureTimer (posture x)) with (badPostureTimer (posture s)) end;
        destruct (badPostureTimer (posture s)) as [[|?]|]; repeat split; auto.
Qed.

Lemma effect_runEmotionDetection s detections s' :
  wf s ->
  runEmotionDetection s detections = Some s' ->
  emotion_effect s s' /\ p_quiet s s'.
Proof.
  intros W. unfold runEmotionDetection.
  assert (Q : forall s0, quiet s s0 -> emotion_effect s s0 /\ p_quiet s s0)
    by (intros s0 [P E]; split; [apply Emotion_untouched, E | exact P]).
  destruct detections as [|expressions rest]; [intros [= <-]; apply Q; quiet_same|].
  destruct (dominantEmotion expressions) as [dominant|]; [|discriminate].
  match goal with |- context [recording (main ?x)] =>
    change (recording (main x)) with (recording (main s)) end.
  destruct (recording (main s)) eqn:Rec; [|intros [= <-]; apply Q; quiet_same].
  intros [= <-]. destruct (is_negative dominant) eqn:Neg.
  - split.
    + apply (Emotion_adverse _ _ dominant); auto; unfold emotion_alerting;
        repeat match goal with |- context [if ?c then _ else _] => destruct c end;
        reflexivity.
    + unfold emotion_alerting;
        repeat match goal with |- context [if ?c then _ else _] => destruct c end;
        repeat split; auto.
  - split.
    + apply (Emotion_good _ _ dominant); auto; unfold emotion_alerting; cbv iota;
        match goal with |- context [badEmotionTimer (emotion ?x)] =>
          change (badEmotionTimer (emotion x)) with (badEmotionTimer (emotion s)) end;
        destruct (badEmotionTimer (emotion s)) as [[|?]|] eqn:E;
        try (apply (emotion_timer_pending _ _ W) in E; lia);
        try reflexivity; simpl; auto.
    + unfold emotion_alerting; cbv iota;
        match goal with |- context [badEmotionTimer (emotion ?x)] =>
          change (badEmotionTimer (emotion x)) with (badEmotionTimer (emotion s)) end;
        destruct (badEmotionTimer (emotion s)) as [[|?]|]; repeat split; auto.
Qed.

Lemma effect_postureAlert id s :
  wf s -> timers (browser s) !! id = Some PostureAlert ->
  posture_effect s (postureAlert Math_atan2 (clearTimer id s))
  /\ e_quiet s (postureAlert Math_atan2 (clearTimer id s)).
Proof.
  intros W T.
  assert (E : badPostureTimer (posture s) = Some id) by (apply W, T).
  assert (K : lastKeypoints (posture s) <> None) by (apply W; congruence).
  assert (A : isAlertingPosture (posture s) = false).
  { destruct (isAlertingPosture (posture s)) eqn:A; [|reflexivity].
    apply W in A. congruence. }
  unfold postureAlert.
  change (lastKeypoints (posture (clearTimer id s))) with (lastKeypoints (posture s)).
  destruct (lastKeypoints (posture s)) as [kps|]; [clear K|congruence].
  change (baselinePosture (posture (clearTimer id s))) with (baselinePosture (posture s)).
  destruct (0 <? length _)%nat.
  - split.
    + apply Posture_elapsed; auto. right. split; [reflexivity|].
      unfold shown. simpl. rewrite List.filter_app, length_app. simpl. lia.
    + repeat split; auto.
      unfold shown. simpl. rewrite List.filter_app, length_app. simpl. lia.
  - split; [apply Posture_elapsed; auto | repeat split; auto].
Qed.

Lemma effect_emotionAlert id s :
  wf s -> timers (browser s) !! id = Some EmotionAlert ->
  emotion_effect s (emotionAlert (clearTimer id s))
  /\ p_quiet s (emotionAlert (clearTimer id s)).
Proof.
  intros W T.
  assert (E : badEmotionTimer (emotion s) = Some id) by (apply W, T).
  assert (A : isAlertingEmotion (emotion s) = false).
  { destruct (isAlertingEmotion (emotion s)) eqn:A; [|reflexivity].
    apply W in A. congruence. }
  unfold emotionAlert.
  change (lastDetectedEmotion (emotion (clearTimer id s)))
    with (lastDetectedEmotion (emotion s)).
  destruct (is_negative _).
  - split.
    + apply Emotion_elapsed; auto. right. split; [reflexivity|].
      unfold shown. simpl. rewrite List.filter_app, length_app. simpl. lia.
    + repeat split; auto.
      unfold shown. simpl. rewrite List.filter_app, length_app. simpl. lia.
  - split; [apply Emotion_elapsed; auto | repeat split; auto].
Qed.

Lemma quiet_effects s s' : quiet s s' -> posture_effect s s' /\ emotion_effect s s'.
Proof. intros [P E]. split; [apply Posture_untouched, P | apply Emotion_untouched, E]. Qed.

(* The effects only read the machines' fields and the recording flag. *)
Lemma effects_ext s1 s1' s2 s2' :
  machines s1' = machines s1 -> recording (main s1') = recording (main s1) ->
  machines s2' = machines s2 ->
  posture_effect s1 s2 /\ emotion_effect s1 s2 ->
  posture_effect s1' s2' /\ emotion_effect s1' s2'.
Proof.
  unfold machines. intros [= A1 A2 A3 A4 A5 A6 A7] R [= B1 B2 B3 B4 B5 B6 B7] [P E].
  assert (Sh : forall tip, shown tip s1' = shown tip s1 /\ shown tip s2' = shown tip s2)
    by (intros tip; unfold shown; rewrite A5, B5; auto).
  split.
  - destruct (Sh POSTURE_TIP) as [S1 S2].
    destruct P as [(P1 & P2 & P3 & P4)|label Rec Hl Hacc Ha Hs|Rec Hacc Ha Ht Hs|Hacc Ha Ht Hd].
    + apply Posture_untouched. repeat split; try congruence;
        try (destruct P4; [left | right]; congruence).
    + apply (Posture_adverse _ _ label); congruence.
    + apply Posture_good; congruence.
    + apply Posture_elapsed; congruence.
  - destruct (Sh EMOTION_TIP) as [S1 S2].
    destruct E as [(P1 & P2 & P3 & P4)|label Rec Hl Hacc Ha Hs|label Rec Hl Hacc Ha Ht Hs|Hacc Ha Ht Hd].
    + apply Emotion_untouched. repeat split; try congruence;
        try (destruct P4; [left | right]; congruence).
    + apply (Emotion_adverse _ _ label); congruence.
    + apply (Emotion_good _ _ label); congruence.
    + apply Emotion_elapsed; congruence.
Qed.

(** Every event leaves each machine untouched, or is one observation of
    it, or is the elapse of its timer. *)
Lemma step_effects s e :
  wf s -> posture_effect s (step Math_atan2 s e) /\ emotion_effect s (step Math_atan2 s e).
Proof.
  intros W. destruct e; simpl; try (apply quiet_effects; quiet_same).
  - destruct (total =? 0)%nat; apply quiet_effects; [|quiet_same].
    apply (quiet_trans _ (set_totalQuestions total s));
      [quiet_same | apply quiet_showNotification; reflexivity].
  - apply quiet_effects, quiet_startDetection.
  - apply quiet_effects.
    match goal with |- context [if ?c then _ else _] => destruct c end; [|quiet_same].
    match goal with |- quiet _ (displayCurrentQuestion ?x) =>
      apply (quiet_trans _ x); [quiet_same | apply quiet_displayCurrentQuestion] end.
  - apply quiet_effects, quiet_showNotification; reflexivity.
  - unfold lookup_timer. destruct (timers (browser s) !! id) as [cb|] eqn:T;
      [|apply quiet_effects, quiet_refl].
    destruct cb; simpl.
    + destruct (effect_postureAlert id s W T) as [P E].
      split; [exact P | apply Emotion_untouched, E].
    + destruct (effect_emotionAlert id s W T) as [E P].
      split; [apply Posture_untouched, P | exact E].
    + apply quiet_effects. quiet_same.
    + apply quiet_effects. destruct (hasWidth video); [|apply quiet_refl].
      unfold runPoseDetectionLoop. destruct (poseDetector _); quiet_same.
    + apply quiet_effects. destruct (playing video); [quiet_same | apply quiet_refl].
    + apply quiet_effects.
      destruct (answersBeingProcessed (interview s) =? 0)%Z; [quiet_same | apply quiet_refl].
    + apply quiet_effects. quiet_same.
  - apply quiet_effects. destruct (bool_decide _); [|apply quiet_refl].
    unfold runPoseDetectionLoop. destruct (poseDetector _); quiet_same.
  - destruct (posesInFlight (browser s)) as [|n]; [apply quiet_effects, quiet_refl|].
    unfold posesEstimated.
    set (s1 := set_posesInFlight n s).
    assert (W1 : wf s1) by (subst s1; same_view).
    assert (M1 : machines s1 = machines s) by reflexivity.
    assert (R1 : recording (main s1) = recording (main s)) by reflexivity.
    clearbody s1.
    assert (H : forall s2 s3, posture_effect s1 s2 /\ emotion_effect s1 s2 ->
                machines s3 = machines s2 ->
                posture_effect s s3 /\ emotion_effect s s3).
    { intros s2 s3 PE M3. apply (effects_ext s1 s s2 s3); auto. }
    destruct poses as [[|p ps]|].
    + apply (H s1); [apply quiet_effects, quiet_refl | reflexivity].
    + destruct (handlePoseResults Math_atan2 s1 (Some (p :: ps))) as [s2|] eqn:E.
      * apply (H s2); [|reflexivity].
        destruct (effect_handlePoseResults _ _ _ W1 E) as [P Q].
        split; [exact P | apply Emotion_untouched, Q].
      * apply (H s1); [apply quiet_effects, quiet_refl | reflexivity].
    + apply (H s1); [apply quiet_effects, quiet_refl | reflexivity].
  - destruct (facesInFlight (browser s)) as [|n]; [apply quiet_effects, quiet_refl|].
    set (s1 := set_facesInFlight n s).
    assert (W1 : wf s1) by (subst s1; same_view).
    assert (M1 : machines s1 = machines s) by reflexivity.
    assert (R1 : recording (main s1) = recording (main s)) by reflexivity.
    clearbody s1.
    destruct (runEmotionDetection s1 detections) as [s2|] eqn:E.
    + apply (effects_ext s1 s s2 s2); auto.
      destruct (effect_runEmotionDetection _ _ _ W1 E) as [P Q].
      split; [apply Posture_untouched, Q | exact P].
    + apply (effects_ext s1 s s1 s1); auto. apply quiet_effects, quiet_refl.
  - apply quiet_effects. unfold clickSetBaseline.
    pose proof (quiet_setBaseline s) as Q.
    destruct (setBaseline s) as [[] s1]; simpl in Q; [|exact Q].
    eapply quiet_trans; [exact Q | apply quiet_displayCurrentQuestion].
  - apply quiet_effects. unfold handleAnswerButtonClick, startRecording, stopRecording.
    destruct (recording (main s)); simpl.
    + match goal with |- quiet _ (displayCurrentQuestion ?x) =>
        apply (quiet_trans _ x); [quiet_same | apply quiet_displayCurrentQuestion] end.
    + split; repeat split; auto.
  - apply quiet_effects. destruct (micRequests (browser s)); [apply quiet_refl | quiet_same].
  - apply quiet_effects. destruct outcome.
    + quiet_same.
    + match goal with |- quiet _ (set_answersBeingProcessed _ ?x) =>
        apply (quiet_trans _ x); [apply quiet_showNotification; reflexivity | quiet_same] end.
    + match goal with |- quiet _ (set_answersBeingProcessed _ ?x) =>
        apply (quiet_trans _ x); [apply quiet_showNotification; reflexivity | quiet_same] end.
  - apply quiet_effects, quiet_endInterview.
  - apply quiet_effects. split; repeat split; auto.
Qed.

(** *** Episodes *)


Lemma logged_same old : logged old old = None.
Proof.
  unfold logged. destruct (last old) as [label|]; [|reflexivity].
  rewrite decide_False; [reflexivity|].
  intros E. apply (f_equal length) in E. rewrite length_app in E. simpl in E. lia.
Qed.

Lemma logged_nil old : logged old [] = None.
Proof. reflexivity. Qed.







Lemma armed_while_recording s e :
  wf s ->
  (forall id, badPostureTimer (posture (step Math_atan2 s e)) = Some id ->
     badPostureTimer (posture s) = Some id \/ recording (main s) = true)
  /\ (forall id, badEmotionTimer (emotion (step Math_atan2 s e)) = Some id ->
        badEmotionTimer (emotion s) = Some id \/ recording (main s) = true)
  /\ (forall label,
        logged (currentAnswerPostures (interview s))
               (currentAnswerPostures (interview (step Math_atan2 s e))) = Some label ->
        recording (main s) = true)
  /\ (forall label,
        logged (currentAnswerEmotions (interview s))
               (currentAnswerEmotions (interview (step Math_atan2 s e))) = Some label ->
        recording (main s) = true).
Proof.
  intros W. destruct (step_effects s e W) as [P E].
  split; [|split; [|split]].
  - intros id T.
    destruct P as [(P1 & _)|label Rec _ _ _ _|Rec _ _ Ht _|_ _ Ht _];
      [left; congruence | right; exact Rec | congruence | congruence].
  - intros id T.
    destruct E as [(P1 & _)|label Rec _ _ _ _|label Rec _ _ _ Ht _|_ _ Ht _];
      [left; congruence | right; exact Rec | congruence | congruence].
  - intros label L.
    destruct P as [(_ & _ & _ & [P4|P4])|? Rec _ _ _ _|Rec _ _ _ _|Hacc _ _ _]; auto.
    + rewrite P4, logged_same in L. discriminate.
    + rewrite P4, logged_nil in L. discriminate.
    + rewrite Hacc, logged_same in L. discriminate.
  - intros label L.
    destruct E as [(_ & _ & _ & [P4|P4])|? Rec _ _ _ _|? Rec _ _ _ _ _|Hacc _ _ _]; auto.
    + rewrite P4, logged_same in L. discriminate.
    + rewrite P4, logged_nil in L. discriminate.
    + rewrite Hacc, logged_same in L. discriminate.
Qed.


(** C4, as the code has it. While the page is not recording, a frame
    handled by [handlePoseResults] or [runEmotionDetection] leaves the
    accumulators, the alert timers and flags, the timer table and the
    notification log as they were, and is still classified for the
    display.  Whatever the step, an alert timer enters the table and a
    label enters an accumulator only when the step starts while
    recording. *)
Theorem frames_off_the_record s :
  reachable Math_atan2 s ->
  (recording (main s) = false ->
   (forall results s',
      handlePoseResults Math_atan2 s results = Some s' ->
      interview s' = interview s /\ emotion s' = emotion s
      /\ badPostureTimer (posture s') = badPostureTimer (posture s)
      /\ isAlertingPosture (posture s') = isAlertingPosture (posture s)
      /\ timers (browser s') = timers (browser s)
      /\ notifications (browser s') = notifications (browser s))
   /\ (forall detections s',
         runEmotionDetection s detections = Some s' ->
         interview s' = interview s /\ posture s' = posture s
         /\ badEmotionTimer (emotion s') = badEmotionTimer (emotion s)
         /\ isAlertingEmotion (emotion s') = isAlertingEmotion (emotion s)
         /\ timers (browser s') = timers (browser s)
         /\ notifications (browser s') = notifications (browser s))
   /\ (forall first rest k0 kps,
         keypoints first = Some (k0 :: kps) ->
         JS.isNaN (kp_x k0) = false ->
         canvasContext (main s) = true ->
         exists s',
           handlePoseResults Math_atan2 s (Some (first :: rest)) = Some s'
           /\ lastKeypoints (posture s') = Some (k0 :: kps)
           /\ postureLabel (browser s')
              = match analyzePosture Math_atan2 (baselinePosture (posture s))
                                     (k0 :: kps) with
                | flag :: _ => flag
                | [] => "Good Posture"
                end)
   /\ (forall expressions rest dominant,
         dominantEmotion expressions = Some dominant ->
         exists s',
           runEmotionDetection s (expressions :: rest) = Some s'
           /\ lastDetectedEmotion (emotion s') = dominant
           /\ emotionLabel (browser s') = capitalise dominant))
  /\ (forall e id,
        timers (browser (step Math_atan2 s e)) !! id = Some PostureAlert ->
        timers (browser s) !! id = Some PostureAlert \/ recording (main s) = true)
  /\ (forall e id,
        timers (browser (step Math_atan2 s e)) !! id = Some EmotionAlert ->
        timers (browser s) !! id = Some EmotionAlert \/ recording (main s) = true)
  /\ (forall e label,
        logged (currentAnswerPostures (interview s))
               (currentAnswerPostures (interview (step Math_atan2 s e))) = Some label
        \/ logged (currentAnswerEmotions (interview s))
                  (currentAnswerEmotions (interview (step Math_atan2 s e))) = Some label ->
        recording (main s) = true).
Proof.
  intros R. pose proof (wf_reachable s R) as W.
  split; [|split; [|split]].
  - intros Rec. split; [|split; [|split]].
    + intros results s'. unfold handlePoseResults.
      destruct results as [[|first rest]|]; try (intros [= <-]; repeat split).
      destruct (keypoints first) as [[|k0 kps]|]; try discriminate;
        try (intros [= <-]; repeat split).
      destruct (JS.isNaN (kp_x k0)); [intros [= <-]; repeat split|].
      change (canvasContext (main (set_lastKeypoints (Some (k0 :: kps)) s)))
        with (canvasContext (main s)).
      destruct (canvasContext (main s)); simpl negb; cbv iota;
        [|intros [= <-]; repeat split].
      destruct (0 <? length _)%nat;
        match goal with |- context [recording (main ?x)] =>
          change (recording (main x)) with (recording (main s)) end;
        rewrite Rec; intros [= <-]; repeat split.
    + intros detections s'. unfold runEmotionDetection.
      destruct detections as [|expressions rest]; [intros [= <-]; repeat split|].
      destruct (dominantEmotion expressions) as [dominant|]; [|discriminate].
      match goal with |- context [recording (main ?x)] =>
        change (recording (main x)) with (recording (main s)) end.
      rewrite Rec. intros [= <-]. repeat split.
    + intros first rest k0 kps K N C. unfold handlePoseResults. rewrite K, N.
      change (canvasContext (main (set_lastKeypoints (Some (k0 :: kps)) s)))
        with (canvasContext (main s)).
      rewrite C. simpl negb. cbv iota.
      change (baselinePosture (posture (set_lastKeypoints (Some (k0 :: kps)) s)))
        with (baselinePosture (posture s)).
      destruct (analyzePosture Math_atan2 (baselinePosture (posture s)) (k0 :: kps))
        as [|flag flags]; simpl length; simpl Nat.ltb; cbv iota;
        match goal with |- context [recording (main ?x)] =>
          change (recording (main x)) with (recording (main s)) end;
        rewrite Rec; eexists; repeat split.
    + intros expressions rest dominant D. unfold runEmotionDetection. rewrite D.
      match goal with |- context [recording (main ?x)] =>
        change (recording (main x)) with (recording (main s)) end.
      rewrite Rec. eexists. repeat split.
  - intros e id T. apply (wf_posture_timer _ (wf_step s e W)) in T.
    destruct (proj1 (armed_while_recording s e W) id T) as [H|H]; [left|right; exact H].
    apply W, H.
  - intros e id T. apply (wf_emotion_timer _ (wf_step s e W)) in T.
    destruct (proj1 (proj2 (armed_while_recording s e W)) id T) as [H|H];
      [left|right; exact H].
    apply W, H.
  - intros e label [L|L].
    + apply (proj1 (proj2 (proj2 (armed_while_recording s e W))) label L).
    + apply (proj2 (proj2 (proj2 (armed_while_recording s e W))) label L).
Qed.

End Alerting.

(* ===================================================================== *)
(** ** Stopping detection *)
(* ===================================================================== *)

Section Stopping.

Variable Math_atan2 : JS.number -> JS.number -> JS.number.

Lemma stopAllDetections_state s :
  let s' := stopAllDetections s in
  posture s' = posture s /\ emotion s' = emotion s /\ interview s' = interview s
  /\ canvasContext (main s') = canvasContext (main s)
  /\ recording (main s') = recording (main s)
  /\ timers (browser s')
     = match detectionInterval (main s) with
       | Some (S _ as id) => delete id (timers (browser s))
       | _ => timers (browser s)
       end
  /\ frames (browser s')
     = match poseDetectionFrameId (main s) with
       | Some (S _ as id) => frames (browser s) ∖ {[id]}
       | _ => frames (browser s)
       end
  /\ nextFrameId (browser s') = nextFrameId (browser s)
  /\ notifications (browser s') = notifications (browser s)
  /\ posesInFlight (browser s') = posesInFlight (browser s)
  /\ facesInFlight (browser s') = facesInFlight (browser s)
  /\ cameraLive (browser s') = false
  /\ handle_set (poseDetectionFrameId (main s')) = false
  /\ handle_set (detectionInterval (main s')) = false.
Proof.
  destruct s as [p e m i b]. destruct m as [? ? ? frame interval]. destruct b.
  unfold stopAllDetections, stopWebcam.
  destruct frame as [[|f]|], interval as [[|t]|]; simpl;
    match goal with |- context [if ?camera then _ else _] => destruct camera end;
    simpl; repeat split.
Qed.

Lemma stopAllDetections_timers s id cb :
  wf s -> timers (browser s) !! id = Some cb -> cb <> EmotionLoop ->
  timers (browser (stopAllDetections s)) !! id = Some cb.
Proof.
  intros W T N.
  destruct (stopAllDetections_state s) as (_ & _ & _ & _ & _ & -> & _).
  destruct (detectionInterval (main s)) as [[|t]|] eqn:I; try exact T.
  rewrite lookup_delete. case_decide as D; [|exact T].
  subst id. destruct (wf_interval _ W _ I) as [_ L]. elim N. apply L, T.
Qed.

(** C5. What [stopAllDetections] stops and what it leaves.  From a
    reachable state it cancels the animation frame held in
    [poseDetectionFrameId] and the emotion interval, and releases the
    camera.  It leaves every other timer on the table, the posture and
    emotion alert timers among them, and the inferences in flight.  So,
    after it has returned, an alert timer that elapses over an adverse
    cached frame (a negative last emotion) still shows its tip, and a pose
    inference that completes is still handled: its frame is cached and the
    loop requests its next animation frame. *)
Theorem stopAllDetections_leaves_work s :
  reachable Math_atan2 s ->
  let s' := stopAllDetections s in
  (handle_set (poseDetectionFrameId (main s')) = false
   /\ (forall id, poseDetectionFrameId (main s) = Some (S id) ->
         S id ∉ frames (browser s'))
   /\ handle_set (detectionInterval (main s')) = false
   /\ (forall id, detectionInterval (main s) = Some (S id) ->
         timers (browser s') !! S id = None)
   /\ cameraLive (browser s') = false)
  /\ ((forall id cb, timers (browser s) !! id = Some cb -> cb <> EmotionLoop ->
         timers (browser s') !! id = Some cb)
      /\ posesInFlight (browser s') = posesInFlight (browser s)
      /\ facesInFlight (browser s') = facesInFlight (browser s))
  /\ (forall id video keypoints,
        timers (browser s) !! id = Some PostureAlert ->
        lastKeypoints (posture s) = Some keypoints ->
        analyzePosture Math_atan2 (baselinePosture (posture s)) keypoints <> [] ->
        shown POSTURE_TIP (step Math_atan2 s' (TimerFires id video))
        = S (shown POSTURE_TIP s'))
  /\ (forall id video,
        timers (browser s) !! id = Some EmotionAlert ->
        is_negative (lastDetectedEmotion (emotion s)) = true ->
        shown EMOTION_TIP (step Math_atan2 s' (TimerFires id video))
        = S (shown EMOTION_TIP s'))
  /\ (forall n first rest k0 kps,
        posesInFlight (browser s) = S n ->
        keypoints first = Some (k0 :: kps) ->
        JS.isNaN (kp_x k0) = false ->
        let s'' := step Math_atan2 s' (PosesEstimated (Some (first :: rest))) in
        lastKeypoints (posture s'') = Some (k0 :: kps)
        /\ poseDetectionFrameId (main s'') = Some (nextFrameId (browser s))
        /\ nextFrameId (browser s) ∈ frames (browser s'')).
Proof.
  intros R s'. pose proof (wf_reachable Math_atan2 s R) as W.
  destruct (stopAllDetections_state s)
    as (P & E & I & Cv & Rec & T & F & NF & N & PF & FF & Cam & HF & HT).
  fold s' in P, E, I, Cv, Rec, T, F, NF, N, PF, FF, Cam, HF, HT.
  split; [|split; [|split; [|split]]].
  - split; [exact HF|]. split; [|split; [exact HT|split; [|exact Cam]]].
    + intros id H. rewrite F, H. intros [_ X]%elem_of_difference.
      apply X, elem_of_singleton. reflexivity.
    + intros id H. rewrite T, H. apply lookup_delete_eq.
  - split; [|split; [exact PF | exact FF]].
    intros id cb. apply stopAllDetections_timers, W.
  - intros id video kps Ht K Flags.
    apply (stopAllDetections_timers s id PostureAlert W) in Ht; [|discriminate].
    fold s' in Ht. unfold step, lookup_timer. rewrite Ht. cbn [repeats run_callback].
    unfold postureAlert.
    change (lastKeypoints (posture (clearTimer id s'))) with (lastKeypoints (posture s')).
    change (baselinePosture (posture (clearTimer id s'))) with (baselinePosture (posture s')).
    rewrite P, K.
    destruct (analyzePosture Math_atan2 (baselinePosture (posture s)) kps) as [|flag flags];
      [congruence|].
    cbn [length Nat.ltb Nat.leb].
    change (shown POSTURE_TIP (showNotification POSTURE_TIP "error" (clearTimer id s'))
            = S (shown POSTURE_TIP s')).
    rewrite shown_showNotification. rewrite String.eqb_refl.
    change (shown POSTURE_TIP (clearTimer id s')) with (shown POSTURE_TIP s'). lia.
  - intros id video Ht Neg.
    apply (stopAllDetections_timers s id EmotionAlert W) in Ht; [|discriminate].
    fold s' in Ht. unfold step, lookup_timer. rewrite Ht. cbn [repeats run_callback].
    unfold emotionAlert.
    change (lastDetectedEmotion (emotion (clearTimer id s')))
      with (lastDetectedEmotion (emotion s')).
    rewrite E, Neg.
    change (shown EMOTION_TIP (showNotification EMOTION_TIP "error" (clearTimer id s'))
            = S (shown EMOTION_TIP s')).
    rewrite shown_showNotification. rewrite String.eqb_refl.
    change (shown EMOTION_TIP (clearTimer id s')) with (shown EMOTION_TIP s'). lia.
  - intros n first rest k0 kps In K Nan s''. subst s''.
    unfold step. rewrite PF, In. unfold posesEstimated, handlePoseResults.
    rewrite K, Nan.
    set (s1 := set_lastKeypoints (Some (k0 :: kps)) (set_posesInFlight n s')).
    assert (H : forall s2, lastKeypoints (posture s2) = Some (k0 :: kps) ->
                nextFrameId (browser s2) = nextFrameId (browser s) ->
                let (id, s3) := requestAnimationFrame s2 in
                let s4 := set_poseDetectionFrameId (Some id) s3 in
                lastKeypoints (posture s4) = Some (k0 :: kps)
                /\ poseDetectionFrameId (main s4) = Some (nextFrameId (browser s))
                /\ nextFrameId (browser s) ∈ frames (browser s4)).
    { intros s2 L X. unfold requestAnimationFrame. simpl. rewrite X.
      split; [exact L|]. split; [reflexivity|].
      apply elem_of_union_l, elem_of_singleton. reflexivity. }
    destruct (negb (canvasContext (main s1))).
    + apply H; [reflexivity | exact NF].
    + match goal with |- context [if ?b then updatePostureUI ?i ?l s1 else ?y] =>
        set (s2 := if b then updatePostureUI i l s1 else y) end.
      assert (L2 : lastKeypoints (posture s2) = Some (k0 :: kps)
                   /\ nextFrameId (browser s2) = nextFrameId (browser s)).
      { subst s2. destruct (0 <? _)%nat; split; try reflexivity; exact NF. }
      destruct L2 as [L2 X2].
      destruct (recording (main s2)); [|apply H; assumption].
      apply H.
      * unfold posture_alerting.
        destruct (0 <? _)%nat.
        -- destruct (_ && _); [|exact L2]. simpl. exact L2.
        -- destruct (badPostureTimer (posture s2)) as [[|t]|]; simpl; exact L2.
      * unfold posture_alerting.
        destruct (0 <? _)%nat.
        -- destruct (_ && _); [|exact X2]. simpl. exact X2.
        -- destruct (badPostureTimer (posture s2)) as [[|t]|]; simpl; exact X2.
Qed.

End Stopping.

(* ===================================================================== *)
(** ** More of binary64 subtraction *)
(* ===================================================================== *)

Section Binary64More.

Local Open Scope Z_scope.

Lemma aligned_difference_swap sx mx ex sy my ey :
  aligned_difference sy my ey sx mx ex = - aligned_difference sx mx ex sy my ey.
Proof. unfold aligned_difference. rewrite (Z.min_comm ey ex). cbv zeta. lia. Qed.

Lemma SFsub_sign_positive x y :
  SpecFloat.valid_binary prec emax x = true ->
  SpecFloat.valid_binary prec emax y = true ->
  x <> S754_nan -> y <> S754_nan ->
  SFltb (S754_zero false) (SFsub prec emax x y) = SFltb y x.
Proof.
  intros Vx Vy Nx Ny.
  destruct x as [sx|sx| |sx mx ex], y as [sy|sy| |sy my ey]; try congruence;
    try (destruct sx, sy; reflexivity); try (destruct sx; reflexivity);
    try (destruct sy; reflexivity).
  simpl in Vx, Vy.
  unfold SFltb at 2. rewrite (compare_aligned sy my ey sx mx ex Vy Vx).
  rewrite aligned_difference_swap.
  unfold SFsub. fold (aligned_difference sx mx ex sy my ey).
  assert (Ez : emin prec emax <= Z.min ex ey).
  { apply bounded_facts in Vx as (Ex & _), Vy as (Ey & _). lia. }
  destruct (aligned_difference sx mx ex sy my ey) as [|d|d]; simpl binary_normalize.
  - reflexivity.
  - pose proof (binary_round_signed false d _ Ez) as S.
    destruct (binary_round prec emax false d (Z.min ex ey)) as [?|?| |? ? ?];
      simpl in S; try contradiction; subst; reflexivity.
  - pose proof (binary_round_signed true d _ Ez) as S.
    destruct (binary_round prec emax true d (Z.min ex ey)) as [?|?| |? ? ?];
      simpl in S; try contradiction; subst; reflexivity.
Qed.

(** The difference is positive exactly when the minuend is the greater. *)
Lemma sub_sign_positive x y :
  PrimFloat.is_nan x = false -> PrimFloat.is_nan y = false ->
  (0 <? x - y)%float = (y <? x)%float.
Proof.
  intros Nx Ny. rewrite !FloatAxioms.ltb_spec, FloatAxioms.sub_spec. unfold SF64sub.
  change (Prim2SF 0%float) with (S754_zero false).
  apply SFsub_sign_positive; auto using Prim2SF_valid, is_nan_false.
Qed.

Lemma ltb_not_nan x y :
  (x <? y)%float = true -> PrimFloat.is_nan x = false /\ PrimFloat.is_nan y = false.
Proof.
  intros H. split.
  - destruct (PrimFloat.is_nan x) eqn:N; [|reflexivity].
    rewrite (ltb_nan_l x y N) in H. discriminate.
  - destruct (PrimFloat.is_nan y) eqn:N; [|reflexivity].
    rewrite FloatAxioms.ltb_spec, (is_nan_spec _ N) in H.
    destruct (Prim2SF x) as [[]|[]| |[] ? ?]; discriminate.
Qed.

Lemma compare_refl_finite s m e : SFcompare (S754_finite s m e) (S754_finite s m e) = Some Eq.
Proof.
  unfold SFcompare. rewrite Z.compare_refl, Pos.compare_cont_refl.
  destruct s; reflexivity.
Qed.

(** A finite number minus itself is [+0]. *)
Lemma sub_diag x :
  PrimFloat.is_nan x = false -> PrimFloat.is_infinity x = false -> (x - x = 0)%float.
Proof.
  intros N I.
  rewrite <- (SF2Prim_Prim2SF (x - x)%float), FloatAxioms.sub_spec. unfold SF64sub.
  assert (V := Prim2SF_valid x).
  assert (Nn := is_nan_false _ N).
  assert (Inf : forall s, Prim2SF x <> S754_infinity s).
  { intros s E. unfold PrimFloat.is_infinity in I.
    rewrite FloatAxioms.eqb_spec, FloatAxioms.abs_spec, E in I. discriminate. }
  destruct (Prim2SF x) as [[]|s| |s m e] eqn:E; try congruence;
    try reflexivity; try (exfalso; eapply Inf; reflexivity).
  simpl in V.
  pose proof (compare_aligned s m e s m e V V) as C.
  rewrite compare_refl_finite in C. injection C as C. symmetry in C.
  apply Z.compare_eq in C.
  unfold SFsub. fold (aligned_difference s m e s m e). rewrite C. reflexivity.
Qed.

End Binary64More.

(* ===================================================================== *)
(** ** The order of the posture checks *)
(* ===================================================================== *)

Section ClassifierFlags.

Variable Math_atan2 : JS.number -> JS.number -> JS.number.

Ltac unflagged := exists []; rewrite app_nil_r; split; [reflexivity | auto].
Ltac flagged := eexists; split; [reflexivity | auto].

Ltac distinct :=
  repeat (apply List.NoDup_cons; [simpl; intuition discriminate|]); apply List.NoDup_nil.

Lemma check_slouching_appends baseline ls rs n flags :
  exists slouch,
    check_slouching baseline ls rs n flags = flags ++ slouch
    /\ (slouch = [] \/ slouch = ["Slouching"]).
Proof.
  unfold check_slouching, push.
  destruct baseline as [b|]; [|unflagged].
  destruct (JS.gt _ _); [|unflagged].
  destruct (_ <? _)%float; [flagged | unflagged].
Qed.

Lemma check_tilt_appends le re la ra flags :
  exists tilt,
    check_tilt le re la ra flags = flags ++ tilt
    /\ (tilt = [] \/ tilt = ["Looking Down"] \/ tilt = ["Looking Up"]).
Proof.
  unfold check_tilt, push.
  destruct le, re, la, ra; try solve [unflagged].
  destruct (_ <? _)%float; [flagged|].
  destruct (JS.gt _ _); [flagged | unflagged].
Qed.

Lemma check_leaning_appends ml mr ls rs flags :
  exists lean,
    check_leaning ml mr ls rs flags = flags ++ lean
    /\ (lean = [] \/ lean = ["Leaning Head"]).
Proof.
  unfold check_leaning, push.
  destruct ml, mr; try solve [unflagged].
  destruct (JS.gt _ _); [flagged | unflagged].
Qed.

Lemma check_shoulders_appends ls rs flags :
  exists shoulders,
    check_shoulders Math_atan2 ls rs flags = flags ++ shoulders
    /\ (shoulders = [] \/ shoulders = ["Tilted Shoulders"]).
Proof.
  unfold check_shoulders, push.
  destruct (_ <? _)%float; [flagged | unflagged].
Qed.

(** X1: The flags come in the order of the checks: the one displayed, the
    first, is the one of highest priority; "Looking Down" and "Looking Up"
    exclude each other, and "Key points hidden" comes alone. *)
Theorem analyzePosture_priority_order baseline keypoints :
  let flags := analyzePosture Math_atan2 baseline keypoints in
  (flags = ["Key points hidden"]
   \/ exists slouch tilt lean shoulders,
        flags = slouch ++ tilt ++ lean ++ shoulders
        /\ (slouch = [] \/ slouch = ["Slouching"])
        /\ (tilt = [] \/ tilt = ["Looking Down"] \/ tilt = ["Looking Up"])
        /\ (lean = [] \/ lean = ["Leaning Head"])
        /\ (shoulders = [] \/ shoulders = ["Tilted Shoulders"]))
  /\ List.NoDup flags
  /\ length flags <= 4.
Proof.
  intros flags.
  assert (D : flags = ["Key points hidden"]
              \/ exists slouch tilt lean shoulders,
                   flags = slouch ++ tilt ++ lean ++ shoulders
                   /\ (slouch = [] \/ slouch = ["Slouching"])
                   /\ (tilt = [] \/ tilt = ["Looking Down"] \/ tilt = ["Looking Up"])
                   /\ (lean = [] \/ lean = ["Leaning Head"])
                   /\ (shoulders = [] \/ shoulders = ["Tilted Shoulders"])).
  { subst flags. unfold analyzePosture.
    destruct (findKeypoint keypoints "left_shoulder") as [ls|]; [|left; reflexivity].
    destruct (findKeypoint keypoints "right_shoulder") as [rs|]; [|left; reflexivity].
    destruct (findKeypoint keypoints "nose") as [n|]; [|left; reflexivity].
    right.
    destruct (check_slouching_appends baseline ls rs n []) as (slouch & -> & Hs).
    destruct (check_tilt_appends (findKeypoint keypoints "left_eye")
                (findKeypoint keypoints "right_eye")
                (findKeypoint keypoints "left_ear")
                (findKeypoint keypoints "right_ear") ([] ++ slouch))
      as (tilt & -> & Ht).
    destruct (check_leaning_appends (findKeypoint keypoints "mouth_left")
                (findKeypoint keypoints "mouth_right") ls rs (([] ++ slouch) ++ tilt))
      as (lean & -> & Hl).
    destruct (check_shoulders_appends ls rs ((([] ++ slouch) ++ tilt) ++ lean))
      as (shoulders & -> & Hh).
    exists slouch, tilt, lean, shoulders.
    split; [simpl; rewrite <- !app_assoc; reflexivity | auto]. }
  split; [exact D|].
  destruct D as [->|(slouch & tilt & lean & shoulders & -> & Hs & Ht & Hl & Hh)].
  - split; [distinct | simpl; lia].
  - destruct Hs as [->| ->], Ht as [->|[->| ->]], Hl as [->| ->], Hh as [->| ->];
      simpl; (split; [distinct | lia]).
Qed.

(** X2: Without a baseline, with a baseline whose ratio is zero or [NaN], or
    with shoulders at the same [x], "Slouching" is never flagged. *)
Theorem analyzePosture_never_slouching baseline keypoints :
  (baseline = None
   \/ (exists b, baseline = Some b /\ JS.truthy (ratio b) = false)
   \/ (exists ls rs,
         findKeypoint keypoints "left_shoulder" = Some ls
         /\ findKeypoint keypoints "right_shoulder" = Some rs
         /\ JS.gt (JS.Math_abs (kp_x rs - kp_x ls)%float) 0%float = false)) ->
  ~ In "Slouching" (analyzePosture Math_atan2 baseline keypoints).
Proof.
  intros H. unfold analyzePosture.
  destruct (findKeypoint keypoints "left_shoulder") as [ls|] eqn:L;
    [|simpl; intuition discriminate].
  destruct (findKeypoint keypoints "right_shoulder") as [rs|] eqn:R;
    [|simpl; intuition discriminate].
  destruct (findKeypoint keypoints "nose") as [n|];
    [|simpl; intuition discriminate].
  rewrite check_shoulders_slouching, check_leaning_slouching, check_tilt_slouching.
  unfold check_slouching.
  destruct H as [->|[(b & -> & T)|(ls' & rs' & [= <-] & [= <-] & W)]].
  - simpl. tauto.
  - destruct (JS.gt _ _); [|simpl; tauto].
    unfold deviation_of. rewrite T.
    replace (0 <? -0.25)%float with false by reflexivity. simpl. tauto.
  - rewrite W. destruct baseline; simpl; tauto.
Qed.

End ClassifierFlags.

(* ===================================================================== *)
(** ** Level shoulders *)
(* ===================================================================== *)

Section MirroredImage.

Variable Math_atan2 : JS.number -> JS.number -> JS.number.

(** ECMAScript on [Math.atan2(+0, x)]: pi for [x < 0], [+0] for [x > 0]. *)
Hypothesis atan2_zero_negative :
  forall x, (x <? 0)%float = true -> Math_atan2 0%float x = JS.Math_PI.
Hypothesis atan2_zero_positive :
  forall x, (0 <? x)%float = true -> Math_atan2 0%float x = 0%float.

Lemma earlier_checks_not_tilted baseline keypoints ls rs n :
  ~ In "Tilted Shoulders"
      (check_leaning (findKeypoint keypoints "mouth_left")
         (findKeypoint keypoints "mouth_right") ls rs
         (check_tilt (findKeypoint keypoints "left_eye")
            (findKeypoint keypoints "right_eye")
            (findKeypoint keypoints "left_ear")
            (findKeypoint keypoints "right_ear")
            (check_slouching baseline ls rs n []))).
Proof.
  destruct (check_slouching_appends baseline ls rs n []) as (slouch & -> & Hs).
  destruct (check_tilt_appends (findKeypoint keypoints "left_eye")
              (findKeypoint keypoints "right_eye")
              (findKeypoint keypoints "left_ear")
              (findKeypoint keypoints "right_ear") ([] ++ slouch))
    as (tilt & -> & Ht).
  destruct (check_leaning_appends (findKeypoint keypoints "mouth_left")
              (findKeypoint keypoints "mouth_right") ls rs (([] ++ slouch) ++ tilt))
    as (lean & -> & Hl).
  destruct Hs as [->| ->], Ht as [->|[->| ->]], Hl as [->| ->];
    simpl; intuition discriminate.
Qed.

(** X3: The shoulder check presumes the mirrored image the camera preview
    shows.  With both shoulders at the same height, the frame is not
    flagged when the right shoulder is on the left of the left shoulder,
    and it is flagged "Tilted Shoulders" when it is on its right. *)
Theorem analyzePosture_level_shoulders baseline keypoints ls rs n :
  findKeypoint keypoints "left_shoulder" = Some ls ->
  findKeypoint keypoints "right_shoulder" = Some rs ->
  findKeypoint keypoints "nose" = Some n ->
  kp_y rs = kp_y ls ->
  PrimFloat.is_nan (kp_y ls) = false ->
  PrimFloat.is_infinity (kp_y ls) = false ->
  ((kp_x rs <? kp_x ls)%float = true ->
   ~ In "Tilted Shoulders" (analyzePosture Math_atan2 baseline keypoints))
  /\ ((kp_x ls <? kp_x rs)%float = true ->
      In "Tilted Shoulders" (analyzePosture Math_atan2 baseline keypoints)).
Proof.
  intros L R N Y Nan Inf. unfold analyzePosture. rewrite L, R, N.
  pose proof (earlier_checks_not_tilted baseline keypoints ls rs n) as E.
  set (flags := check_leaning _ _ _ _ _) in *. clearbody flags.
  unfold check_shoulders. rewrite Y, (sub_diag _ Nan Inf).
  split; intros X; destruct (ltb_not_nan _ _ X) as [N1 N2].
  - rewrite atan2_zero_negative by (rewrite sub_sign by assumption; exact X).
    replace (JS.Math_abs (JS.Math_PI * 180 / JS.Math_PI) <? 174)%float
      with false by (vm_compute; reflexivity).
    exact E.
  - rewrite atan2_zero_positive by (rewrite sub_sign_positive by assumption; exact X).
    replace (JS.Math_abs (0 * 180 / JS.Math_PI) <? 174)%float
      with true by (vm_compute; reflexivity).
    unfold push. apply in_or_app. right. left. reflexivity.
Qed.

End MirroredImage.

Lemma atan2_on_axes_zero_negative x :
  (x <? 0)%float = true -> atan2_on_axes 0%float x = JS.Math_PI.
Proof. intros H. unfold atan2_on_axes. simpl PrimFloat.is_zero. cbv iota. rewrite H. reflexivity. Qed.

Lemma atan2_on_axes_zero_positive x :
  (0 <? x)%float = true -> atan2_on_axes 0%float x = 0%float.
Proof.
  intros H. unfold atan2_on_axes. simpl PrimFloat.is_zero. cbv iota.
  assert (A : (x <? 0)%float = false /\ PrimFloat.is_zero x = false).
  { unfold PrimFloat.is_zero.
    rewrite FloatAxioms.ltb_spec in H. rewrite FloatAxioms.ltb_spec, FloatAxioms.eqb_spec.
    change (Prim2SF 0%float) with (S754_zero false) in *.
    destruct (Prim2SF x) as [[]|[]| |[] ? ?]; try discriminate; split; reflexivity. }
  destruct A as [-> ->]. reflexivity.
Qed.

(* ===================================================================== *)
(** ** A recorded frame *)
(* ===================================================================== *)

Section RecordedFrame.

Variable Math_atan2 : JS.number -> JS.number -> JS.number.

(** X4: While recording, a valid frame is cached, classified, displayed and
    logged: the one label appended to the posture accumulator is the label
    on display, the first flag or "Good Posture".  The emotion accumulator
    and the emotion machine are not touched. *)
Theorem handlePoseResults_logs_displayed_label s first rest k0 kps :
  keypoints first = Some (k0 :: kps) ->
  JS.isNaN (kp_x k0) = false ->
  canvasContext (main s) = true ->
  recording (main s) = true ->
  exists s',
    handlePoseResults Math_atan2 s (Some (first :: rest)) = Some s'
    /\ lastKeypoints (posture s') = Some (k0 :: kps)
    /\ postureLabel (browser s')
       = match analyzePosture Math_atan2 (baselinePosture (posture s)) (k0 :: kps) with
         | flag :: _ => flag
         | [] => "Good Posture"
         end
    /\ postureIcon (browser s')
       = match analyzePosture Math_atan2 (baselinePosture (posture s)) (k0 :: kps) with
         | _ :: _ => "⚠️"
         | [] => "✅"
         end
    /\ currentAnswerPostures (interview s')
       = currentAnswerPostures (interview s) ++ [postureLabel (browser s')]
    /\ currentAnswerEmotions (interview s') = currentAnswerEmotions (interview s)
    /\ emotion s' = emotion s
    /\ baselinePosture (posture s') = baselinePosture (posture s).
Proof.
  intros K N C R. unfold handlePoseResults. rewrite K, N.
  change (canvasContext (main (set_lastKeypoints (Some (k0 :: kps)) s)))
    with (canvasContext (main s)).
  rewrite C. simpl negb. cbv iota.
  change (baselinePosture (posture (set_lastKeypoints (Some (k0 :: kps)) s)))
    with (baselinePosture (posture s)).
  destruct (analyzePosture Math_atan2 (baselinePosture (posture s)) (k0 :: kps))
    as [|flag flags]; simpl length; simpl Nat.ltb; cbv iota;
    match goal with |- context [recording (main ?x)] =>
      change (recording (main x)) with (recording (main s)) end;
    rewrite R; eexists; (split; [reflexivity|]); unfold posture_alerting.
  - simpl. destruct (badPostureTimer (posture s)) as [[|id]|]; repeat split.
  - simpl.
    repeat match goal with |- context [if ?c then _ else _] => destruct c end;
      repeat split.
Qed.

End RecordedFrame.

(* ===================================================================== *)
(** ** The alert timers *)
(* ===================================================================== *)

Section AlertTimers.

Variable Math_atan2 : JS.number -> JS.number -> JS.number.

(** X5: In every reachable state each machine has at most one alert timer
    pending, the one its timer variable holds; a machine with a pending
    timer has not alerted, and the posture machine then has a cached
    frame for the callback to classify.  Timer handles are positive and
    below the next handle to be given out. *)
Theorem alert_timers_unique s :
  reachable Math_atan2 s ->
  (forall id id',
     timers (browser s) !! id = Some PostureAlert ->
     timers (browser s) !! id' = Some PostureAlert -> id = id')
  /\ (forall id id',
        timers (browser s) !! id = Some EmotionAlert ->
        timers (browser s) !! id' = Some EmotionAlert -> id = id')
  /\ (forall id,
        timers (browser s) !! id = Some PostureAlert ->
        badPostureTimer (posture s) = Some id
        /\ isAlertingPosture (posture s) = false
        /\ lastKeypoints (posture s) <> None)
  /\ (forall id,
        timers (browser s) !! id = Some EmotionAlert ->
        badEmotionTimer (emotion s) = Some id
        /\ isAlertingEmotion (emotion s) = false)
  /\ (forall id cb,
        timers (browser s) !! id = Some cb -> 1 <= id < nextTimerId (browser s)).
Proof.
  intros R. pose proof (wf_reachable Math_atan2 s R) as W.
  split; [|split; [|split; [|split]]].
  - intros id id' T T'.
    apply (wf_posture_timer _ W) in T, T'. congruence.
  - intros id id' T T'.
    apply (wf_emotion_timer _ W) in T, T'. congruence.
  - intros id T. apply (wf_posture_timer _ W) in T.
    split; [exact T|]. split.
    + destruct (isAlertingPosture (posture s)) eqn:A; [|reflexivity].
      rewrite (wf_posture_flag _ W A) in T. discriminate.
    + apply (wf_keypoints _ W). congruence.
  - intros id T. apply (wf_emotion_timer _ W) in T.
    split; [exact T|].
    destruct (isAlertingEmotion (emotion s)) eqn:A; [|reflexivity].
    rewrite (wf_emotion_flag _ W A) in T. discriminate.
  - apply (wf_ids _ W).
Qed.

End AlertTimers.

(* ===================================================================== *)
(** ** Detections without a face, and the dominant key *)
(* ===================================================================== *)

Section NoFace.

Variable Math_atan2 : JS.number -> JS.number -> JS.number.

(** X6: A detection without a face shows "No Face" and sets the last emotion
    to "neutral"; recording or not, it logs nothing and leaves the emotion
    machine alone: a pending timer stays pending and the alerted flag
    stays set.  A timer that elapses next finds "neutral" and shows no
    tip. *)
Theorem runEmotionDetection_no_face s :
  exists s',
    runEmotionDetection s [] = Some s'
    /\ emotionLabel (browser s') = "No Face"
    /\ lastDetectedEmotion (emotion s') = "neutral"
    /\ interview s' = interview s
    /\ posture s' = posture s
    /\ badEmotionTimer (emotion s') = badEmotionTimer (emotion s)
    /\ isAlertingEmotion (emotion s') = isAlertingEmotion (emotion s)
    /\ timers (browser s') = timers (browser s)
    /\ notifications (browser s') = notifications (browser s)
    /\ forall id video,
         timers (browser s) !! id = Some EmotionAlert ->
         let s'' := step Math_atan2 s' (TimerFires id video) in
         shown EMOTION_TIP s'' = shown EMOTION_TIP s'
         /\ isAlertingEmotion (emotion s'') = isAlertingEmotion (emotion s)
         /\ badEmotionTimer (emotion s'') = None
         /\ timers (browser s'') !! id = None.
Proof.
  eexists. split; [reflexivity|]. repeat (split; [reflexivity|]).
  intros id video T. cbv zeta. unfold step, lookup_timer.
  match goal with |- context [timers (browser ?x) !! id] =>
    change (timers (browser x)) with (timers (browser s)) end.
  rewrite T. cbn [repeats run_callback]. unfold emotionAlert.
  match goal with |- context [is_negative (lastDetectedEmotion (emotion ?x))] =>
    change (is_negative (lastDetectedEmotion (emotion x))) with false end.
  cbv iota. repeat split. simpl. apply lookup_delete_eq.
Qed.

End NoFace.

Lemma leader_In first others : In (leader first others) (first :: others).
Proof.
  unfold leader. revert first.
  induction others as [|e others IH]; intros first; simpl; [auto|].
  destruct (by_score_desc e first <? 0)%float.
  - right. apply IH.
  - destruct (IH first) as [H|H]; [left; exact H | right; right; exact H].
Qed.

(** X7: The dominant emotion is a key of the expression object, whatever the
    scores are, and there is one as soon as the object has an entry. *)
Theorem dominantEmotion_is_a_key expressions :
  (dominantEmotion expressions = None <-> expressions = [])
  /\ forall label, dominantEmotion expressions = Some label ->
       In label (map fst expressions).
Proof.
  destruct expressions as [|first others].
  - split; [split; reflexivity | discriminate].
  - rewrite dominantEmotion_leader. split; [split; discriminate|].
    intros label [= <-]. apply in_map, leader_In.
Qed.

Lemma sub_nan_l x y : PrimFloat.is_nan x = true -> PrimFloat.is_nan (x - y) = true.
Proof.
  intros H. apply nan_is_nan. rewrite FloatAxioms.sub_spec, (is_nan_spec _ H).
  destruct (Prim2SF y) as [[]|[]| |[] ? ?]; reflexivity.
Qed.


(* ===================================================================== *)
(** ** Recorded detections, the baseline frame, and the order of observations *)
(* ===================================================================== *)

Section RecordedDetection.


End RecordedDetection.

Section BaselineFrame.

Variable Math_atan2 : JS.number -> JS.number -> JS.number.

Lemma zero_div_not_below x y :
  PrimFloat.is_zero x = true -> (x / y <? -0.25)%float = false.
Proof.
  unfold PrimFloat.is_zero. rewrite FloatAxioms.eqb_spec, FloatAxioms.ltb_spec, FloatAxioms.div_spec.
  change (Prim2SF 0%float) with (S754_zero false).
  change (Prim2SF (-0.25)%float) with (S754_finite true 4503599627370496 (-54)).
  unfold SF64div.
  destruct (Prim2SF x) as [[]|[]| |[] ? ?]; try discriminate; intros _;
    destruct (Prim2SF y) as [[]|[]| |[] ? ?]; reflexivity.
Qed.

Lemma sub_diag_zero_or_nan x :
  PrimFloat.is_zero (x - x) = true \/ PrimFloat.is_nan (x - x) = true.
Proof.
  destruct (PrimFloat.is_nan x) eqn:N; [right; apply sub_nan_l, N|].
  destruct (PrimFloat.is_infinity x) eqn:I.
  - right. apply nan_is_nan. rewrite FloatAxioms.sub_spec. unfold SF64sub.
    unfold PrimFloat.is_infinity in I.
    rewrite FloatAxioms.eqb_spec, FloatAxioms.abs_spec in I.
    destruct (Prim2SF x) as [[]|[]| |[] ? ?]; try discriminate; reflexivity.
  - left. rewrite (sub_diag x N I). reflexivity.
Qed.

Lemma self_deviation_not_below x : ((x - x) / x <? -0.25)%float = false.
Proof.
  destruct (sub_diag_zero_or_nan x) as [Z|N].
  - apply zero_div_not_below, Z.
  - rewrite FloatAxioms.ltb_spec, FloatAxioms.div_spec.
    rewrite (is_nan_spec _ N). reflexivity.
Qed.

(** X10: The frame a baseline is taken from is not slouching against it:
    whatever the coordinates, the cached frame classified right after a
    successful [setBaseline] is not flagged "Slouching". *)
Theorem setBaseline_frame_not_slouching s keypoints :
  lastKeypoints (posture s) = Some keypoints ->
  fst (setBaseline s) = true ->
  lastKeypoints (posture (snd (setBaseline s))) = Some keypoints
  /\ ~ In "Slouching"
        (analyzePosture Math_atan2 (baselinePosture (posture (snd (setBaseline s))))
                        keypoints).
Proof.
  intros K. unfold setBaseline. rewrite K.
  destruct (findKeypoint keypoints "left_shoulder") as [ls|] eqn:L; [|discriminate].
  destruct (findKeypoint keypoints "right_shoulder") as [rs|] eqn:R; [|discriminate].
  destruct (findKeypoint keypoints "nose") as [n|] eqn:N; [|discriminate].
  destruct (_ <? 10)%float; [discriminate|]. intros _. cbv zeta. cbn [snd].
  split; [exact K|].
  match goal with |- context [baselinePosture (posture ?x)] =>
    let b := eval cbn in (baselinePosture (posture x)) in
    change (baselinePosture (posture x)) with b end.
  unfold analyzePosture. rewrite L, R, N.
  rewrite check_shoulders_slouching, check_leaning_slouching, check_tilt_slouching.
  unfold check_slouching. destruct (JS.gt _ _); [|simpl; tauto].
  unfold deviation_of. cbn [ratio].
  destruct (JS.truthy _).
  - rewrite self_deviation_not_below. simpl. tauto.
  - replace (0 <? -0.25)%float with false by reflexivity. simpl. tauto.
Qed.

End BaselineFrame.

Lemma occurrences_Permutation label l1 l2 :
  Permutation l1 l2 -> occurrences label l1 = occurrences label l2.
Proof.
  unfold occurrences. induction 1; simpl; auto.
  - destruct (String.eqb label x); simpl; congruence.
  - destruct (String.eqb label x), (String.eqb label y); reflexivity.
  - congruence.
Qed.

(** X11: The distribution depends on how often each label occurs, not on the
    order of the observations. *)
Theorem calculateDistribution_Permutation l1 l2 :
  Permutation l1 l2 -> calculateDistribution l1 = calculateDistribution l2.
Proof.
  intros P. unfold calculateDistribution.
  rewrite (Permutation_length P).
  destruct (length l2 =? 0)%nat; [reflexivity|].
  f_equal. apply map_eq. intros label.
  rewrite !count_labels_lookup, (occurrences_Permutation label l1 l2 P). reflexivity.
Qed.

(* ===================================================================== *)
(** ** detectionManager.js: starting and stopping *)
(* ===================================================================== *)

Section DetectionManager.

Variable Math_atan2 : JS.number -> JS.number -> JS.number.

Lemma startDetection_timers s :
  let n := nextTimerId (browser s) in
  timers (browser (startDetection s))
  = <[S n := EmotionLoop]> (<[n := CheckDimensions]> (timers (browser s)))
  /\ nextTimerId (browser (startDetection s)) = S (S n)
  /\ detectionInterval (main (startDetection s)) = Some (S n).
Proof.
  unfold startDetection.
  destruct (poseDetectionFrameId (main s)) as [[|f]|]; repeat split.
Qed.

(** X12: [startDetection] run twice (a second canplay) leaves two emotion
    intervals and two dimension checks on the timer table, and
    [detectionInterval] holds only the later emotion interval: the stop
    that follows clears that one and leaves the first running. *)
Theorem startDetection_twice_leaks_interval s :
  let n := nextTimerId (browser s) in
  let s2 := startDetection (startDetection s) in
  (timers (browser s2) !! n = Some CheckDimensions
   /\ timers (browser s2) !! (n + 1) = Some EmotionLoop
   /\ timers (browser s2) !! (n + 2) = Some CheckDimensions
   /\ timers (browser s2) !! (n + 3) = Some EmotionLoop
   /\ detectionInterval (main s2) = Some (n + 3))
  /\ (timers (browser (stopAllDetections s2)) !! (n + 3) = None
      /\ timers (browser (stopAllDetections s2)) !! (n + 1) = Some EmotionLoop
      /\ timers (browser (stopAllDetections s2)) !! n = Some CheckDimensions
      /\ timers (browser (stopAllDetections s2)) !! (n + 2) = Some CheckDimensions
      /\ detectionInterval (main (stopAllDetections s2)) = None).
Proof.
  intros n s2.
  assert (T : timers (browser s2)
              = <[S (S (S n)) := EmotionLoop]>
                  (<[S (S n) := CheckDimensions]>
                     (<[S n := EmotionLoop]>
                        (<[n := CheckDimensions]> (timers (browser s)))))).
  { subst s2 n.
    destruct (startDetection_timers (startDetection s)) as (-> & _).
    destruct (startDetection_timers s) as (-> & -> & _). reflexivity. }
  assert (I : detectionInterval (main s2) = Some (S (S (S n)))).
  { subst s2 n.
    destruct (startDetection_timers (startDetection s)) as (_ & _ & ->).
    destruct (startDetection_timers s) as (_ & -> & _). reflexivity. }
  replace (n + 1) with (S n) by lia. replace (n + 2) with (S (S n)) by lia.
  replace (n + 3) with (S (S (S n))) by lia.
  assert (L : timers (browser s2) !! n = Some CheckDimensions
              /\ timers (browser s2) !! S n = Some EmotionLoop
              /\ timers (browser s2) !! S (S n) = Some CheckDimensions
              /\ timers (browser s2) !! S (S (S n)) = Some EmotionLoop).
  { rewrite T. repeat split.
    - rewrite !lookup_insert_ne by lia. apply lookup_insert_eq.
    - rewrite !lookup_insert_ne by lia. apply lookup_insert_eq.
    - rewrite lookup_insert_ne by lia. apply lookup_insert_eq.
    - apply lookup_insert_eq. }
  destruct L as (L0 & L1 & L2 & L3).
  split; [auto|].
  destruct (stopAllDetections_state s2) as (_ & _ & _ & _ & _ & Tm & _ & _ & _ & _ & _ & _ & _ & H).
  rewrite I in Tm. rewrite Tm.
  split; [apply lookup_delete_eq|].
  rewrite !lookup_delete_ne by lia. repeat split; auto.
  clear Tm. revert H I. generalize s2. generalize n. clear. intros n s2 H I.
  destruct s2 as [p e m i b]. destruct m as [? ? ? interval frame]. destruct b.
  change (interval = Some (S (S (S n)))) in I. subst interval. revert H. unfold stopAllDetections, stopWebcam.
  destruct frame as [[|f]|]; simpl;
    match goal with |- context [if ?camera then _ else _] => destruct camera end;
    reflexivity.
Qed.

(** X13: Stopping twice is stopping once. *)
Theorem stopAllDetections_idempotent s :
  stopAllDetections (stopAllDetections s) = stopAllDetections s.
Proof.
  destruct s as [p e m i b]. destruct m as [? ? ? interval frame].
  destruct b as [? ? ? ? ? ? ? camera ? ? ? ? ? ? ? ?].
  unfold stopAllDetections, stopWebcam.
  destruct frame as [[|f]|], interval as [[|t]|], camera; reflexivity.
Qed.

End DetectionManager.

(* ===================================================================== *)
(** ** uiController.js: notifications *)
(* ===================================================================== *)

Section Notifications.

Variable Math_atan2 : JS.number -> JS.number -> JS.number.

(** X14: [showNotification] never cancels the hide timeout of the message it
    replaces: when that earlier timeout elapses it hides the later
    message, whose own timeout is still pending. *)
Theorem showNotification_hidden_by_earlier_timer s m1 t1 m2 t2 video :
  let id1 := nextTimerId (browser s) in
  let s2 := showNotification m2 t2 (showNotification m1 t1 s) in
  let s3 := step Math_atan2 s2 (TimerFires id1 video) in
  (notificationShown (browser s2) = true
   /\ last (notifications (browser s2)) = Some (m2, t2)
   /\ timers (browser s2) !! id1 = Some HideNotification
   /\ timers (browser s2) !! S id1 = Some HideNotification)
  /\ (notificationShown (browser s3) = false
      /\ last (notifications (browser s3)) = Some (m2, t2)
      /\ timers (browser s3) !! S id1 = Some HideNotification).
Proof.
  intros id1 s2 s3.
  assert (T : timers (browser s2)
              = <[S id1 := HideNotification]>
                  (<[id1 := HideNotification]> (timers (browser s)))) by reflexivity.
  assert (L1 : timers (browser s2) !! id1 = Some HideNotification).
  { rewrite T, lookup_insert_ne by lia. apply lookup_insert_eq. }
  assert (L2 : timers (browser s2) !! S id1 = Some HideNotification).
  { rewrite T. apply lookup_insert_eq. }
  assert (N : last (notifications (browser s2)) = Some (m2, t2)).
  { subst s2. simpl. apply last_snoc. }
  split; [repeat split; assumption|].
  subst s3. unfold step, lookup_timer. rewrite L1. cbn [repeats run_callback].
  split; [reflexivity|]. split; [exact N|].
  change (delete id1 (timers (browser s2)) !! S id1 = Some HideNotification).
  rewrite lookup_delete_ne by lia. exact L2.
Qed.

End Notifications.

(* ===================================================================== *)
(** ** interviewManager.js: the form of an answer *)
(* ===================================================================== *)

Section AnswerForm.

Variable Math_atan2 : JS.number -> JS.number -> JS.number.

Lemma stopAllDetections_screen s :
  screen (browser (stopAllDetections s)) = screen (browser s)
  /\ questionText (browser (stopAllDetections s)) = questionText (browser s).
Proof.
  destruct s as [p e m i b]. destruct m as [? ? ? interval frame].
  destruct b as [? ? ? ? ? ? ? camera ? ? ? ? ? ? ? ?].
  unfold stopAllDetections, stopWebcam.
  destruct frame as [[|f]|], interval as [[|t]|], camera; split; reflexivity.
Qed.

Lemma endInterview_interview s :
  interview (endInterview s)
  = interview
      ((if recording (main s)
        then set_answersBeingProcessed (answersBeingProcessed (interview s) + 1)
        else fun s => s)
         (set_currentQuestionIndex (S (currentQuestionIndex (interview s))) s))
  /\ recording (main (endInterview s)) = false
  /\ screen (browser (endInterview s)) = "report".
Proof.
  unfold endInterview.
  change (recording (main (set_currentQuestionIndex
                             (S (currentQuestionIndex (interview s))) s)))
    with (recording (main s)).
  destruct (recording (main s)) eqn:Rec;
    match goal with |- context [stopAllDetections ?x] =>
      destruct (stopAllDetections_state x)
        as (_ & _ & I & _ & R & _ & _ & _ & _ & _ & _ & _);
      destruct (stopAllDetections_screen x) as [Sc _];
      change (interview (snd (setTimer AwaitAnswers (stopAllDetections x))))
        with (interview (stopAllDetections x));
      change (recording (main (snd (setTimer AwaitAnswers (stopAllDetections x)))))
        with (recording (main (stopAllDetections x)));
      change (screen (browser (snd (setTimer AwaitAnswers (stopAllDetections x)))))
        with (screen (browser (stopAllDetections x)));
      rewrite I, R, Sc
    end; repeat split; exact Rec.
Qed.

(** X15: An answer to question [i] (0-based; the index variable is one past it
    since the question was displayed) that is ended by the Stop button or
    by End Interview is sent with the text and type of question [i] and
    the distributions of the labels logged during it; recording is off and
    the counter of answers in process is one higher.  The question index
    in the form is [i + 3].  After the last question the Stop button also
    ends the interview. *)
Theorem prepareFormData_attributes_answer domain experience s i q :
  recording (main s) = true ->
  isFetchingQuestions (interview s) = false ->
  currentQuestionIndex (interview s) = S i ->
  nth_error (questions (interview s)) i = Some q ->
  forall s',
    s' = stopRecording s \/ s' = endInterview s ->
    (exists form,
       prepareFormData domain experience s' = Some form
       /\ fd_questionText form = q_text q
       /\ fd_questionType form = q_type q
       /\ fd_questionIndex form = i + 3
       /\ fd_postureData form
          = calculateDistribution (currentAnswerPostures (interview s))
       /\ fd_emotionData form
          = calculateDistribution (currentAnswerEmotions (interview s)))
    /\ recording (main s') = false
    /\ answersBeingProcessed (interview s')
       = (answersBeingProcessed (interview s) + 1)%Z
    /\ (nth_error (questions (interview s)) (S i) = None ->
        screen (browser s') = "report").
Proof.
  intros Rec Fetch Index Q s' Hs'.
  assert (I : interview s'
              = interview (set_currentQuestionIndex (S (S i))
                             (set_answersBeingProcessed
                                (answersBeingProcessed (interview s) + 1) s))
              /\ recording (main s') = false
              /\ (nth_error (questions (interview s)) (S i) = None ->
                  screen (browser s') = "report")).
  { destruct Hs' as [-> | ->].
    - unfold stopRecording.
      set (s1 := set_recording false _).
      assert (R1 : recording (main s1) = false) by reflexivity.
      assert (I1 : interview s1
                   = interview (set_answersBeingProcessed
                                  (answersBeingProcessed (interview s) + 1) s))
        by reflexivity.
      assert (X1 : currentQuestionIndex (interview s1) = S i) by (rewrite I1; exact Index).
      assert (Q1 : questions (interview s1) = questions (interview s))
        by (rewrite I1; reflexivity).
      assert (F1 : isFetchingQuestions (interview s1) = false)
        by (rewrite I1; exact Fetch).
      clearbody s1. unfold displayCurrentQuestion. rewrite X1, Q1.
      destruct (nth_error (questions (interview s)) (S i)) as [next|] eqn:Next.
      + simpl Nat.eqb. cbv iota. split; [|split; [exact R1 | discriminate]].
        simpl. rewrite I1. reflexivity.
      + rewrite F1. simpl negb. cbv iota.
        destruct (endInterview_interview s1) as (E & R & Sc).
        split; [|split; [exact R | intros _; exact Sc]].
        rewrite E, R1, X1. simpl. rewrite I1. reflexivity.
    - destruct (endInterview_interview s) as (E & R & Sc).
      split; [|split; [exact R | intros _; exact Sc]].
      rewrite E, Rec, Index. reflexivity. }
  destruct I as (I & R & Sc).
  split; [|split; [exact R | split; [rewrite I; reflexivity | exact Sc]]].
  unfold prepareFormData. rewrite I.
  cbn [interview set_currentQuestionIndex set_answersBeingProcessed with_interview
       currentQuestionIndex questions currentAnswerPostures currentAnswerEmotions].
  replace (S (S i) <? 2)%nat with false by reflexivity.
  replace (S (S i) - 2) with i by lia. rewrite Q.
  eexists. split; [reflexivity|]. repeat split. simpl. lia.
Qed.

End AnswerForm.

(* ===================================================================== *)
(** ** detectionManager.js: the loops *)
(* ===================================================================== *)

Section Loops.

Variable Math_atan2 : JS.number -> JS.number -> JS.number.

Lemma wf_bounded s : wf s -> handles_bounded s.
Proof. intros W id cb T. apply (wf_ids _ W) in T. lia. Qed.

Lemma tame_view s s' : loop_view s' = loop_view s -> handles_bounded s -> tame s s'.
Proof.
  unfold loop_view. intros [= T N I] B.
  split; unfold handles_bounded; rewrite ?T, ?N, ?I; auto.
Qed.

Lemma calm_view s s' :
  loop_view s' = loop_view s -> pose_view s' = pose_view s -> handles_bounded s -> calm s s'.
Proof. intros L P B. split; [apply tame_view; assumption | intros _ _; exact P]. Qed.

Lemma tame_trans s1 s2 s3 : tame s1 s2 -> tame s2 s3 -> tame s1 s3.
Proof.
  intros [B1 C1 L1 I1] [B2 C2 L2 I2]. split; auto.
  - intros id T D. apply L2; [apply L1; assumption|].
    destruct I1 as [-> | ->]; [exact D | discriminate].
  - destruct I2 as [-> | ->]; auto.
Qed.

Lemma rests_trans s1 s2 s3 : rests s1 s2 -> rests s2 s3 -> rests s1 s3.
Proof.
  intros P1 P2 F K. pose proof (P1 F K) as E1. rewrite <- E1.
  unfold pose_view in E1. apply P2; congruence.
Qed.

Lemma calm_trans s1 s2 s3 : calm s1 s2 -> calm s2 s3 -> calm s1 s3.
Proof.
  intros [T1 R1] [T2 R2]. split; [eapply tame_trans | eapply rests_trans]; eassumption.
Qed.

Lemma calm_refl s : handles_bounded s -> calm s s.
Proof. apply calm_view; reflexivity. Qed.

Lemma calm_bounded s s' : calm s s' -> handles_bounded s'.
Proof. intros [[] _]; assumption. Qed.

(* The goal state is the base state with fields assigned that the loops
   do not read. *)
Ltac calm_same :=
  first
    [ match goal with
      | B : handles_bounded ?x |- calm ?x _ =>
          revert B; generalize x; intros ? B;
          apply calm_view; [reflexivity | reflexivity | exact B]
      end
    | apply calm_view; [reflexivity | reflexivity | assumption] ].

Lemma calm_setTimer cb s :
  cb <> CheckDimensions -> handles_bounded s -> calm s (snd (setTimer cb s)).
Proof.
  intros N B. split; [|intros _ _; reflexivity]. split; unfold handles_bounded; simpl.
  - intros id cb'. rewrite lookup_insert. case_decide; [intros _; subst; lia|].
    intros T. apply B in T. lia.
  - intros id. rewrite lookup_insert. case_decide; [congruence | auto].
  - intros id T _. rewrite lookup_insert_ne; [exact T|]. apply B in T. lia.
  - left. reflexivity.
Qed.

Lemma calm_clearTimer id s :
  timers (browser s) !! id <> Some EmotionLoop -> handles_bounded s -> calm s (clearTimer id s).
Proof.
  intros N B. split; [|intros _ _; reflexivity]. split; unfold handles_bounded; simpl.
  - intros id' cb. rewrite lookup_delete. case_decide; [discriminate | apply B].
  - intros id'. rewrite lookup_delete. case_decide; [discriminate | auto].
  - intros id' T _. rewrite lookup_delete_ne; [exact T | congruence].
  - left. reflexivity.
Qed.

(* [calm] through an intermediate state *)
Ltac calm_via x := apply (calm_trans _ x).

Lemma calm_showNotification message type s :
  handles_bounded s -> calm s (showNotification message type s).
Proof.
  intros B. unfold showNotification. cbv zeta.
  match goal with |- calm _ (snd (setTimer _ ?x)) =>
    assert (C : calm s x) by calm_same;
    calm_via x; [exact C | apply calm_setTimer; [discriminate | exact (calm_bounded _ _ C)]]
  end.
Qed.

Lemma calm_posture_alerting b s : wf s -> calm s (posture_alerting b s).
Proof.
  intros W. pose proof (wf_bounded s W) as B. unfold posture_alerting. destruct b.
  - destruct (_ && _); [|apply calm_refl, B]. simpl.
    assert (C : calm s (snd (setTimer PostureAlert s)))
      by (apply calm_setTimer; [discriminate | exact B]).
    calm_via (snd (setTimer PostureAlert s)); [exact C|].
    pose proof (calm_bounded _ _ C) as B'. calm_same.
  - destruct (badPostureTimer (posture s)) as [[|id]|] eqn:E; try calm_same.
    apply (posture_timer_pending _ _ W) in E as [T _].
    assert (C : calm s (clearTimer (S id) s))
      by (apply calm_clearTimer; [congruence | exact B]).
    calm_via (clearTimer (S id) s); [exact C|].
    pose proof (calm_bounded _ _ C) as B'. calm_same.
Qed.

Lemma calm_emotion_alerting b s : wf s -> calm s (emotion_alerting b s).
Proof.
  intros W. pose proof (wf_bounded s W) as B. unfold emotion_alerting. destruct b.
  - destruct (_ && _); [|apply calm_refl, B]. simpl.
    assert (C : calm s (snd (setTimer EmotionAlert s)))
      by (apply calm_setTimer; [discriminate | exact B]).
    calm_via (snd (setTimer EmotionAlert s)); [exact C|].
    pose proof (calm_bounded _ _ C) as B'. calm_same.
  - destruct (badEmotionTimer (emotion s)) as [[|id]|] eqn:E; try calm_same.
    apply (emotion_timer_pending _ _ W) in E as [T _].
    assert (C : calm s (clearTimer (S id) s))
      by (apply calm_clearTimer; [congruence | exact B]).
    calm_via (clearTimer (S id) s); [exact C|].
    pose proof (calm_bounded _ _ C) as B'. calm_same.
Qed.

Lemma calm_postureAlert s : handles_bounded s -> calm s (postureAlert Math_atan2 s).
Proof.
  intros B. unfold postureAlert.
  destruct (lastKeypoints (posture s)) as [kps|]; [|apply calm_refl, B].
  destruct (0 <? length _)%nat; [|calm_same].
  pose proof (calm_showNotification POSTURE_TIP "error" s B) as C.
  calm_via (showNotification POSTURE_TIP "error" s); [exact C|].
  pose proof (calm_bounded _ _ C) as B'. calm_same.
Qed.

Lemma calm_emotionAlert s : handles_bounded s -> calm s (emotionAlert s).
Proof.
  intros B. unfold emotionAlert.
  destruct (is_negative _); [|calm_same].
  pose proof (calm_showNotification EMOTION_TIP "error" s B) as C.
  calm_via (showNotification EMOTION_TIP "error" s); [exact C|].
  pose proof (calm_bounded _ _ C) as B'. calm_same.
Qed.

Lemma wf_set_lastKeypoints keypoints s : wf s -> wf (set_lastKeypoints (Some keypoints) s).
Proof. intros []. split; simpl; auto; discriminate. Qed.

Lemma tame_handlePoseResults s results s' :
  wf s -> handlePoseResults Math_atan2 s results = Some s' -> tame s s'.
Proof.
  intros W. pose proof (wf_bounded s W) as B. unfold handlePoseResults.
  assert (Q : forall s0, loop_view s0 = loop_view s -> tame s s0)
    by (intros s0 E; apply tame_view; assumption).
  destruct results as [[|first rest]|]; try (intros [= <-]; apply Q; reflexivity).
  destruct (keypoints first) as [[|k0 kps]|]; try discriminate;
    try (intros [= <-]; apply Q; reflexivity).
  destruct (JS.isNaN (kp_x k0)); [intros [= <-]; apply Q; reflexivity|].
  destruct (negb _); [intros [= <-]; apply Q; reflexivity|].
  set (flags := analyzePosture Math_atan2 _ _). clearbody flags.
  set (bad := (0 <? length flags)%nat). clearbody bad.
  set (s2 := if bad then _ else _).
  assert (W2 : wf s2).
  { subst s2. destruct bad;
      (apply (wf_view (set_lastKeypoints (Some (k0 :: kps)) s));
       [reflexivity | apply wf_set_lastKeypoints, W]). }
  assert (T2 : tame s s2) by (subst s2; destruct bad; apply Q; reflexivity).
  clearbody s2.
  destruct (recording (main s2)); intros [= <-]; [|exact T2].
  apply (tame_trans _ s2); [exact T2|].
  destruct (calm_posture_alerting bad s2 W2) as [T3 _].
  apply (tame_trans _ (posture_alerting bad s2)); [exact T3|].
  apply tame_view; [reflexivity | destruct T3; assumption].
Qed.

Lemma calm_runEmotionDetection s detections s' :
  wf s -> runEmotionDetection s detections = Some s' -> calm s s'.
Proof.
  intros W. pose proof (wf_bounded s W) as B. unfold runEmotionDetection.
  destruct detections as [|expressions rest]; [intros [= <-]; calm_same|].
  destruct (dominantEmotion expressions) as [dominant|]; [|discriminate].
  set (s2 := set_emotionUI _ _ _).
  assert (W2 : wf s2) by (subst s2; apply (wf_view s); [reflexivity | exact W]).
  assert (C2 : calm s s2) by (subst s2; calm_same).
  clearbody s2.
  destruct (recording (main s2)); intros [= <-]; [|exact C2].
  calm_via s2; [exact C2|].
  pose proof (calm_emotion_alerting (is_negative dominant) s2 W2) as C3.
  calm_via (emotion_alerting (is_negative dominant) s2); [exact C3|].
  pose proof (calm_bounded _ _ C3) as B3. calm_same.
Qed.

Lemma calm_setBaseline s : handles_bounded s -> calm s (snd (setBaseline s)).
Proof.
  intros B. unfold setBaseline.
  destruct (lastKeypoints (posture s)) as [kps|];
    [|apply calm_showNotification, B].
  destruct (findKeypoint kps "left_shoulder") as [ls|];
    [|apply calm_showNotification, B].
  destruct (findKeypoint kps "right_shoulder") as [rs|];
    [|apply calm_showNotification, B].
  destruct (findKeypoint kps "nose") as [n|];
    [|apply calm_showNotification, B].
  destruct (_ <? _)%float; [apply calm_showNotification, B|].
  cbv zeta. cbn [snd].
  match goal with |- calm _ (showNotification _ _ ?x) =>
    assert (C : calm s x) by calm_same;
    calm_via x; [exact C | apply calm_showNotification, (calm_bounded _ _ C)]
  end.
Qed.

Lemma calm_cancelAnimationFrame id s : handles_bounded s -> calm s (cancelAnimationFrame id s).
Proof.
  intros B. split; [apply tame_view; [reflexivity | exact B]|].
  intros _ F. unfold pose_view. simpl. rewrite F. f_equal. f_equal.
  apply set_eq. intros x. rewrite elem_of_difference. split; [intros [H _]; exact H|].
  intros H. exfalso. revert H. apply not_elem_of_empty.
Qed.

Lemma calm_stopAllDetections s : handles_bounded s -> calm s (stopAllDetections s).
Proof.
  intros B. unfold stopAllDetections.
  set (s1 := match poseDetectionFrameId (main s) with
             | Some (S _ as id) => set_poseDetectionFrameId None (cancelAnimationFrame id s)
             | _ => s
             end).
  assert (C1 : calm s s1).
  { subst s1. destruct (poseDetectionFrameId (main s)) as [[|f]|]; try (apply calm_refl, B).
    pose proof (calm_cancelAnimationFrame (S f) s B) as C.
    calm_via (cancelAnimationFrame (S f) s); [exact C|].
    pose proof (calm_bounded _ _ C) as B'. calm_same. }
  pose proof (calm_bounded _ _ C1) as B1. clearbody s1.
  set (s2 := match detectionInterval (main s1) with
             | Some (S _ as id) => set_detectionInterval None (clearTimer id s1)
             | _ => s1
             end).
  assert (C2 : calm s1 s2).
  { subst s2. destruct (detectionInterval (main s1)) as [[|t]|] eqn:I;
      try (apply calm_refl, B1).
    split; [|intros _ _; reflexivity]. split; unfold handles_bounded; simpl.
    - intros id cb. rewrite lookup_delete. case_decide; [discriminate | apply B1].
    - intros id. rewrite lookup_delete. case_decide; [discriminate | auto].
    - intros id T D. rewrite lookup_delete_ne; [exact T | congruence].
    - right. reflexivity. }
  pose proof (calm_bounded _ _ C2) as B2. clearbody s2.
  calm_via s1; [exact C1|]. calm_via s2; [exact C2|].
  unfold stopWebcam. destruct (cameraLive (browser s2)); [calm_same | apply calm_refl, B2].
Qed.

Lemma calm_endInterview s : handles_bounded s -> calm s (endInterview s).
Proof.
  intros B. unfold endInterview. cbv zeta.
  match goal with |- calm _ (snd (setTimer _ (stopAllDetections ?x))) =>
    assert (C : calm s x) by
      (match goal with |- context [if ?c then _ else _] => destruct c end; calm_same);
    pose proof (calm_stopAllDetections x (calm_bounded _ _ C)) as C';
    calm_via x; [exact C|];
    calm_via (stopAllDetections x); [exact C'|];
    apply calm_setTimer; [discriminate | exact (calm_bounded _ _ C')]
  end.
Qed.

Lemma calm_displayCurrentQuestion s : handles_bounded s -> calm s (displayCurrentQuestion s).
Proof.
  intros B. unfold displayCurrentQuestion. cbv zeta.
  destruct (nth_error _ _) as [q|].
  - destruct (_ =? 0)%nat; [|calm_same].
    match goal with |- calm _ (set_currentQuestionIndex _ (showNotification ?m ?t ?x)) =>
      assert (C : calm s x) by calm_same;
      pose proof (calm_showNotification m t x (calm_bounded _ _ C)) as C';
      calm_via x; [exact C|];
      calm_via (showNotification m t x); [exact C'|];
      pose proof (calm_bounded _ _ C') as B'; calm_same
    end.
  - destruct (negb _); [apply calm_endInterview, B | calm_same].
Qed.

Lemma calm_run_callback cb id video s :
  wf s -> timers (browser s) !! id = Some cb -> cb <> CheckDimensions ->
  calm s (run_callback Math_atan2 cb id video (if repeats cb then s else clearTimer id s)).
Proof.
  intros W T N. pose proof (wf_bounded s W) as B.
  assert (C : forall cb', cb = cb' -> cb' <> EmotionLoop -> calm s (clearTimer id s)).
  { intros cb' -> N'. apply calm_clearTimer; [congruence | exact B]. }
  destruct cb; cbn [run_callback repeats]; try congruence.
  - pose proof (C _ eq_refl ltac:(discriminate)) as C1.
    calm_via (clearTimer id s); [exact C1 | apply calm_postureAlert, (calm_bounded _ _ C1)].
  - pose proof (C _ eq_refl ltac:(discriminate)) as C1.
    calm_via (clearTimer id s); [exact C1 | apply calm_emotionAlert, (calm_bounded _ _ C1)].
  - pose proof (C _ eq_refl ltac:(discriminate)) as C1.
    calm_via (clearTimer id s); [exact C1|].
    pose proof (calm_bounded _ _ C1) as B1. calm_same.
  - destruct (playing video); [calm_same | apply calm_refl, B].
  - destruct (_ =? 0)%Z; [|apply calm_refl, B].
    pose proof (C _ eq_refl ltac:(discriminate)) as C1.
    calm_via (clearTimer id s); [exact C1|].
    apply calm_setTimer; [discriminate | exact (calm_bounded _ _ C1)].
  - apply (C _ eq_refl ltac:(discriminate)).
Qed.

Lemma tame_runPoseDetectionLoop s : handles_bounded s -> tame s (runPoseDetectionLoop s).
Proof.
  intros B. unfold runPoseDetectionLoop.
  destruct (poseDetector (main s)); apply tame_view; try reflexivity; exact B.
Qed.

(** No event but canplay starts a loop, or stops one other than the
    emotion loop held in [detectionInterval]. *)
Lemma step_calm s e :
  wf s -> is_CanPlay e = false ->
  tame s (step Math_atan2 s e)
  /\ ((forall id, timers (browser s) !! id <> Some CheckDimensions) ->
      rests s (step Math_atan2 s e)).
Proof.
  intros W NC. pose proof (wf_bounded s W) as B.
  assert (Q : forall s', calm s s' ->
                tame s s'
                /\ ((forall id, timers (browser s) !! id <> Some CheckDimensions) ->
                    rests s s'))
    by (intros s' [T R]; split; [exact T | intros _; exact R]).
  destruct e; try discriminate NC; cbn [step].
  - apply Q. calm_same.
  - apply Q. calm_same.
  - apply Q. cbv zeta.
    assert (C : calm s (set_totalQuestions total s)) by calm_same.
    destruct (total =? 0)%nat.
    + calm_via (set_totalQuestions total s); [exact C|].
      apply calm_showNotification, (calm_bounded _ _ C).
    + calm_via (set_totalQuestions total s); [exact C|].
      pose proof (calm_bounded _ _ C) as B'. calm_same.
  - apply Q. calm_same.
  - apply Q. cbv zeta.
    match goal with |- calm _ (if _ then displayCurrentQuestion ?x else _) =>
      assert (C : calm s x) by calm_same;
      destruct (String.eqb _ _); [|exact C];
      calm_via x; [exact C | apply calm_displayCurrentQuestion, (calm_bounded _ _ C)]
    end.
  - apply Q. apply calm_showNotification, B.
  - unfold lookup_timer.
    destruct (timers (browser s) !! id) as [cb|] eqn:T; [|apply Q, calm_refl, B].
    assert (D : cb = CheckDimensions \/ cb <> CheckDimensions)
      by (destruct cb; (left; reflexivity) || (right; discriminate)).
    destruct D as [->|N];
      [|apply Q, calm_run_callback; assumption].
    cbn [repeats run_callback]. split; [|intros H; elim (H id T)].
    destruct (hasWidth video); [|apply tame_view; [reflexivity | exact B]].
    destruct (calm_clearTimer id s ltac:(congruence) B) as [T1 _].
    apply (tame_trans _ (clearTimer id s)); [exact T1|].
    apply tame_runPoseDetectionLoop. destruct T1; assumption.
  - destruct (bool_decide (id ∈ frames (browser s))) eqn:F; [|apply Q, calm_refl, B].
    apply bool_decide_eq_true in F. split.
    + destruct (calm_cancelAnimationFrame id s B) as [T1 _].
      apply (tame_trans _ (cancelAnimationFrame id s)); [exact T1|].
      apply tame_runPoseDetectionLoop. destruct T1; assumption.
    + intros _ _ E. rewrite E in F. exfalso. revert F. apply not_elem_of_empty.
  - destruct (posesInFlight (browser s)) as [|n] eqn:P; [apply Q, calm_refl, B|].
    split; [|intros _ P0; rewrite P in P0; discriminate].
    unfold posesEstimated.
    set (s1 := set_posesInFlight n s).
    assert (W1 : wf s1) by (subst s1; apply (wf_view s); [reflexivity | exact W]).
    assert (T1 : tame s s1) by (subst s1; apply tame_view; [reflexivity | exact B]).
    clearbody s1.
    assert (H : forall s2, tame s1 s2 ->
                tame s (let (id, s3) := requestAnimationFrame s2 in
                        set_poseDetectionFrameId (Some id) s3)).
    { intros s2 T2. apply (tame_trans _ s1); [exact T1|].
      apply (tame_trans _ s2); [exact T2|].
      apply tame_view; [reflexivity | destruct T2; assumption]. }
    destruct poses as [[|p ps]|];
      try (apply H, tame_view; [reflexivity | apply wf_bounded, W1]).
    destruct (handlePoseResults Math_atan2 s1 (Some (p :: ps))) as [s2|] eqn:E;
      [|exact T1].
    apply H. apply (tame_handlePoseResults _ _ _ W1 E).
  - destruct (facesInFlight (browser s)) as [|n]; [apply Q, calm_refl, B|].
    apply Q. cbv zeta.
    set (s1 := set_facesInFlight n s).
    assert (W1 : wf s1) by (subst s1; apply (wf_view s); [reflexivity | exact W]).
    assert (C1 : calm s s1) by (subst s1; calm_same).
    clearbody s1.
    destruct (runEmotionDetection s1 detections) as [s2|] eqn:E; [|exact C1].
    calm_via s1; [exact C1 | apply (calm_runEmotionDetection _ _ _ W1 E)].
  - apply Q. unfold clickSetBaseline.
    pose proof (calm_setBaseline s B) as C.
    destruct (setBaseline s) as [[] s1]; cbn [snd] in C; [|exact C].
    calm_via s1; [exact C | apply calm_displayCurrentQuestion, (calm_bounded _ _ C)].
  - apply Q. unfold handleAnswerButtonClick, startRecording, stopRecording. cbv zeta.
    destruct (negb _); [calm_same|].
    match goal with |- calm _ (displayCurrentQuestion ?x) =>
      assert (C : calm s x) by calm_same;
      calm_via x; [exact C | apply calm_displayCurrentQuestion, (calm_bounded _ _ C)]
    end.
  - apply Q. destruct (micRequests (browser s)); [apply calm_refl, B | calm_same].
  - apply Q. cbv zeta. destruct outcome.
    + calm_same.
    + match goal with |- calm _ (set_answersBeingProcessed _ (showNotification ?m ?t _)) =>
        pose proof (calm_showNotification m t s B) as C;
        calm_via (showNotification m t s); [exact C|];
        pose proof (calm_bounded _ _ C) as B'; calm_same
      end.
    + match goal with |- calm _ (set_answersBeingProcessed _ (showNotification ?m ?t _)) =>
        pose proof (calm_showNotification m t s B) as C;
        calm_via (showNotification m t s); [exact C|];
        pose proof (calm_bounded _ _ C) as B'; calm_same
      end.
  - apply Q, calm_endInterview, B.
  - apply Q. unfold resetInterview. cbv zeta. calm_same.
Qed.

(** X16: Only [startDetection] starts the pose loop.  From a reachable state
    in which the loop is at rest, events other than canplay leave it at
    rest, and the cached frame as it is. *)
Theorem pose_loop_started_only_by_canplay s events :
  reachable Math_atan2 s ->
  pose_loop_at_rest s ->
  Forall (fun e => is_CanPlay e = false) events ->
  pose_loop_at_rest (run Math_atan2 s events)
  /\ lastKeypoints (posture (run Math_atan2 s events)) = lastKeypoints (posture s).
Proof.
  intros R. pose proof (wf_reachable Math_atan2 s R) as W. clear R.
  revert s W. induction events as [|e events IH]; intros s W A F; [auto|].
  inversion F as [|? ? Fe Fs]; subst.
  destruct (step_calm s e W Fe) as [T Rs].
  destruct A as (P & Fr & C).
  pose proof (Rs C P Fr) as V. unfold pose_view in V. injection V as V1 V2 V3.
  change (run Math_atan2 s (e :: events))
    with (run Math_atan2 (step Math_atan2 s e) events).
  rewrite <- V3. apply IH; [apply wf_step, W | | exact Fs].
  split; [congruence|]. split; [congruence|].
  intros id T'. apply (tame_checks _ _ T) in T'. exact (C id T').
Qed.

(** X17: An emotion interval that [detectionInterval] does not hold is never
    cleared: whatever happens afterwards, it stays on the timer table,
    and [detectionInterval] never comes to hold it. *)
Theorem unheld_emotion_loop_never_cleared s id events :
  reachable Math_atan2 s ->
  timers (browser s) !! id = Some EmotionLoop ->
  detectionInterval (main s) <> Some id ->
  timers (browser (run Math_atan2 s events)) !! id = Some EmotionLoop
  /\ detectionInterval (main (run Math_atan2 s events)) <> Some id.
Proof.
  intros R. pose proof (wf_reachable Math_atan2 s R) as W. clear R.
  revert s W. induction events as [|e events IH]; intros s W T D; [auto|].
  change (run Math_atan2 s (e :: events))
    with (run Math_atan2 (step Math_atan2 s e) events).
  assert (H : timers (browser (step Math_atan2 s e)) !! id = Some EmotionLoop
              /\ detectionInterval (main (step Math_atan2 s e)) <> Some id).
  { destruct (is_CanPlay e) eqn:C.
    - destruct e; try discriminate C. cbn [step].
      destruct (startDetection_timers s) as (-> & _ & ->).
      pose proof (wf_bounded s W id _ T) as L.
      rewrite !lookup_insert_ne by lia. split; [exact T|]. intros [= E]. lia.
    - destruct (step_calm s e W C) as [[_ _ L I] _]. split; [apply L; assumption|].
      destruct I as [-> | ->]; [exact D | discriminate]. }
  destruct H as [T' D']. apply IH; [apply wf_step, W | exact T' | exact D'].
Qed.

End Loops.

Lemma no_check_pending s :
  forallb (fun entry => negb (is_CheckDimensions (snd entry)))
          (map_to_list (timers (browser s))) = true ->
  forall id, timers (browser s) !! id <> Some CheckDimensions.
Proof.
  intros H id T. apply elem_of_map_to_list, list_elem_of_In in T.
  rewrite forallb_forall in H. apply H in T. discriminate T.
Qed.

(* ===================================================================== *)
(** ** fileHelpers.js: cleaning a transcription *)
(* ===================================================================== *)

Section Transcription.

Lemma is_space_32 : is_space 32%N = true.
Proof. reflexivity. Qed.

Lemma ink_cons c rest :
  ink (c :: rest) = if is_space c then ink rest else c :: ink rest.
Proof. unfold ink; simpl. now destruct (is_space c). Qed.

Lemma collapse_spaces_ink in_run text :
  ink (collapse_spaces in_run text) = ink text.
Proof.
  revert in_run; induction text as [|c rest IH]; intros in_run; [reflexivity|].
  cbn [collapse_spaces]. rewrite (ink_cons c rest).
  destruct (is_space c) eqn:E.
  - destruct in_run; [apply IH|]. rewrite ink_cons, is_space_32. apply IH.
  - rewrite ink_cons, E. f_equal. apply IH.
Qed.

Lemma trimStart_ink text : ink (trimStart text) = ink text.
Proof.
  induction text as [|c rest IH]; [reflexivity|].
  cbn [trimStart]. destruct (is_space c) eqn:E; [|reflexivity].
  now rewrite IH, ink_cons, E.
Qed.

Lemma trimEnd_ink text : ink (trimEnd text) = ink text.
Proof.
  induction text as [|c rest IH]; [reflexivity|].
  cbn [trimEnd]. rewrite (ink_cons c rest), <- IH.
  destruct (trimEnd rest) as [|k kept].
  - destruct (is_space c) eqn:E; [reflexivity|]. now rewrite ink_cons, E.
  - now rewrite (ink_cons c).
Qed.

Lemma cleanTranscription_ink text :
  ink (cleanTranscription text) = ink (remove_bracketed 0 text).
Proof.
  unfold cleanTranscription, trim.
  now rewrite trimEnd_ink, trimStart_ink, collapse_spaces_ink.
Qed.

Lemma collapse_spaces_loose in_run text :
  loosely_spaced (collapse_spaces in_run text) = true
  /\ (in_run = true -> starts_inked (collapse_spaces in_run text) = true).
Proof.
  revert in_run; induction text as [|c rest IH]; intros in_run; [now split|].
  simpl. destruct (is_space c) eqn:E.
  - destruct in_run.
    + apply IH.
    + split; [|discriminate].
      destruct (IH true) as [L H]. specialize (H eq_refl).
      cbn [loosely_spaced]. rewrite is_space_32, L.
      unfold starts_inked in H.
      destruct (collapse_spaces true rest); [reflexivity|].
      now rewrite H.
  - destruct (IH false) as [L _].
    split; [|intros _; simpl; now rewrite E].
    cbn [loosely_spaced]. now rewrite E, L.
Qed.

Lemma trimStart_loose text :
  loosely_spaced text = true ->
  loosely_spaced (trimStart text) = true /\ starts_inked (trimStart text) = true.
Proof.
  induction text as [|c rest IH]; intros L; [now split|].
  simpl. destruct (is_space c) eqn:E.
  - apply IH. simpl in L. now apply andb_true_iff in L.
  - split; [exact L|]. simpl. now rewrite E.
Qed.

Lemma trimEnd_head text k kept :
  trimEnd text = k :: kept -> exists rest, text = k :: rest.
Proof.
  destruct text as [|c rest]; [discriminate|].
  simpl. destruct (trimEnd rest).
  - destruct (is_space c); [discriminate|]. intros [= <- _]. now exists rest.
  - intros [= <- _]. now exists rest.
Qed.

Lemma trimEnd_single_spaced text :
  loosely_spaced text = true -> single_spaced (trimEnd text) = true.
Proof.
  induction text as [|c rest IH]; intros L; [reflexivity|].
  simpl in L. apply andb_true_iff in L as [Lc L].
  specialize (IH L). simpl.
  destruct (trimEnd rest) as [|k kept] eqn:T.
  - destruct (is_space c) eqn:E; [reflexivity|]. simpl. now rewrite E.
  - apply trimEnd_head in T as [rest' ->].
    cbn [single_spaced] in *. now rewrite Lc, IH.
Qed.

Lemma trimEnd_starts_inked text :
  starts_inked text = true -> starts_inked (trimEnd text) = true.
Proof.
  destruct text as [|c rest]; [reflexivity|].
  simpl. intros E. apply negb_true_iff in E.
  destruct (trimEnd rest); rewrite ?E; simpl; now rewrite E.
Qed.

Lemma cleanTranscription_is_tidy text : tidy (cleanTranscription text) = true.
Proof.
  unfold cleanTranscription, trim.
  destruct (collapse_spaces_loose false (remove_bracketed 0 text)) as [L _].
  apply trimStart_loose in L as [L H].
  apply trimEnd_single_spaced in L. apply trimEnd_starts_inked in H.
  unfold tidy. fold (starts_inked (trimEnd (trimStart
    (collapse_spaces false (remove_bracketed 0 text))))).
  now rewrite H, L.
Qed.

Lemma tidy_ink_nil text : tidy text = true -> ink text = [] -> text = [].
Proof.
  destruct text as [|c rest]; [reflexivity|].
  unfold tidy. intros T. apply andb_true_iff in T as [H _].
  rewrite ink_cons. apply negb_true_iff in H. now rewrite H.
Qed.

(** X18: What [cleanTranscription] returns has no white space at either
    end, and inside only single spaces; its other code units are those
    left by the removal of the bracketed parts, in their order. *)
Theorem cleanTranscription_tidy text :
  tidy (cleanTranscription text) = true
  /\ ink (cleanTranscription text) = ink (remove_bracketed 0 text).
Proof.
  split; [apply cleanTranscription_is_tidy | apply cleanTranscription_ink].
Qed.

(** X19: The cleaned text is empty, so that the route answers "No speech
    detected", exactly when nothing but white space is left outside the
    bracketed parts. *)
Theorem cleanTranscription_empty text :
  cleanTranscription text = []
  <-> forallb is_space (remove_bracketed 0 text) = true.
Proof.
  assert (I : forall t, ink t = [] <-> forallb is_space t = true).
  { induction t as [|c rest IH]; [now split|].
    rewrite ink_cons. cbn [forallb]. destruct (is_space c); simpl.
    - exact IH.
    - split; discriminate. }
  rewrite <- I, <- cleanTranscription_ink.
  split.
  - now intros ->.
  - apply tidy_ink_nil, cleanTranscription_is_tidy.
Qed.

Lemma remove_bracketed_skip dropped n rest :
  remove_bracketed (length dropped + n) (dropped ++ rest) = remove_bracketed n rest.
Proof.
  induction dropped as [|c dropped IH]; [reflexivity|]. simpl. exact IH.
Qed.

Lemma remove_bracketed_before before rest :
  forallb (fun c => negb (c =? 91)%N) before = true ->
  remove_bracketed 0 (before ++ rest) = before ++ remove_bracketed 0 rest.
Proof.
  induction before as [|c before IH]; intros H; [reflexivity|].
  simpl in H. apply andb_true_iff in H as [Hc H].
  apply negb_true_iff in Hc. simpl. rewrite Hc. f_equal. now apply IH.
Qed.

Lemma closing_bracket_found inside after :
  forallb (fun c => negb (c =? 93)%N && negb (is_LineTerminator c)) inside = true ->
  closing_bracket (inside ++ 93%N :: after) = Some (length inside).
Proof.
  induction inside as [|c inside IH]; intros H; [reflexivity|].
  simpl in H. apply andb_true_iff in H as [Hc H].
  apply andb_true_iff in Hc as [H1 H2].
  apply negb_true_iff in H1, H2.
  simpl. rewrite H1, H2, (IH H). reflexivity.
Qed.

(** X20: A bracketed part that lies on one line, with no opening bracket
    before it, is cleaned away as if it were not in the text. *)
Theorem cleanTranscription_drops_annotation before inside after :
  forallb (fun c => negb (c =? 91)%N) before = true ->
  forallb (fun c => negb (c =? 93)%N && negb (is_LineTerminator c)) inside = true ->
  cleanTranscription (before ++ [91%N] ++ inside ++ [93%N] ++ after)
  = cleanTranscription (before ++ after).
Proof.
  intros B I. unfold cleanTranscription.
  rewrite !(remove_bracketed_before before) by exact B.
  do 3 f_equal.
  change ([91%N] ++ inside ++ [93%N] ++ after) with (91%N :: inside ++ 93%N :: after).
  cbn [remove_bracketed]. rewrite N.eqb_refl, (closing_bracket_found inside after I).
  replace (S (length inside)) with (length (inside ++ [93%N]) + 0)%nat
    by (rewrite length_app; simpl; lia).
  replace (inside ++ 93%N :: after) with ((inside ++ [93%N]) ++ after)
    by (now rewrite <- app_assoc).
  apply remove_bracketed_skip.
Qed.

End Transcription.

(* ===================================================================== *)
(** ** reportGenerator.js: the stars of a rating *)
(* ===================================================================== *)

Lemma concat_repeat_singleton (c : CodeUnit) n : concat (repeat [c] n) = repeat c n.
Proof. induction n as [|n IH]; [reflexivity|]. simpl. now rewrite IH. Qed.

(** X21: For a rating from 0 to 5, or a missing one, [starsHtml] gives five
    symbols, as many full stars as the rating followed by empty ones; for
    any other integer it throws. *)
Theorem starsHtml_five_symbols rating :
  let stars := match rating with Some r => r | None => 0%Z end in
  if ((0 <=? stars) && (stars <=? 5))%Z
  then starsHtml rating
       = Some (repeat 0x2B50%N (Z.to_nat stars) ++ repeat 0x2606%N (5 - Z.to_nat stars))
  else starsHtml rating = None.
Proof.
  intros stars. unfold starsHtml. fold stars. unfold String_repeat.
  destruct (0 <=? stars)%Z eqn:L; destruct (stars <=? 5)%Z eqn:U; simpl.
  - replace (stars <? 0)%Z with false by lia.
    replace (5 - stars <? 0)%Z with false by lia.
    rewrite !concat_repeat_singleton.
    replace (Z.to_nat (5 - stars)) with (5 - Z.to_nat stars)%nat by lia.
    reflexivity.
  - replace (stars <? 0)%Z with false by lia.
    now replace (5 - stars <? 0)%Z with true by lia.
  - now replace (stars <? 0)%Z with true by lia.
  - lia.
Qed.

(* ===================================================================== *)
(** ** The retry loop of the backend routes *)
(* ===================================================================== *)

(** X22: The model is called at most three times, after waits of one and
    two seconds; a call is repeated only after a 503, and the outcome is
    that of the last call made, so that a third 503 is thrown. *)
Theorem generateWithRetry_outcome generateContent :
  let (delays, outcome) := generateWithRetry generateContent in
  (delays = [] \/ delays = [1000%Z] \/ delays = [1000%Z; 2000%Z])
  /\ outcome = Some (generateContent (length delays))
  /\ (forall k, (k < length delays)%nat -> overloaded (generateContent k) = true)
  /\ (overloaded (generateContent (length delays)) = true -> length delays = 2%nat).
Proof.
  unfold generateWithRetry, maxRetries. cbn [retry_loop].
  assert (K0 : forall P : nat -> Prop, forall k, (k < 0)%nat -> P k)
    by (intros P k Hk; lia).
  assert (K : forall (P : nat -> Prop) n, (forall k, (k < n)%nat -> P k) ->
              P n -> forall k, (k < S n)%nat -> P k).
  { intros P n H Hn k Hk. destruct (Nat.eq_dec k n) as [->|]; [exact Hn|].
    apply H. lia. }
  destruct (generateContent 0%nat) as [r0|[c0|]] eqn:G0; cbn [andb Nat.ltb Nat.leb Nat.sub length maxRetries].
  - split; [now left|]. split; [now rewrite G0|]. split; [apply K0|].
    simpl. rewrite G0. discriminate.
  - destruct (c0 =? 503)%Z eqn:C0; cbn [andb Nat.ltb Nat.leb Nat.sub length maxRetries].
    + assert (O0 : overloaded (generateContent 0%nat) = true) by (now rewrite G0).
      destruct (generateContent 1%nat) as [r1|[c1|]] eqn:G1; cbn [andb Nat.ltb Nat.leb Nat.sub length maxRetries].
      * split; [now right; left|]. split; [now rewrite G1|].
        split; [apply K; [apply K0 | exact O0]|].
        simpl. rewrite G1. discriminate.
      * destruct (c1 =? 503)%Z eqn:C1; cbn [andb Nat.ltb Nat.leb Nat.sub length maxRetries].
        -- assert (O1 : overloaded (generateContent 1%nat) = true) by (now rewrite G1).
           destruct (generateContent 2%nat) as [r2|[c2|]] eqn:G2;
             cbn [andb Nat.ltb Nat.leb Nat.sub length maxRetries];
             try rewrite Bool.andb_false_r; cbn [length];
             (split; [now right; right|]; split; [now rewrite G2|];
              split; [apply K; [apply K; [apply K0 | exact O0] | exact O1]|];
              reflexivity).
        -- split; [now right; left|]. split; [now rewrite G1|].
           split; [apply K; [apply K0 | exact O0]|].
           simpl. rewrite G1. simpl. rewrite C1. discriminate.
      * split; [now right; left|]. split; [now rewrite G1|].
        split; [apply K; [apply K0 | exact O0]|].
        simpl. rewrite G1. discriminate.
    + split; [now left|]. split; [now rewrite G0|]. split; [apply K0|].
      simpl. rewrite G0. simpl. rewrite C0. discriminate.
  - split; [now left|]. split; [now rewrite G0|]. split; [apply K0|].
    simpl. rewrite G0. discriminate.
Qed.

(* ===================================================================== *)
(** ** uiController.js: the theme toggle *)
(* ===================================================================== *)

Lemma themeToggled_invariant t :
  (darkClass (themeToggled t) = true <-> savedTheme (themeToggled t) = Some "dark")
  /\ toggleText (themeToggled t)
     = (if darkClass (themeToggled t) then "☀️" else "🌙")
  /\ darkClass (themeToggled t) = negb (darkClass t).
Proof.
  unfold themeToggled. destruct (darkClass t); simpl; repeat split; auto; discriminate.
Qed.

Lemma reloaded_invariant page t :
  darkClass page = false ->
  darkClass (reloaded page t) = true <-> savedTheme (reloaded page t) = Some "dark".
Proof.
  intros P. unfold reloaded, themeLoaded. cbn [savedTheme].
  destruct (savedTheme t) as [theme|] eqn:S; cbn [darkClass savedTheme].
  - destruct (String.eqb theme "") eqn:E; cbn [darkClass savedTheme].
    + apply String.eqb_eq in E. subst theme. rewrite P. split; discriminate.
    + unfold applyTheme. destruct (String.eqb theme "dark") eqn:D; cbn [darkClass savedTheme].
      * apply String.eqb_eq in D. now subst theme.
      * split; [discriminate|]. intros [= ->]. discriminate.
  - rewrite P. split; discriminate.
Qed.

Lemma reloaded_class page t :
  darkClass page = false ->
  (darkClass t = true <-> savedTheme t = Some "dark") ->
  darkClass (reloaded page t) = darkClass t.
Proof.
  intros P I. unfold reloaded, themeLoaded. cbn [savedTheme].
  destruct (savedTheme t) as [theme|] eqn:S; cbn [darkClass].
  - destruct (String.eqb theme "") eqn:E; cbn [darkClass].
    + apply String.eqb_eq in E. subst theme. rewrite P.
      destruct (darkClass t); [|reflexivity]. now destruct I as [I _]; specialize (I eq_refl).
    + unfold applyTheme. destruct (String.eqb theme "dark") eqn:D; cbn [darkClass].
      * apply String.eqb_eq in D. subst theme. symmetry. now apply I.
      * destruct (darkClass t); [|reflexivity].
        destruct I as [I _]; specialize (I eq_refl). injection I as ->. discriminate.
  - rewrite P. destruct (darkClass t); [|reflexivity].
    now destruct I as [I _]; specialize (I eq_refl).
Qed.

(** X23: On a page whose HTML is light, the theme chosen with the toggle
    survives a reload: after any number of clicks the class that a reload
    gives the body is the one it has, the body is dark exactly when
    "dark" is stored, and each click flips the theme. *)
Theorem theme_survives_reload page before clicks :
  darkClass page = false ->
  let t := Nat.iter clicks themeToggled (reloaded page before) in
  darkClass (reloaded page t) = darkClass t
  /\ (darkClass t = true <-> savedTheme t = Some "dark")
  /\ darkClass (themeToggled t) = negb (darkClass t).
Proof.
  intros P t.
  assert (I : darkClass t = true <-> savedTheme t = Some "dark").
  { subst t. destruct clicks as [|n]; simpl.
    - now apply reloaded_invariant.
    - apply themeToggled_invariant. }
  split; [now apply reloaded_class|]. split; [exact I|].
  apply themeToggled_invariant.
Qed.

(* ===================================================================== *)
(** ** Examples *)
(* ===================================================================== *)

(** C1 on a frame that shows only the nose. *)
Lemma analyzePosture_key_points_hidden_witness :
  has_landmark nose_only "left_shoulder"
  && has_landmark nose_only "right_shoulder"
  && has_landmark nose_only "nose" = false
  /\ analyzePosture atan2_on_axes (Some (mkBaseline 1.2%float)) nose_only
     = ["Key points hidden"].
Proof.
  split; [reflexivity|].
  apply (analyzePosture_key_points_hidden atan2_on_axes). reflexivity.
Defined.

(** C2 at the boundary: against a baseline ratio of 2, a frame of ratio
    1.5 deviates by exactly -0.25 and is not flagged. *)
Lemma analyzePosture_slouching_witness :
  let b := mkBaseline 2%float in
  let keypoints := upright 75%float in
  relative_deviation b (landmark "left_shoulder" 150%float 200%float)
                       (landmark "right_shoulder" 100%float 200%float)
                       (landmark "nose" 125%float (200 - 75)%float)
  = (-0.25)%float
  /\ ~ In "Slouching" (analyzePosture atan2_on_axes (Some b) keypoints).
Proof.
  split; [reflexivity|].
  apply (analyzePosture_slouching atan2_on_axes (mkBaseline 2%float) (upright 75%float)
           (landmark "left_shoulder" 150%float 200%float)
           (landmark "right_shoulder" 100%float 200%float)
           (landmark "nose" 125%float (200 - 75)%float));
    reflexivity.
Defined.

(** C8 on a tie: "happy" and "sad" share the greatest score, and "happy",
    which comes first, is returned. *)
Lemma dominantEmotion_first_maximum_witness :
  exists before score after,
    tied_expressions = before ++ ("happy", score) :: after
    /\ dominantEmotion tied_expressions = Some "happy"
    /\ Forall (fun e => (snd e <? score)%float = true) before
    /\ Forall (fun e => (snd e <=? score)%float = true) after.
Proof.
  destruct (proj1 dominantEmotion_first_maximum tied_expressions)
    as (before & label & score & after & E & D & B & A).
  - discriminate.
  - repeat constructor.
  - exists before, score, after.
    assert (L : label = "happy") by (vm_compute in D; congruence).
    rewrite <- L. auto.
Defined.

(** C7, as the specification words it, fails: 23 labels of 40 are 57.5
    percent, which rounds to 58, but the quotient 23/40 times 100 is
    57.49999999999999 in binary64 and the code returns 57. *)
Lemma calculateDistribution_not_exactly_rounded :
  ~ exactly_rounded forty_labels.
Proof.
  intros H. specialize (H "Slouching").
  assert (Hin : In "Slouching" forty_labels) by (left; reflexivity).
  specialize (H Hin). vm_compute in H. discriminate H.
Qed.

(** C9 during an answer, on a frame whose first keypoint has x = NaN. *)
Lemma handlePoseResults_no_signal_witness :
  no_signal first_keypoint_invalid = true
  /\ handlePoseResults atan2_on_axes (run atan2_on_axes initial answer_started)
                       first_keypoint_invalid
     = Some (updatePostureUI "🤔" "Calibrating..."
                             (run atan2_on_axes initial answer_started)).
Proof.
  split; [reflexivity|].
  apply (handlePoseResults_no_signal atan2_on_axes). reflexivity.
Defined.

(** C9, as the specification words it, fails: the guard reads the x
    coordinate of the first keypoint only.  A frame whose second keypoint
    has x = NaN is cached, classified ("Key points hidden"), logged and
    arms the posture timer. *)
Lemma handlePoseResults_checks_first_keypoint_only :
  ~ no_signal_on_any_invalid_coordinate.
Proof.
  intros H.
  specialize (H atan2_on_axes
                (run atan2_on_axes initial answer_started)
                (mkPose (Some second_keypoint_invalid)) []
                second_keypoint_invalid eq_refl eq_refl).
  destruct H as (s' & E & Hp & _).
  vm_compute in E. injection E as <-. vm_compute in Hp. discriminate Hp.
Qed.

(** A first subject with an empty keypoint array: reading
    [keypoints[0].x] raises a TypeError. *)
Example handlePoseResults_empty_keypoints s :
  handlePoseResults atan2_on_axes s (Some [mkPose (Some [])]) = None.
Proof. reflexivity. Qed.


(** That run shows the tip once, on the timer's callback; the
    good frame that follows lets the next adverse frame arm a new timer,
    and the tip is shown a second time. *)
Example tip_once_per_episode :
  let s := run atan2_on_axes initial answer_started in
  shown POSTURE_TIP s = 0
  /\ shown POSTURE_TIP (run atan2_on_axes s adverse_frames) = 1
  /\ isAlertingPosture (posture (run atan2_on_axes s adverse_frames)) = true
  /\ shown POSTURE_TIP (run atan2_on_axes s (adverse_frames ++ adverse_again)) = 2.
Proof. vm_compute. repeat split. Qed.

(** C4 before any answer: the frame is classified, nothing is logged and
    no timer is armed. *)
Lemma frames_off_the_record_witness :
  let s := run atan2_on_axes initial detection_started in
  reachable atan2_on_axes s
  /\ recording (main s) = false
  /\ exists s',
       handlePoseResults atan2_on_axes s (Some [mkPose (Some nose_only)]) = Some s'
       /\ interview s' = interview s
       /\ timers (browser s') = timers (browser s)
       /\ postureLabel (browser s') = "Key points hidden".
Proof.
  assert (R : reachable atan2_on_axes (run atan2_on_axes initial detection_started))
    by (exists detection_started; reflexivity).
  split; [exact R|]. split; [reflexivity|].
  destruct (frames_off_the_record atan2_on_axes _ R) as [Off _].
  destruct (Off eq_refl) as (Quiet & _ & Live & _).
  destruct (Live (mkPose (Some nose_only)) [] (landmark "nose" 125%float 100%float) []
              eq_refl eq_refl eq_refl) as (s' & E & _ & L).
  exists s'. split; [exact E|].
  destruct (Quiet _ _ E) as (I & _ & _ & _ & T & _).
  split; [exact I|]. split; [exact T|]. exact L.
Defined.

(** C4, as the specification words it, fails: the callback of the posture
    timer runs when the timer elapses, recording or not.  Here the answer
    is stopped before the timer armed during it (handle 5) has elapsed;
    the callback then sets the alerted flag and shows the tip. *)
Lemma alert_fires_after_recording_stopped : ~ only_while_recording.
Proof.
  intros H.
  specialize (H atan2_on_axes (run atan2_on_axes initial answer_cut_short)
                (TimerFires 5 ready) (ex_intro _ answer_cut_short eq_refl) eq_refl).
  destruct H as (_ & A & _). vm_compute in A. discriminate A.
Qed.

(** C5 during an answer: the posture timer survives the stop and shows
    the tip. *)
Lemma stopAllDetections_leaves_work_witness :
  let s := run atan2_on_axes initial answer_in_progress in
  reachable atan2_on_axes s
  /\ timers (browser s) !! 5 = Some PostureAlert
  /\ timers (browser (stopAllDetections s)) !! 5 = Some PostureAlert
  /\ shown POSTURE_TIP (step atan2_on_axes (stopAllDetections s) (TimerFires 5 ready))
     = S (shown POSTURE_TIP (stopAllDetections s)).
Proof.
  assert (R : reachable atan2_on_axes (run atan2_on_axes initial answer_in_progress))
    by (exists answer_in_progress; reflexivity).
  split; [exact R|]. split; [vm_compute; reflexivity|].
  destruct (stopAllDetections_leaves_work atan2_on_axes _ R)
    as (_ & (Left & _) & Fires & _).
  split.
  - apply Left; [vm_compute; reflexivity | discriminate].
  - apply (Fires 5 ready (upright 40%float));
      [vm_compute; reflexivity | reflexivity | vm_compute; discriminate].
Defined.

(** C5, as the specification words it, fails: the posture timer armed
    during the answer (handle 5) is on the table when detection is
    stopped, stays there, and shows the tip when it elapses. *)
Lemma alert_fires_after_stop : ~ no_alert_after_stop.
Proof.
  intros H.
  destruct (H atan2_on_axes (run atan2_on_axes initial answer_in_progress) 5 ready
              (ex_intro _ answer_in_progress eq_refl)) as [P _].
  vm_compute in P. discriminate P.
Qed.

(** The End Interview button, clicked during an answer in which the one
    frame seen is slouching and while the next pose inference is in
    flight.  [endInterview] has called [stopAllDetections]: the report is
    on screen, the frame and interval handles are cleared and the camera
    is off.  The posture timer (handle 5) is still on the table and shows
    the tip when it elapses; the inference in flight is handled when it
    completes, and the loop requests its next frame (handle 3). *)
Example alert_after_interview_ended :
  let s := run atan2_on_axes initial interview_ended in
  screen (browser s) = "report"
  /\ recording (main s) = false
  /\ poseDetectionFrameId (main s) = None
  /\ detectionInterval (main s) = None
  /\ cameraLive (browser s) = false
  /\ timers (browser s) !! 5 = Some PostureAlert
  /\ shown POSTURE_TIP s = 0
  /\ shown POSTURE_TIP (step atan2_on_axes s (TimerFires 5 ready)) = 1
  /\ posesInFlight (browser s) = 1
  /\ let s' := step atan2_on_axes s good_frame in
     lastKeypoints (posture s') = Some (upright 60%float)
     /\ postureLabel (browser s') = "Good Posture"
     /\ poseDetectionFrameId (main s') = Some 3
     /\ frames (browser s') = {[3]}.
Proof. vm_compute. repeat split. Qed.

Lemma analyzePosture_never_slouching_witness :
  ~ In "Slouching" (analyzePosture atan2_on_axes (Some (mkBaseline 0%float))
                                   (upright 10%float)).
Proof.
  apply analyzePosture_never_slouching.
  right. left. exists (mkBaseline 0%float). split; reflexivity.
Defined.

Lemma analyzePosture_level_shoulders_witness :
  ~ In "Tilted Shoulders" (analyzePosture atan2_on_axes None (upright 60%float))
  /\ In "Tilted Shoulders" (analyzePosture atan2_on_axes None unmirrored).
Proof.
  split.
  - apply (analyzePosture_level_shoulders atan2_on_axes atan2_on_axes_zero_negative
             atan2_on_axes_zero_positive None (upright 60%float)
             (landmark "left_shoulder" 150%float 200%float)
             (landmark "right_shoulder" 100%float 200%float)
             (landmark "nose" 125%float (200 - 60)%float));
      reflexivity.
  - apply (analyzePosture_level_shoulders atan2_on_axes atan2_on_axes_zero_negative
             atan2_on_axes_zero_positive None unmirrored
             (landmark "left_shoulder" 100%float 200%float)
             (landmark "right_shoulder" 150%float 200%float)
             (landmark "nose" 125%float 140%float));
      reflexivity.
Defined.

Lemma handlePoseResults_logs_displayed_label_witness :
  let s := run atan2_on_axes initial answer_started in
  exists s',
    handlePoseResults atan2_on_axes s (Some [mkPose (Some (upright 40%float))]) = Some s'
    /\ postureLabel (browser s') = "Slouching"
    /\ currentAnswerPostures (interview s') = ["Slouching"].
Proof.
  destruct (handlePoseResults_logs_displayed_label atan2_on_axes
              (run atan2_on_axes initial answer_started)
              (mkPose (Some (upright 40%float))) []
              (landmark "nose" 125%float (200 - 40)%float)
              [ landmark "left_shoulder" 150%float 200%float;
                landmark "right_shoulder" 100%float 200%float ]
              eq_refl eq_refl eq_refl eq_refl)
    as (s' & E & _ & L & _ & A & _).
  exists s'. split; [exact E|].
  assert (L' : postureLabel (browser s') = "Slouching") by (rewrite L; vm_compute; reflexivity).
  split; [exact L'|]. rewrite A, L'. vm_compute. reflexivity.
Defined.

Lemma alert_timers_unique_witness :
  let s := run atan2_on_axes initial (answer_started ++ [FrameFires 1; slouching_frame]) in
  timers (browser s) !! 5 = Some PostureAlert
  /\ badPostureTimer (posture s) = Some 5
  /\ isAlertingPosture (posture s) = false.
Proof.
  assert (T : timers (browser (run atan2_on_axes initial
                (answer_started ++ [FrameFires 1; slouching_frame]))) !! 5
              = Some PostureAlert) by (vm_compute; reflexivity).
  split; [exact T|].
  destruct (alert_timers_unique atan2_on_axes _
              (ex_intro _ (answer_started ++ [FrameFires 1; slouching_frame]) eq_refl))
    as (_ & _ & P & _).
  destruct (P 5 T) as (B & A & _). split; assumption.
Defined.



Lemma setBaseline_frame_not_slouching_witness :
  let s := calibrating None (upright 60%float) in
  fst (setBaseline s) = true
  /\ ~ In "Slouching"
        (analyzePosture atan2_on_axes (baselinePosture (posture (snd (setBaseline s))))
                        (upright 60%float)).
Proof.
  split; [reflexivity|].
  apply (setBaseline_frame_not_slouching atan2_on_axes
           (calibrating None (upright 60%float)) (upright 60%float));
    reflexivity.
Defined.

Lemma calculateDistribution_Permutation_witness :
  calculateDistribution ["Slouching"; "Good Posture"; "Slouching"]
  = calculateDistribution ["Good Posture"; "Slouching"; "Slouching"].
Proof.
  apply calculateDistribution_Permutation.
  apply perm_swap.
Defined.

Lemma prepareFormData_attributes_answer_witness :
  let s := run atan2_on_axes initial (answer_started ++ [FrameFires 1; slouching_frame]) in
  exists form,
    prepareFormData "Web" "Entry" (stopRecording s) = Some form
    /\ fd_questionText form = "Tell me about yourself."
    /\ fd_questionIndex form = 3
    /\ fd_postureData form = {[ "Slouching" := 100%float ]}.
Proof.
  destruct (prepareFormData_attributes_answer "Web" "Entry"
              (run atan2_on_axes initial (answer_started ++ [FrameFires 1; slouching_frame]))
              0 (mkQuestion "Tell me about yourself." "behavioral")
              eq_refl eq_refl eq_refl eq_refl _ (or_introl eq_refl))
    as ((form & E & T & _ & X & P & _) & _).
  exists form. split; [exact E|]. split; [exact T|]. split; [exact X|].
  rewrite P. vm_compute. reflexivity.
Defined.

Lemma pose_loop_started_only_by_canplay_witness :
  let s := run atan2_on_axes initial check_passed_without_models in
  pose_loop_at_rest s
  /\ lastKeypoints (posture (run atan2_on_axes s session_without_poses))
     = lastKeypoints (posture s)
  /\ lastKeypoints (posture s) = None.
Proof.
  cbv zeta.
  assert (A : pose_loop_at_rest (run atan2_on_axes initial check_passed_without_models)).
  { split; [vm_compute; reflexivity|]. split; [vm_compute; reflexivity|].
    apply no_check_pending. vm_compute. reflexivity. }
  split; [exact A|]. split; [|vm_compute; reflexivity].
  apply (pose_loop_started_only_by_canplay atan2_on_axes _ session_without_poses
           (ex_intro _ check_passed_without_models eq_refl) A).
  repeat constructor.
Defined.

Lemma unheld_emotion_loop_never_cleared_witness :
  let s := run atan2_on_axes initial second_canplay in
  detectionInterval (main s) = Some 6
  /\ timers (browser (run atan2_on_axes s answer_and_end)) !! 2 = Some EmotionLoop.
Proof.
  cbv zeta. split; [vm_compute; reflexivity|].
  apply (unheld_emotion_loop_never_cleared atan2_on_axes _ 2 answer_and_end
           (ex_intro _ second_canplay eq_refl)).
  - vm_compute. reflexivity.
  - vm_compute. discriminate.
Defined.

Lemma cleanTranscription_drops_annotation_witness :
  cleanTranscription (units "I led  [BLANK_AUDIO] the team")
  = cleanTranscription (units "I led  " ++ units " the team")
  /\ cleanTranscription (units "I led  [BLANK_AUDIO] the team") = units "I led the team".
Proof.
  split; [|reflexivity].
  apply (cleanTranscription_drops_annotation
           (units "I led  ") (units "BLANK_AUDIO") (units " the team")); reflexivity.
Defined.

Lemma theme_survives_reload_witness :
  darkClass (Nat.iter 3 themeToggled
               (reloaded (mkTheme false "🌙" None) (mkTheme false "🌙" None))) = true
  /\ darkClass (reloaded (mkTheme false "🌙" None)
                 (Nat.iter 3 themeToggled
                    (reloaded (mkTheme false "🌙" None) (mkTheme false "🌙" None))))
     = darkClass (Nat.iter 3 themeToggled
                    (reloaded (mkTheme false "🌙" None) (mkTheme false "🌙" None))).
Proof.
  split; [reflexivity|].
  exact (proj1 (theme_survives_reload
                  (mkTheme false "🌙" None) (mkTheme false "🌙" None) 3 eq_refl)).
Defined.

(** C7 on three labels: "Slouching", 2 of 3, gets 67. *)
Lemma calculateDistribution_lookup_witness :
  forallb (fun val => negb (inherited val))
          ["Slouching"; "Good Posture"; "Slouching"] = true
  /\ calculateDistribution ["Slouching"; "Good Posture"; "Slouching"] !! "Slouching"
     = Some 67%float.
Proof.
  split; [reflexivity|].
  exact (proj1 calculateDistribution_lookup
               ["Slouching"; "Good Posture"; "Slouching"] eq_refl "Slouching").
Defined.

Lemma calculateDistribution_inherited_names_witness :
  (exists value,
      calculateDistribution ["toString"; "Slouching"] !! "toString" = Some value
      /\ JS.isNaN value = true)
  /\ calculateDistribution ["toString"; "Slouching"] !! "Slouching" = Some 50%float
  /\ calculateDistribution ["__proto__"; "Slouching"] !! "__proto__" = None.
Proof.
  split; [|split; [vm_compute; reflexivity|]].
  - apply (calculateDistribution_inherited_names ["toString"; "Slouching"] "toString");
      [reflexivity | left; reflexivity].
  - apply (calculateDistribution_inherited_names ["__proto__"; "Slouching"] "__proto__");
      [reflexivity | left; reflexivity].
Defined.
